(** * GovInfo MCP tools: request construction and response shaping

    A shallow embedding of the tool functions of [app/tools/*.py].  Every
    tool is an effectful Python coroutine: it logs, reads the module-level
    [API_KEY], issues at most one HTTP request and returns a value or raises.
    The embedding threads those effects through a small writer/exception
    monad whose trace records every log call and every HTTP request in
    program order. *)

From Stdlib Require Import ZArith NArith List String Ascii Bool Lia.
From Stdlib Require Import Strings.Byte.
From Stdlib Require Import DecimalString.
Import ListNotations.

Set Warnings "-register-all".
Local Open Scope string_scope.
Local Open Scope Z_scope.

(** ** Python values *)

(** A Python [str] is modelled by [string].  [lower] is ASCII lowercasing,
    which is what [str.lower()] does on the ASCII range, the range in which
    every key the tools compare against lives. *)

Definition lower_ascii (c : ascii) : ascii :=
  let n := nat_of_ascii c in
  if andb (Nat.leb 65 n) (Nat.leb n 90) then ascii_of_nat (n + 32) else c.

Fixpoint lower (s : string) : string :=
  match s with
  | EmptyString => EmptyString
  | String c r => String (lower_ascii c) (lower r)
  end.

Definition upper_ascii (c : ascii) : ascii :=
  let n := nat_of_ascii c in
  if andb (Nat.leb 97 n) (Nat.leb n 122) then ascii_of_nat (n - 32) else c.

(** [ascii_upper] uppercases the letters [a]..[z] and nothing else.  It is
    not [str.upper()], which also maps letters outside ASCII (U+017F to [S],
    U+00DF to [SS]); [str.upper()] itself is a field of the environment
    below, and the two agree on strings made of ASCII characters only. *)
Fixpoint ascii_upper (s : string) : string :=
  match s with
  | EmptyString => EmptyString
  | String c r => String (upper_ascii c) (ascii_upper r)
  end.

(** Whether every character of the string is in the ASCII range. *)
Fixpoint is_ascii (s : string) : bool :=
  match s with
  | EmptyString => true
  | String c r => andb (Nat.ltb (nat_of_ascii c) 128) (is_ascii r)
  end.

(** Truthiness of a [str]: the empty string is falsy. *)
Definition truthy (s : string) : bool :=
  match s with EmptyString => false | _ => true end.

(** [str(n)] for an [int]. *)
Definition str_int (n : Z) : string := NilZero.string_of_int (Z.to_int n).

(** [sep.join(parts)]. *)
Fixpoint join (sep : string) (parts : list string) : string :=
  match parts with
  | [] => ""
  | [p] => p
  | p :: rest => p ++ sep ++ join sep rest
  end.

(** Membership of a string in a list of strings. *)
Definition mem_str (s : string) (l : list string) : bool :=
  existsb (String.eqb s) l.

(** Values decoded from JSON.  A Python [dict] keeps insertion order and has
    unique keys; it is an association list here. *)
Inductive json : Type :=
| JNull
| JBool (b : bool)
| JInt (n : Z)
| JFloat (repr : string)
| JStr (s : string)
| JList (l : list json)
| JObj (d : list (string * json)).

Definition dict : Type := list (string * json).

Fixpoint dict_get (k : string) (d : dict) : option json :=
  match d with
  | [] => None
  | (k', v) :: r => if String.eqb k k' then Some v else dict_get k r
  end.

Definition dict_mem (k : string) (d : dict) : bool :=
  match dict_get k d with Some _ => true | None => false end.

(** [d.get(k, default)]. *)
Definition dict_get_default (k : string) (default : json) (d : dict) : json :=
  match dict_get k d with Some v => v | None => default end.

(** [d[k] = v]: an existing key keeps its position, a new key goes last. *)
Fixpoint dict_set (k : string) (v : json) (d : dict) : dict :=
  match d with
  | [] => [(k, v)]
  | (k', v') :: r =>
      if String.eqb k k' then (k, v) :: r else (k', v') :: dict_set k v r
  end.

Definition dict_keys (d : dict) : list string := map fst d.

Definition type_name (v : json) : string :=
  match v with
  | JNull => "NoneType"
  | JBool _ => "bool"
  | JInt _ => "int"
  | JFloat _ => "float"
  | JStr _ => "str"
  | JList _ => "list"
  | JObj _ => "dict"
  end.

(** ** HTTP *)

Inductive request : Type :=
| GET (url : string) (params : dict) (headers : list (string * string)) (timeout : Z)
| POST (url : string) (body : dict) (headers : list (string * string)) (timeout : Z).

Definition request_url (r : request) : string :=
  match r with GET u _ _ _ => u | POST u _ _ _ => u end.

(** What the tools read from an [httpx.Response]: the status code, the raw
    bytes ([.content]), the decoded text ([.text]) and the decoded JSON
    document ([.json()], which raises on a malformed body).  A successful
    reply of the service is a JSON object, as the tools' [dict] return
    annotation declares. *)
Record response : Type := mkResponse {
  status_code : Z;
  content : list byte;
  text : string;
  json_body : string + dict
}.

Inductive reply : Type :=
| Replied (r : response)
| TransportFailure (kind : string) (msg : string).

(** ** Exceptions, events, and the tool monad *)

(** [str(e)] is the carried message. *)
Inductive exn : Type :=
| ValueError (msg : string)
| HTTPStatusError (msg : string) (resp : response)
| OtherError (kind : string) (msg : string).

Definition exn_str (e : exn) : string :=
  match e with
  | ValueError m => m
  | HTTPStatusError m _ => m
  | OtherError _ m => m
  end.

Inductive level : Type := INFO | ERROR.

(** Where a message goes.  [packages.py], [search.py], [related.py],
    [collections.py] and [published.py] write [await ctx.info(...)] when a
    context is present.  [statutes.py] binds [log = ctx.info] and calls it
    without [await]: the call is made, the coroutine is dropped. *)
Inductive sink : Type := ToContext | ToLogger | CtxNotAwaited.

Inductive event : Type :=
| Log (s : sink) (lv : level) (msg : string)
| Http (r : request).

Inductive outcome (A : Type) : Type :=
| Return (a : A)
| Raise (e : exn).
Arguments Return {A} a.
Arguments Raise {A} e.

Definition M (A : Type) : Type := list event * outcome A.

Definition ret {A} (a : A) : M A := ([], Return a).

Definition bind {A B} (m : M A) (k : A -> M B) : M B :=
  match m with
  | (t, Return a) => let (t', o) := k a in ((t ++ t')%list, o)
  | (t, Raise e) => (t, Raise e)
  end.

Definition raise {A} (e : exn) : M A := ([], Raise e).

Definition emit (ev : event) : M unit := ([ev], Return tt).

(** [try: body  except ... as e: handler e]. *)
Definition try_except {A} (body : M A) (handler : exn -> M A) : M A :=
  match body with
  | (t, Raise e) => let (t', o) := handler e in ((t ++ t')%list, o)
  | r => r
  end.

Declare Scope tool_scope.
Delimit Scope tool_scope with tool.
Notation "x <- m ;; k" := (bind m (fun x => k))
  (at level 61, m at next level, right associativity) : tool_scope.
Notation "m ;; k" := (bind m (fun _ => k))
  (at level 61, right associativity) : tool_scope.
Local Open Scope tool_scope.

Definition trace_of {A} (m : M A) : list event := fst m.
Definition outcome_of {A} (m : M A) : outcome A := snd m.

(** The HTTP requests issued during a run, in order. *)
Fixpoint requests_of (t : list event) : list request :=
  match t with
  | [] => []
  | Http r :: rest => r :: requests_of rest
  | Log _ _ _ :: rest => requests_of rest
  end.

(** The messages reported at error level during a run, in order. *)
Fixpoint errors_of (t : list event) : list string :=
  match t with
  | [] => []
  | Log _ ERROR m :: rest => m :: errors_of rest
  | _ :: rest => errors_of rest
  end.

(** ** The environment of a call *)

(** A naive [datetime] in UTC, as [strftime] reads it (the microsecond field
    plays no part in the formats used). *)
Record datetime : Type := mkDatetime {
  year : Z; month : Z; day : Z;
  hour : Z; minute : Z; second : Z
}.

(** Everything a tool call depends on besides its arguments:
    - [API_KEY]: [os.getenv("GOVINFO_API_KEY")], read once at import;
    - [send]: the transport and the remote service, one reply per request;
    - [status_error_str]: the message httpx gives the [HTTPStatusError]
      built by [raise_for_status];
    - [py_str]: the interpreter's [str()] of a decoded JSON value, used
      only inside log messages;
    - [py_error_str]: the interpreter's message for a dynamic operation
      ([len], [iter], [get], [hash], [in], [index]) applied to a value that
      does not support it;
    - [utc_now]: the reading of [datetime.now(UTC)];
    - [py_upper]: the interpreter's [str.upper()], whose case mapping covers
      all of Unicode. *)
Record env : Type := mkEnv {
  API_KEY : option string;
  send : request -> reply;
  status_error_str : request -> response -> string;
  py_str : json -> string;
  py_error_str : string -> json -> string;
  utc_now : datetime;
  py_upper : string -> string
}.

(** [bool(API_KEY)]: [None] and the empty string are falsy. *)
Definition key_present (k : option string) : bool :=
  match k with
  | Some s => truthy s
  | None => false
  end.

Definition key_value (k : option string) : string :=
  match k with
  | Some s => s
  | None => ""
  end.

(** ** Calendar arithmetic of [datetime] and [timedelta] *)

Definition is_leap (y : Z) : bool :=
  (y mod 4 =? 0) && (negb (y mod 100 =? 0) || (y mod 400 =? 0)).

Definition days_before_year (y : Z) : Z :=
  let y1 := y - 1 in y1 * 365 + y1 / 4 - y1 / 100 + y1 / 400.

(** The tables [_DAYS_IN_MONTH] and [_DAYS_BEFORE_MONTH], indexed from 1. *)
Definition DAYS_IN_MONTH (m : Z) : Z :=
  nth (Z.to_nat m) [-1; 31; 28; 31; 30; 31; 30; 31; 31; 30; 31; 30; 31] 0.

Definition DAYS_BEFORE_MONTH (m : Z) : Z :=
  nth (Z.to_nat m) [-1; 0; 31; 59; 90; 120; 151; 181; 212; 243; 273; 304; 334] 0.

Definition days_before_month (y m : Z) : Z :=
  DAYS_BEFORE_MONTH m + (if (2 <? m) && is_leap y then 1 else 0).

Definition ymd2ord (y m d : Z) : Z :=
  days_before_year y + days_before_month y m + d.

Definition DI400Y : Z := 146097.
Definition DI100Y : Z := 36524.
Definition DI4Y : Z := 1461.

Definition ord2ymd (ordinal : Z) : Z * Z * Z :=
  let n := ordinal - 1 in
  let n400 := n / DI400Y in
  let n := n mod DI400Y in
  let y := n400 * 400 + 1 in
  let n100 := n / DI100Y in
  let n := n mod DI100Y in
  let n4 := n / DI4Y in
  let n := n mod DI4Y in
  let n1 := n / 365 in
  let n := n mod 365 in
  let y := y + n100 * 100 + n4 * 4 + n1 in
  if (n1 =? 4) || (n100 =? 4) then (y - 1, 12, 31)
  else
    let leapyear := (n1 =? 3) && (negb (n4 =? 24) || (n100 =? 3)) in
    let m := Z.shiftr (n + 50) 5 in
    let preceding := DAYS_BEFORE_MONTH m + (if (2 <? m) && leapyear then 1 else 0) in
    if n <? preceding then
      let m' := m - 1 in
      let preceding' :=
        preceding - (DAYS_IN_MONTH m' + (if (m' =? 2) && leapyear then 1 else 0)) in
      (y, m', n - preceding' + 1)
    else (y, m, n - preceding + 1).

Definition MAXORDINAL : Z := 3652059.

(** [dt - timedelta(days=n)]: the date moves by whole days, the time of day
    is kept; leaving years 1..9999 raises [OverflowError]. *)
Definition minus_days (dt : datetime) (n : Z) : M datetime :=
  let o := ymd2ord (year dt) (month dt) (day dt) - n in
  if (1 <=? o) && (o <=? MAXORDINAL) then
    let '(y, m, d) := ord2ymd o in
    ret (mkDatetime y m d (hour dt) (minute dt) (second dt))
  else raise (OtherError "OverflowError" "date value out of range").

(** Zero-padded decimal of a non-negative number, at least [w] digits. *)
Definition zpad (w : nat) (n : Z) : string :=
  let s := str_int n in
  String.concat "" (repeat "0" (w - String.length s)) ++ s.

(** [dt.strftime("%Y-%m-%dT%H:%M:%SZ")]. *)
Definition strftime_iso (dt : datetime) : string :=
  zpad 4 (year dt) ++ "-" ++ zpad 2 (month dt) ++ "-" ++ zpad 2 (day dt)
  ++ "T" ++ zpad 2 (hour dt) ++ ":" ++ zpad 2 (minute dt) ++ ":"
  ++ zpad 2 (second dt) ++ "Z".

(** ** Base64 *)

(** [base64.b64encode]: the standard alphabet of RFC 4648, three bytes to
    four characters, the last group padded with [=].  Its output is ASCII,
    so the following [.decode("utf-8")] is the identity on it. *)
Definition B64_ALPHABET : string :=
  "ABCDEFGHIJKLMNOPQRSTUVWXYZabcdefghijklmnopqrstuvwxyz0123456789+/".

Definition PAD : ascii := "="%char.

Definition b64char (i : N) : ascii :=
  match String.get (N.to_nat i) B64_ALPHABET with
  | Some c => c
  | None => PAD
  end.

Fixpoint find_index (c : ascii) (s : string) (i : N) : option N :=
  match s with
  | EmptyString => None
  | String c' r => if Ascii.eqb c c' then Some i else find_index c r (N.succ i)
  end.

Definition b64val (c : ascii) : option N := find_index c B64_ALPHABET 0%N.

Fixpoint b64encode (bs : list byte) : string :=
  match bs with
  | [] => EmptyString
  | [a] =>
      let n := (Byte.to_N a * 65536)%N in
      String (b64char (n / 262144)) (String (b64char ((n / 4096) mod 64))
        (String PAD (String PAD EmptyString)))
  | [a; b] =>
      let n := (Byte.to_N a * 65536 + Byte.to_N b * 256)%N in
      String (b64char (n / 262144)) (String (b64char ((n / 4096) mod 64))
        (String (b64char ((n / 64) mod 64)) (String PAD EmptyString)))
  | a :: b :: c :: rest =>
      let n := (Byte.to_N a * 65536 + Byte.to_N b * 256 + Byte.to_N c)%N in
      String (b64char (n / 262144)) (String (b64char ((n / 4096) mod 64))
        (String (b64char ((n / 64) mod 64)) (String (b64char (n mod 64))
          (b64encode rest))))
  end.

Definition byte_of_N (n : N) : byte :=
  match Byte.of_N n with
  | Some b => b
  | None => x00
  end.

(** [base64.b64decode] on canonical input: four characters to three bytes,
    padding only in the last group; anything else is rejected. *)
Fixpoint b64decode (s : string) : option (list byte) :=
  match s with
  | EmptyString => Some []
  | String c1 (String c2 (String c3 (String c4 rest))) =>
      match b64val c1, b64val c2 with
      | Some v1, Some v2 =>
          if Ascii.eqb c4 PAD then
            match rest with
            | EmptyString =>
                if Ascii.eqb c3 PAD then
                  let n := (v1 * 262144 + v2 * 4096)%N in
                  Some [byte_of_N (n / 65536)]
                else
                  match b64val c3 with
                  | Some v3 =>
                      let n := (v1 * 262144 + v2 * 4096 + v3 * 64)%N in
                      Some [byte_of_N (n / 65536); byte_of_N ((n / 256) mod 256)]
                  | None => None
                  end
            | _ => None
            end
          else
            match b64val c3, b64val c4, b64decode rest with
            | Some v3, Some v4, Some tail =>
                let n := (v1 * 262144 + v2 * 4096 + v3 * 64 + v4)%N in
                Some (byte_of_N (n / 65536) :: byte_of_N ((n / 256) mod 256)
                        :: byte_of_N (n mod 256) :: tail)
            | _, _, _ => None
            end
      | _, _ => None
      end
  | _ => None
  end.

(** ** Operations shared by the tools *)

Section Tools.

Variable w : env.

(** [await client.get(...)] / [await client.post(...)]: the request goes out,
    then either a response comes back or the transport raises. *)
Definition http (r : request) : M response :=
  emit (Http r) ;;
  match send w r with
  | Replied resp => ret resp
  | TransportFailure kind msg => raise (OtherError kind msg)
  end.

(** [response.raise_for_status()]: any status outside 200..299 raises. *)
Definition raise_for_status (r : request) (resp : response) : M unit :=
  if (200 <=? status_code resp) && (status_code resp <=? 299) then ret tt
  else raise (HTTPStatusError (status_error_str w r resp) resp).

(** [response.json()]. *)
Definition response_json (resp : response) : M dict :=
  match json_body resp with
  | inr d => ret d
  | inl msg => raise (OtherError "JSONDecodeError" msg)
  end.

(** [len(v)]. *)
Definition py_len (v : json) : M Z :=
  match v with
  | JList l => ret (Z.of_nat (List.length l))
  | JObj d => ret (Z.of_nat (List.length d))
  | JStr s => ret (Z.of_nat (String.length s))
  | _ => raise (OtherError "TypeError" (py_error_str w "len" v))
  end.

(** [if ctx: await ctx.info(msg) else: logger.info(msg)] and its error
    twin. *)
Definition say (ctx : bool) (lv : level) (msg : string) : M unit :=
  emit (Log (if ctx then ToContext else ToLogger) lv msg).

(** [log = ctx.info if ctx else logger.info; log(msg)] and its error twin,
    as [statutes.py] writes them. *)
Definition call_log (ctx : bool) (lv : level) (msg : string) : M unit :=
  emit (Log (if ctx then CtxNotAwaited else ToLogger) lv msg).

Definition KEY_MISSING : string :=
  "GOVINFO_API_KEY not found in environment variables".

Definition API : string := "https://api.govinfo.gov".

(** The two [except] clauses every tool of [packages.py], [search.py],
    [related.py], [collections.py] and [published.py] ends with; [label] is
    the prefix of the second clause's message. *)
Definition on_error {A} (ctx : bool) (label : string) (e : exn) : M A :=
  match e with
  | HTTPStatusError _ _ =>
      let error_msg := "HTTP error: " ++ exn_str e in
      say ctx ERROR error_msg ;; raise e
  | _ =>
      let error_msg := label ++ exn_str e in
      say ctx ERROR error_msg ;; raise e
  end.

(** ** collections.py *)

Definition get_collections (page_size : Z) (offset_mark : string) (ctx : bool)
  : M dict :=
  say ctx INFO "Fetching GovInfo collections" ;;
  (if negb (key_present (API_KEY w)) then
     let error_msg := KEY_MISSING in
     say ctx ERROR error_msg ;; raise (ValueError error_msg)
   else ret tt) ;;
  let params := [("pageSize", JInt page_size); ("offsetMark", JStr offset_mark)] in
  let headers := [("X-Api-Key", key_value (API_KEY w))] in
  try_except
    (let req := GET (API ++ "/collections") params headers 30 in
     response <- http req ;;
     raise_for_status req response ;;
     data <- response_json response ;;
     n <- py_len (dict_get_default "collections" (JList []) data) ;;
     say ctx INFO ("Found " ++ str_int n ++ " collections") ;;
     ret data)
    (on_error ctx "Collections fetch error: ").

(** ** packages.py *)

Definition get_packages_by_collection
    (collection : string) (congress : option Z) (doc_class : string)
    (start_date end_date : string) (page_size : Z) (offset_mark : string)
    (ctx : bool) : M dict :=
  say ctx INFO ("Fetching packages from collection: " ++ collection) ;;
  (if negb (key_present (API_KEY w)) then
     let error_msg := KEY_MISSING in
     say ctx ERROR error_msg ;; raise (ValueError error_msg)
   else ret tt) ;;
  last_modified_start <-
    (if negb (truthy start_date) then
       default_date <- minus_days (utc_now w) 365 ;;
       ret (strftime_iso default_date)
     else ret (start_date ++ "T00:00:00Z")) ;;
  let params := [("pageSize", JInt page_size); ("offsetMark", JStr offset_mark)] in
  let params :=
    match congress with
    | Some c => dict_set "congress" (JInt c) params
    | None => params
    end in
  let params :=
    if truthy doc_class then dict_set "docClass" (JStr doc_class) params
    else params in
  let headers := [("X-Api-Key", key_value (API_KEY w))] in
  try_except
    (let url :=
       if truthy end_date then
         let last_modified_end := end_date ++ "T23:59:59Z" in
         API ++ "/collections/" ++ collection ++ "/" ++ last_modified_start
             ++ "/" ++ last_modified_end
       else
         API ++ "/collections/" ++ collection ++ "/" ++ last_modified_start in
     let req := GET url params headers 30 in
     response <- http req ;;
     raise_for_status req response ;;
     data <- response_json response ;;
     n <- py_len (dict_get_default "packages" (JList []) data) ;;
     say ctx INFO ("Found " ++ str_int n ++ " packages") ;;
     ret data)
    (on_error ctx "Packages fetch error: ").

Definition get_package_summary (package_id : string) (ctx : bool) : M dict :=
  say ctx INFO ("Fetching summary for package: " ++ package_id) ;;
  (if negb (key_present (API_KEY w)) then
     let error_msg := KEY_MISSING in
     say ctx ERROR error_msg ;; raise (ValueError error_msg)
   else ret tt) ;;
  let headers := [("X-Api-Key", key_value (API_KEY w))] in
  try_except
    (let req := GET (API ++ "/packages/" ++ package_id ++ "/summary") [] headers 30 in
     response <- http req ;;
     raise_for_status req response ;;
     data <- response_json response ;;
     say ctx INFO ("Retrieved summary for package: " ++ package_id) ;;
     ret data)
    (on_error ctx "Package summary fetch error: ").

Definition content_endpoints : list (string * string) :=
  [("html", "htm"); ("xml", "xml"); ("pdf", "pdf"); ("text", "txt")].

Fixpoint assoc (k : string) (d : list (string * string)) : option string :=
  match d with
  | [] => None
  | (k', v) :: r => if String.eqb k k' then Some v else assoc k r
  end.

(** [d.get(k, default)] on a [dict] of strings. *)
Definition assoc_default (k : string) (d : list (string * string))
    (default : string) : string :=
  match assoc k d with
  | Some v => v
  | None => default
  end.

Definition FORMAT_HINT : string :=
  "Use get_package_summary() to check available formats in the 'download' field. ".

Definition get_package_content (package_id content_type : string) (ctx : bool)
  : M json :=
  say ctx INFO ("Fetching " ++ content_type ++ " content for package: " ++ package_id) ;;
  (if negb (key_present (API_KEY w)) then
     let error_msg := KEY_MISSING in
     say ctx ERROR error_msg ;; raise (ValueError error_msg)
   else ret tt) ;;
  let headers := [("X-Api-Key", key_value (API_KEY w))] in
  let endpoint := assoc_default (lower content_type) content_endpoints "htm" in
  try_except
    (let req := GET (API ++ "/packages/" ++ package_id ++ "/" ++ endpoint) [] headers 60 in
     response <- http req ;;
     raise_for_status req response ;;
     if mem_str (lower content_type) ["html"; "xml"; "text"] then
       let content := text response in
       say ctx INFO ("Retrieved " ++ content_type ++ " content for package: " ++ package_id) ;;
       ret (JStr content)
     else
       let content := b64encode (content response) in
       say ctx INFO ("Retrieved " ++ content_type ++ " content for package: " ++ package_id) ;;
       ret (JObj [("content_type", JStr content_type); ("base64_content", JStr content)]))
    (fun e =>
       match e with
       | HTTPStatusError _ resp =>
           let error_msg :=
             if status_code resp =? 400 then
               "Content type '" ++ content_type ++ "' is not available for package '"
                 ++ package_id ++ "'. " ++ FORMAT_HINT ++ "HTTP error: " ++ exn_str e
             else "HTTP error: " ++ exn_str e in
           say ctx ERROR error_msg ;; raise e
       | _ =>
           let error_msg := "Package content fetch error: " ++ exn_str e in
           say ctx ERROR error_msg ;; raise e
       end).

(** ** published.py *)

Definition get_published_packages
    (date_issued collection doc_class : string) (page_size : Z)
    (offset_mark : string) (ctx : bool) : M dict :=
  say ctx INFO ("Fetching packages published on: " ++ date_issued) ;;
  (if negb (key_present (API_KEY w)) then
     let error_msg := KEY_MISSING in
     say ctx ERROR error_msg ;; raise (ValueError error_msg)
   else ret tt) ;;
  let params := [("pageSize", JInt page_size); ("offsetMark", JStr offset_mark)] in
  let params :=
    if truthy collection then dict_set "collection" (JStr collection) params
    else params in
  let params :=
    if truthy doc_class then dict_set "docClass" (JStr doc_class) params
    else params in
  let headers := [("X-Api-Key", key_value (API_KEY w))] in
  try_except
    (let req := GET (API ++ "/published/" ++ date_issued) params headers 30 in
     response <- http req ;;
     raise_for_status req response ;;
     data <- response_json response ;;
     n <- py_len (dict_get_default "packages" (JList []) data) ;;
     say ctx INFO ("Found " ++ str_int n ++ " packages published on " ++ date_issued) ;;
     ret data)
    (on_error ctx "Published packages fetch error: ").

Definition get_published_range
    (start_date end_date collection doc_class modified_since : string)
    (page_size : Z) (offset_mark : string) (ctx : bool) : M dict :=
  say ctx INFO ("Fetching packages published between " ++ start_date ++ " and " ++ end_date) ;;
  (if negb (key_present (API_KEY w)) then
     let error_msg := KEY_MISSING in
     say ctx ERROR error_msg ;; raise (ValueError error_msg)
   else ret tt) ;;
  let params :=
    [("pageSize", JInt page_size); ("offsetMark", JStr offset_mark);
     ("collection", JStr collection)] in
  let params :=
    if truthy doc_class then dict_set "docClass" (JStr doc_class) params
    else params in
  let params :=
    if truthy modified_since then dict_set "modifiedSince" (JStr modified_since) params
    else params in
  let headers := [("X-Api-Key", key_value (API_KEY w))] in
  try_except
    (let req := GET (API ++ "/published/" ++ start_date ++ "/" ++ end_date) params headers 30 in
     response <- http req ;;
     raise_for_status req response ;;
     data <- response_json response ;;
     n <- py_len (dict_get_default "packages" (JList []) data) ;;
     say ctx INFO ("Found " ++ str_int n ++ " packages in date range") ;;
     ret data)
    (on_error ctx "Published range fetch error: ").

(** ** related.py *)

Definition get_related_packages (package_id : string) (ctx : bool) : M dict :=
  say ctx INFO ("Fetching related packages for: " ++ package_id) ;;
  if negb (key_present (API_KEY w)) then
    let error_msg := KEY_MISSING in
    say ctx ERROR error_msg ;;
    ret [("error", JStr error_msg)]
  else
    let headers := [("X-Api-Key", key_value (API_KEY w))] in
    try_except
      (let req := GET (API ++ "/related/" ++ package_id) [] headers 30 in
       response <- http req ;;
       raise_for_status req response ;;
       data <- response_json response ;;
       n <- py_len (dict_get_default "relatedPackages" (JList []) data) ;;
       say ctx INFO ("Found " ++ str_int n ++ " related packages") ;;
       ret data)
      (on_error ctx "Related packages fetch error: ").

Definition get_granule_related (package_id granule_id : string) (ctx : bool)
  : M dict :=
  say ctx INFO ("Fetching related items for granule " ++ granule_id
                  ++ " in package " ++ package_id) ;;
  (if negb (key_present (API_KEY w)) then
     let error_msg := KEY_MISSING in
     say ctx ERROR error_msg ;; raise (ValueError error_msg)
   else ret tt) ;;
  let headers := [("X-Api-Key", key_value (API_KEY w))] in
  try_except
    (let req := GET (API ++ "/related/" ++ granule_id) [] headers 30 in
     response <- http req ;;
     raise_for_status req response ;;
     data <- response_json response ;;
     say ctx INFO ("Retrieved related items for granule " ++ granule_id) ;;
     ret data)
    (on_error ctx "Granule related fetch error: ").

(** ** search.py *)

(** The character written as a double quote inside the f-string of the
    title filter. *)
Definition DQUOTE : string := String (ascii_of_nat 34) EmptyString.

(** Lines 74-97 of [search.py]: the filters are folded onto the query one
    after the other, each new clause in front of what is already there. *)
Definition search_packages_query
    (query collection : string) (congress : option Z)
    (doc_class title start_date end_date : string) : string :=
  let search_query := query in
  let search_query :=
    if truthy collection then "collection:" ++ collection ++ " AND " ++ search_query
    else search_query in
  let search_query :=
    match congress with
    | Some c => "congress:" ++ str_int c ++ " AND " ++ search_query
    | None => search_query
    end in
  let search_query :=
    if truthy doc_class then "docClass:" ++ doc_class ++ " AND " ++ search_query
    else search_query in
  let search_query :=
    if truthy title then
      "title:" ++ DQUOTE ++ title ++ DQUOTE ++ " AND " ++ search_query
    else search_query in
  let search_query :=
    if truthy start_date then "publishdate:>=" ++ start_date ++ " AND " ++ search_query
    else search_query in
  let search_query :=
    if truthy end_date then "publishdate:<=" ++ end_date ++ " AND " ++ search_query
    else search_query in
  search_query.

Definition SEARCH_URL : string := API ++ "/search".

Definition json_headers (key : string) : list (string * string) :=
  [("X-Api-Key", key); ("Content-Type", "application/json")].

Definition sort_spec (field order : string) : json :=
  JList [JObj [("field", JStr field); ("sortOrder", JStr order)]].

Definition search_packages
    (query collection : string) (congress : option Z)
    (doc_class title start_date end_date : string) (page_size : Z)
    (offset_mark : string) (ctx : bool) : M dict :=
  say ctx INFO ("Searching packages with query: " ++ query) ;;
  (if negb (key_present (API_KEY w)) then
     let error_msg := KEY_MISSING in
     say ctx ERROR error_msg ;; raise (ValueError error_msg)
   else ret tt) ;;
  let search_query :=
    search_packages_query query collection congress doc_class title
      start_date end_date in
  let request_body :=
    [("query", JStr search_query); ("pageSize", JInt page_size);
     ("offsetMark", JStr offset_mark); ("resultLevel", JStr "default");
     ("sorts", sort_spec "score" "DESC")] in
  let headers := json_headers (key_value (API_KEY w)) in
  try_except
    (let req := POST SEARCH_URL request_body headers 30 in
     response <- http req ;;
     raise_for_status req response ;;
     data <- response_json response ;;
     say ctx INFO ("Found " ++ py_str w (dict_get_default "count" (JInt 0) data)
                     ++ " results for query: " ++ query) ;;
     ret data)
    (on_error ctx "Search error: ").

Definition advanced_search
    (query : string) (collections : list string) (congress : list Z)
    (doc_class committees : list string)
    (date_issued_start date_issued_end last_modified_start last_modified_end : string)
    (package_count granule_count : option Z) (sort_by sort_order : string)
    (page_size : Z) (offset_mark : string) (ctx : bool) : M dict :=
  say ctx INFO ("Performing advanced search with query: " ++ query) ;;
  (if negb (key_present (API_KEY w)) then
     let error_msg := KEY_MISSING in
     say ctx ERROR error_msg ;; raise (ValueError error_msg)
   else ret tt) ;;
  let body :=
    [("query", JStr query); ("pageSize", JStr (str_int page_size));
     ("offsetMark", JStr offset_mark);
     ("sorts", sort_spec (if String.eqb sort_by "relevance" then "score" else sort_by)
                         (py_upper w sort_order));
     ("resultLevel", JStr "default")] in
  let headers := json_headers (key_value (API_KEY w)) in
  try_except
    (let req := POST SEARCH_URL body headers 30 in
     response <- http req ;;
     raise_for_status req response ;;
     data <- response_json response ;;
     say ctx INFO ("Advanced search returned "
                     ++ py_str w (dict_get_default "count" (JInt 0) data) ++ " results") ;;
     ret data)
    (on_error ctx "Advanced search error: ").

(** ** statutes.py *)

Definition STATUTE_COLLECTIONS : list (string * string) :=
  [("USCODE", "United States Code");
   ("STATUTE", "Statutes at Large");
   ("PLAW", "Public and Private Laws");
   ("COMPS", "Statutes Compilations")].

Definition statute_codes : list string := map fst STATUTE_COLLECTIONS.

(** The two [except] clauses of the tools of [statutes.py]. *)
Definition on_statute_error {A} (ctx : bool) (label : string) (e : exn) : M A :=
  match e with
  | HTTPStatusError _ resp =>
      let msg := "HTTP error: " ++ str_int (status_code resp) ++ " - " ++ text resp in
      call_log ctx ERROR msg ;; raise e
  | _ =>
      let msg := label ++ exn_str e in
      call_log ctx ERROR msg ;; raise e
  end.

(** Lines 97-108: the query right after the collection clause is put on. *)
Definition statutes_base_query (query collection : string) : string :=
  if truthy collection then "collection:" ++ collection ++ " AND (" ++ query ++ ")"
  else
    let collections_query :=
      join " OR " (map (fun code => "collection:" ++ code) statute_codes) in
    "(" ++ collections_query ++ ") AND (" ++ query ++ ")".

(** Lines 97-126: the query as it goes into the request body. *)
Definition search_statutes_query
    (query collection : string) (congress : option Z)
    (title_number section start_date end_date : string) : string :=
  let search_query := statutes_base_query query collection in
  let search_query :=
    match congress with
    | Some c => search_query ++ " AND congress:" ++ str_int c
    | None => search_query
    end in
  let search_query :=
    if truthy title_number then search_query ++ " AND title:" ++ title_number
    else search_query in
  let search_query :=
    if truthy section then search_query ++ " AND section:" ++ section
    else search_query in
  let search_query :=
    if truthy start_date then search_query ++ " AND publishdate:[" ++ start_date ++ " TO *]"
    else search_query in
  let search_query :=
    if truthy end_date then search_query ++ " AND publishdate:[* TO " ++ end_date ++ "]"
    else search_query in
  search_query.

(** [for result in v]. *)
Definition py_iter (v : json) : M (list json) :=
  match v with
  | JList l => ret l
  | JObj d => ret (map (fun kv => JStr (fst kv)) d)
  | JStr s => ret (map (fun c => JStr (String c EmptyString)) (list_ascii_of_string s))
  | _ => raise (OtherError "TypeError" (py_error_str w "iter" v))
  end.

(** [v.get(k)]. *)
Definition py_get (k : string) (v : json) : M json :=
  match v with
  | JObj d => ret (dict_get_default k JNull d)
  | _ => raise (OtherError "AttributeError" (py_error_str w "get" v))
  end.

(** [v in d] for a [dict] [d] with the string keys [keys]: the value is
    hashed first, and lists and dicts are not hashable. *)
Definition py_in_keys (v : json) (keys : list string) : M bool :=
  match v with
  | JStr s => ret (mem_str s keys)
  | JList _ | JObj _ => raise (OtherError "TypeError" (py_error_str w "hash" v))
  | _ => ret false
  end.

(** The list comprehension of lines 152-156. *)
Fixpoint keep_statutes (results : list json) : M (list json) :=
  match results with
  | [] => ret []
  | result :: rest =>
      code <- py_get "collectionCode" result ;;
      keep <- py_in_keys code statute_codes ;;
      kept <- keep_statutes rest ;;
      ret (if keep then result :: kept else kept)
  end.

Definition search_statutes
    (query collection : string) (congress : option Z)
    (title_number section start_date end_date : string) (page_size : Z)
    (offset_mark : string) (ctx : bool) : M dict :=
  call_log ctx INFO ("Searching US statutes with query: " ++ query) ;;
  (if negb (key_present (API_KEY w)) then
     let msg := KEY_MISSING in
     call_log ctx ERROR msg ;; raise (ValueError msg)
   else ret tt) ;;
  (if truthy collection && negb (mem_str collection statute_codes) then
     let msg := "Invalid collection '" ++ collection ++ "'. Must be one of: "
                  ++ join ", " statute_codes in
     call_log ctx ERROR msg ;; raise (ValueError msg)
   else ret tt) ;;
  let search_query :=
    search_statutes_query query collection congress title_number section
      start_date end_date in
  let request_body :=
    [("query", JStr search_query); ("pageSize", JInt page_size);
     ("offsetMark", JStr offset_mark); ("sorts", sort_spec "score" "DESC")] in
  let headers := json_headers (key_value (API_KEY w)) in
  try_except
    (let req := POST SEARCH_URL request_body headers 30 in
     response <- http req ;;
     raise_for_status req response ;;
     data <- response_json response ;;
     data <-
       (if negb (truthy collection) && dict_mem "results" data then
          results <- py_iter (dict_get_default "results" (JList []) data) ;;
          kept <- keep_statutes results ;;
          let data := dict_set "results" (JList kept) data in
          let data := dict_set "count" (JInt (Z.of_nat (List.length kept))) data in
          ret data
        else ret data) ;;
     call_log ctx INFO ("Found " ++ py_str w (dict_get_default "count" (JInt 0) data)
                          ++ " statute results for query: " ++ query) ;;
     ret data)
    (on_statute_error ctx "Search error: ").

Definition get_uscode_title
    (title_number edition chapter section : string) (page_size : Z)
    (offset_mark : string) (ctx : bool) : M dict :=
  call_log ctx INFO ("Searching USC Title " ++ title_number) ;;
  (if negb (key_present (API_KEY w)) then
     let msg := "GOVINFO_API_KEY not set" in
     call_log ctx ERROR msg ;; raise (ValueError msg)
   else ret tt) ;;
  let search_query := "collection:USCODE AND title:" ++ title_number in
  let search_query :=
    if truthy edition then search_query ++ " AND publishdate:" ++ edition
    else search_query in
  let search_query :=
    if truthy chapter then search_query ++ " AND chapter:" ++ chapter
    else search_query in
  let search_query :=
    if truthy section then search_query ++ " AND section:" ++ section
    else search_query in
  let request_body :=
    [("query", JStr search_query); ("pageSize", JInt page_size);
     ("offsetMark", JStr offset_mark); ("sorts", sort_spec "title" "ASC")] in
  let headers := json_headers (key_value (API_KEY w)) in
  try_except
    (let req := POST SEARCH_URL request_body headers 30 in
     resp <- http req ;;
     raise_for_status req resp ;;
     data <- response_json resp ;;
     call_log ctx INFO ("Found " ++ py_str w (dict_get_default "count" (JInt 0) data)
                          ++ " results for USC Title " ++ title_number) ;;
     ret data)
    (on_statute_error ctx "USC title search error: ").

(** Lines 312-321: the clause a law type adds to the query; [None] when the
    type is neither [public] nor [private] in any casing. *)
Definition law_type_clause (law_type : string) : option string :=
  if String.eqb (lower law_type) "public" then
    Some " AND (docClass:public OR title:public)"
  else if String.eqb (lower law_type) "private" then
    Some " AND (docClass:private OR title:private)"
  else None.

(** Lines 323-331: what follows the law-type clause. *)
Definition public_laws_tail (search_query law_number start_date end_date : string)
  : string :=
  let search_query :=
    if truthy law_number then search_query ++ " AND " ++ law_number
    else search_query in
  let search_query :=
    if truthy start_date then search_query ++ " AND publishdate:[" ++ start_date ++ " TO *]"
    else search_query in
  let search_query :=
    if truthy end_date then search_query ++ " AND publishdate:[* TO " ++ end_date ++ "]"
    else search_query in
  search_query.

Definition get_public_laws_by_congress
    (congress : Z) (law_type law_number start_date end_date : string)
    (page_size : Z) (offset_mark : string) (ctx : bool) : M dict :=
  call_log ctx INFO ("Searching laws from " ++ str_int congress ++ "th Congress") ;;
  (if negb (key_present (API_KEY w)) then
     let msg := KEY_MISSING in
     call_log ctx ERROR msg ;; raise (ValueError msg)
   else ret tt) ;;
  let search_query := "collection:PLAW AND congress:" ++ str_int congress in
  search_query <-
    (if truthy law_type then
       match law_type_clause law_type with
       | Some clause => ret (search_query ++ clause)
       | None =>
           let msg := "Invalid law_type '" ++ law_type
                        ++ "'. Must be 'public' or 'private'" in
           call_log ctx ERROR msg ;; raise (ValueError msg)
       end
     else ret search_query) ;;
  let search_query := public_laws_tail search_query law_number start_date end_date in
  let request_body :=
    [("query", JStr search_query); ("pageSize", JInt page_size);
     ("offsetMark", JStr offset_mark); ("sorts", sort_spec "publishdate" "DESC")] in
  let headers := json_headers (key_value (API_KEY w)) in
  try_except
    (let req := POST SEARCH_URL request_body headers 30 in
     response <- http req ;;
     raise_for_status req response ;;
     data <- response_json response ;;
     call_log ctx INFO ("Found " ++ py_str w (dict_get_default "count" (JInt 0) data)
                          ++ " laws from " ++ str_int congress ++ "th Congress") ;;
     ret data)
    (on_statute_error ctx "Congress laws search error: ").

Definition get_statutes_at_large
    (volume page : string) (congress : option Z) (page_size : Z)
    (offset_mark : string) (ctx : bool) : M dict :=
  call_log ctx INFO ("Searching Statutes at Large Volume " ++ volume) ;;
  (if negb (key_present (API_KEY w)) then
     let msg := KEY_MISSING in
     call_log ctx ERROR msg ;; raise (ValueError msg)
   else ret tt) ;;
  let search_query := "collection:STATUTE AND " ++ volume in
  let search_query :=
    if truthy page then search_query ++ " AND " ++ page else search_query in
  let search_query :=
    match congress with
    | Some c => search_query ++ " AND congress:" ++ str_int c
    | None => search_query
    end in
  let request_body :=
    [("query", JStr search_query); ("pageSize", JInt page_size);
     ("offsetMark", JStr offset_mark); ("sorts", sort_spec "title" "ASC")] in
  let headers := json_headers (key_value (API_KEY w)) in
  try_except
    (let req := POST SEARCH_URL request_body headers 30 in
     response <- http req ;;
     raise_for_status req response ;;
     data <- response_json response ;;
     call_log ctx INFO ("Found " ++ py_str w (dict_get_default "count" (JInt 0) data)
                          ++ " statutes in Volume " ++ volume) ;;
     ret data)
    (on_statute_error ctx "Statutes at Large search error: ").

(** [p in s] for two strings: [p] occurs in [s]. *)
Fixpoint occurs_in (p s : string) : bool :=
  String.prefix p s ||
  match s with
  | EmptyString => false
  | String _ r => occurs_in p r
  end.

Definition json_is_str (k : string) (v : json) : bool :=
  match v with
  | JStr s => String.eqb k s
  | _ => false
  end.

(** [k in v] for a string [k]. *)
Definition py_contains (k : string) (v : json) : M bool :=
  match v with
  | JObj d => ret (dict_mem k d)
  | JList l => ret (existsb (json_is_str k) l)
  | JStr s => ret (occurs_in k s)
  | _ => raise (OtherError "TypeError" (py_error_str w "in" v))
  end.

(** [v[k]] for a string [k]. *)
Definition py_index (v : json) (k : string) : M json :=
  match v with
  | JObj d =>
      match dict_get k d with
      | Some x => ret x
      | None => raise (OtherError "KeyError" (py_error_str w "index" (JStr k)))
      end
  | _ => raise (OtherError "TypeError" (py_error_str w "index" v))
  end.

Definition content_key_map : list (string * string) :=
  [("xml", "xmlLink"); ("pdf", "pdfLink"); ("text", "txtLink")].

Definition get_statute_content (package_id content_type granule_id : string)
    (ctx : bool) : M dict :=
  call_log ctx INFO ("Getting " ++ content_type ++ " for package: " ++ package_id) ;;
  (if negb (key_present (API_KEY w)) then
     let msg := KEY_MISSING in
     call_log ctx ERROR msg ;; raise (ValueError msg)
   else ret tt) ;;
  let valid_types := ["summary"; "xml"; "pdf"; "text"] in
  (if negb (mem_str content_type valid_types) then
     let msg := "Invalid content_type '" ++ content_type ++ "'. Must be one of: "
                  ++ join ", " valid_types in
     call_log ctx ERROR msg ;; raise (ValueError msg)
   else ret tt) ;;
  let headers := [("X-Api-Key", key_value (API_KEY w))] in
  try_except
    (let url :=
       if truthy granule_id then
         API ++ "/packages/" ++ package_id ++ "/granules/" ++ granule_id ++ "/summary"
       else API ++ "/packages/" ++ package_id ++ "/summary" in
     let req := GET url [] headers 30 in
     response <- http req ;;
     raise_for_status req response ;;
     data <- response_json response ;;
     data <-
       (if negb (String.eqb content_type "summary") && dict_mem "download" data then
          let download_links := dict_get_default "download" (JObj []) data in
          let content_key := assoc content_type content_key_map in
          found <-
            match content_key with
            | Some k => if truthy k then py_contains k download_links else ret false
            | None => ret false
            end ;;
          if found then
            link <- py_index download_links (assoc_default content_type content_key_map "") ;;
            let data := dict_set "requested_content_url" link data in
            let data := dict_set "content_type" (JStr content_type) data in
            call_log ctx INFO ("Found " ++ content_type ++ " download link for " ++ package_id) ;;
            ret data
          else
            call_log ctx INFO ("No " ++ content_type ++ " content available for " ++ package_id) ;;
            ret data
        else ret data) ;;
     ret data)
    (on_statute_error ctx "Content retrieval error: ").

End Tools.

(** ** Vocabulary of the statements *)

(** A status that [raise_for_status] lets through. *)
Definition ok_status (resp : response) : bool :=
  (200 <=? status_code resp) && (status_code resp <=? 299).

(** A run that issues no HTTP request. *)
Definition quiet {A} (m : M A) : Prop := requests_of (trace_of m) = [].

(** A run that ends in the configuration error without touching the
    network. *)
Definition fails_unconfigured {A} (m : M A) : Prop :=
  (exists msg, outcome_of m = Raise (ValueError msg)) /\ quiet m.

(** The request [get_package_content] builds for an endpoint suffix. *)
Definition content_request (w : env) (package_id endpoint : string) : request :=
  GET (API ++ "/packages/" ++ package_id ++ "/" ++ endpoint) []
      [("X-Api-Key", key_value (API_KEY w))] 60.

(** Line 325: the endpoint suffix chosen for a content type. *)
Definition content_endpoint (content_type : string) : string :=
  assoc_default (lower content_type) content_endpoints "htm".

(** Line 337: whether the textual branch is taken. *)
Definition is_textual (content_type : string) : bool :=
  mem_str (lower content_type) ["html"; "xml"; "text"].

(** The wrapper returned for binary formats. *)
Definition base64_wrapper (content_type : string) (body : list byte) : json :=
  JObj [("content_type", JStr content_type);
        ("base64_content", JStr (b64encode body))].

(** The message reported when the service answers 400 to a content
    request. *)
Definition format_unavailable_msg (content_type package_id e : string) : string :=
  "Content type '" ++ content_type ++ "' is not available for package '"
    ++ package_id ++ "'. " ++ FORMAT_HINT ++ "HTTP error: " ++ e.

(** The body every search tool posts, given its query and sort order. *)
Definition search_request (w : env) (body : dict) : request :=
  POST SEARCH_URL body (json_headers (key_value (API_KEY w))) 30.

Definition statutes_body (search_query : string) (page_size : Z)
    (offset_mark sort_field sort_order : string) : dict :=
  [("query", JStr search_query); ("pageSize", JInt page_size);
   ("offsetMark", JStr offset_mark); ("sorts", sort_spec sort_field sort_order)].

Definition search_packages_body (search_query : string) (page_size : Z)
    (offset_mark : string) : dict :=
  [("query", JStr search_query); ("pageSize", JInt page_size);
   ("offsetMark", JStr offset_mark); ("resultLevel", JStr "default");
   ("sorts", sort_spec "score" "DESC")].

(** ** Query layouts *)

(** A filter clause standing in front of what follows, when the filter is
    present. *)
Definition and_prefix (present : bool) (clause : string) : string :=
  if present then clause ++ " AND " else "".

Definition congress_prefix (congress : option Z) : string :=
  match congress with
  | Some c => "congress:" ++ str_int c ++ " AND "
  | None => ""
  end.

(** The string [search_packages] is said to send when its clauses are put on
    in the order docClass, congress, collection, title, start date, end
    date. *)
Definition search_query_docclass_first
    (query collection : string) (congress : option Z)
    (doc_class title start_date end_date : string) : string :=
  and_prefix (truthy end_date) ("publishdate:<=" ++ end_date)
  ++ and_prefix (truthy start_date) ("publishdate:>=" ++ start_date)
  ++ and_prefix (truthy title) ("title:" ++ DQUOTE ++ title ++ DQUOTE)
  ++ and_prefix (truthy collection) ("collection:" ++ collection)
  ++ congress_prefix congress
  ++ and_prefix (truthy doc_class) ("docClass:" ++ doc_class)
  ++ query.

(** The string obtained when the clauses are put on in the order
    collection, congress, docClass, title, start date, end date. *)
Definition search_query_collection_first
    (query collection : string) (congress : option Z)
    (doc_class title start_date end_date : string) : string :=
  and_prefix (truthy end_date) ("publishdate:<=" ++ end_date)
  ++ and_prefix (truthy start_date) ("publishdate:>=" ++ start_date)
  ++ and_prefix (truthy title) ("title:" ++ DQUOTE ++ title ++ DQUOTE)
  ++ and_prefix (truthy doc_class) ("docClass:" ++ doc_class)
  ++ congress_prefix congress
  ++ and_prefix (truthy collection) ("collection:" ++ collection)
  ++ query.

(** A clause appended behind what precedes, when the filter is present. *)
Definition and_suffix (present : bool) (clause : string) : string :=
  if present then " AND " ++ clause else "".

Definition congress_suffix (congress : option Z) : string :=
  match congress with
  | Some c => " AND congress:" ++ str_int c
  | None => ""
  end.

(** The clauses [search_statutes] appends after the collection clause. *)
Definition statute_clauses (congress : option Z)
    (title_number section start_date end_date : string) : string :=
  congress_suffix congress
  ++ and_suffix (truthy title_number) ("title:" ++ title_number)
  ++ and_suffix (truthy section) ("section:" ++ section)
  ++ and_suffix (truthy start_date) ("publishdate:[" ++ start_date ++ " TO *]")
  ++ and_suffix (truthy end_date) ("publishdate:[* TO " ++ end_date ++ "]").

(** The four statute collections OR-ed inside parentheses and AND-ed with
    the parenthesised user query. *)
Definition all_statutes_query (query : string) : string :=
  "(collection:USCODE OR collection:STATUTE OR collection:PLAW OR collection:COMPS) AND ("
    ++ query ++ ")".

(** ** Post-filtering of statute results *)

(** An entry whose [collectionCode] is one of the four statute codes. *)
Definition is_statute_entry (r : json) : bool :=
  match r with
  | JObj d =>
      match dict_get "collectionCode" d with
      | Some (JStr s) => mem_str s ["USCODE"; "STATUTE"; "PLAW"; "COMPS"]
      | _ => false
      end
  | _ => false
  end.

(** A result record of the service: a JSON object whose [collectionCode],
    when it has one, is a scalar. *)
Definition result_record (r : json) : bool :=
  match r with
  | JObj d =>
      match dict_get "collectionCode" d with
      | Some (JList _) | Some (JObj _) => false
      | _ => true
      end
  | _ => false
  end.

(** The mapping with [results] replaced by the statute entries and [count]
    set to their number. *)
Definition statutes_only (data : dict) (results : list json) : dict :=
  let kept := filter is_statute_entry results in
  dict_set "count" (JInt (Z.of_nat (List.length kept)))
    (dict_set "results" (JList kept) data).

Definition search_statutes_request (w : env) (q c : string) (n : option Z)
    (t s sd ed : string) (ps : Z) (om : string) : request :=
  search_request w
    (statutes_body (search_statutes_query q c n t s sd ed) ps om "score" "DESC").

(** ** Time stamps of get_packages_by_collection *)

(** The calendar date 365 days before a date. *)
Definition date_365_days_before (now : datetime) : Z * Z * Z :=
  ord2ymd (ymd2ord (year now) (month now) (day now) - 365).

(** The clock reading is late enough for the subtraction to stay within the
    years [datetime] covers. *)
Definition year_back_in_range (now : datetime) : bool :=
  let o := ymd2ord (year now) (month now) (day now) - 365 in
  (1 <=? o) && (o <=? MAXORDINAL).

(** The default lower bound with the time of day of the clock reading. *)
Definition default_start_stamp (now : datetime) : string :=
  let '(y, m, d) := date_365_days_before now in
  zpad 4 y ++ "-" ++ zpad 2 m ++ "-" ++ zpad 2 d
  ++ "T" ++ zpad 2 (hour now) ++ ":" ++ zpad 2 (minute now) ++ ":"
  ++ zpad 2 (second now) ++ "Z".

(** The default lower bound with the time of day fixed at midnight. *)
Definition midnight_start_stamp (now : datetime) : string :=
  let '(y, m, d) := date_365_days_before now in
  zpad 4 y ++ "-" ++ zpad 2 m ++ "-" ++ zpad 2 d ++ "T00:00:00Z".

(** The upper bound of the path, present only with an end date. *)
Definition end_stamp_part (end_date : string) : string :=
  if truthy end_date then "/" ++ end_date ++ "T23:59:59Z" else "".

Definition collection_path (collection start_stamp end_date : string) : string :=
  API ++ "/collections/" ++ collection ++ "/" ++ start_stamp
      ++ end_stamp_part end_date.

(** ** Sample environments *)

(** The samples uppercase ASCII strings only, on which [str.upper()] is
    [ascii_upper]. *)

(** An environment in which the key was never set. *)
Definition env_unset : env :=
  mkEnv None (fun _ => TransportFailure "ConnectError" "unreachable")
        (fun _ _ => "status error") (fun _ => "?") (fun _ _ => "unsupported")
        (mkDatetime 2025 6 15 12 34 56) ascii_upper.

(** An environment with a key, whose service answers every request with the
    same successful reply. *)
Definition sample_results : dict :=
  [("count", JInt 3);
   ("results",
    JList [JObj [("collectionCode", JStr "PLAW"); ("title", JStr "An Act")];
           JObj [("collectionCode", JStr "BILLS")];
           JObj [("title", JStr "untagged")]]);
   ("offsetMark", JStr "*")].

Definition sample_response : response :=
  mkResponse 200 [x25; x50; x44; x46; x2d] "%PDF-" (inr sample_results).

Definition env_ok : env :=
  mkEnv (Some "DEMO_KEY") (fun _ => Replied sample_response)
        (fun _ _ => "status error") (fun _ => "?") (fun _ _ => "unsupported")
        (mkDatetime 2025 6 15 12 34 56) ascii_upper.

(** Environments whose service refuses every request with one status. *)
Definition refusal (status : Z) : response :=
  mkResponse status [] "" (inl "Expecting value").

Definition env_refusing (status : Z) : env :=
  mkEnv (Some "DEMO_KEY") (fun _ => Replied (refusal status))
        (fun r resp => "Client error '" ++ str_int (status_code resp)
                         ++ "' for url '" ++ request_url r ++ "'")
        (fun _ => "?") (fun _ _ => "unsupported")
        (mkDatetime 2025 6 15 12 34 56) ascii_upper.

(** ** The rest of statutes.py *)

(** The table inside [_get_collection_description]. *)
Definition descriptions : list (string * string) :=
  [("USCODE",
    "The United States Code (USC) is the official codification of the general and permanent laws of the United States. It is organized into 54 titles covering broad subject areas.");
   ("STATUTE",
    "The Statutes at Large is the official record of laws enacted by Congress. It contains the text of public and private laws, joint resolutions, and concurrent resolutions.");
   ("PLAW",
    "Public and Private Laws are the individual laws enacted by Congress before they are codified into the United States Code. Public laws affect the general public, while private laws affect specific individuals or entities.");
   ("COMPS",
    "Statutes Compilations contain various compilations and collections of statutes, including subject-specific compilations and historical collections.")].

Definition NO_DESCRIPTION : string := "No description available.".

Definition _get_collection_description (collection_code : string) : string :=
  assoc_default collection_code descriptions NO_DESCRIPTION.

Definition collection_entry (code_name : string * string) : json :=
  let '(code, name) := code_name in
  JObj [("code", JStr code); ("name", JStr name);
        ("description", JStr (_get_collection_description code))].

Definition list_statute_collections (ctx : bool) : M dict :=
  call_log ctx INFO "Listing available statute collections" ;;
  ret [("statute_collections", JList (map collection_entry STATUTE_COLLECTIONS));
       ("total_collections", JInt (Z.of_nat (List.length STATUTE_COLLECTIONS)))].

(** ** server.py *)

(** [type(e).__name__]. *)
Definition exn_type_name (e : exn) : string :=
  match e with
  | ValueError _ => "ValueError"
  | HTTPStatusError _ _ => "HTTPStatusError"
  | OtherError kind _ => kind
  end.

(** [check_api_health].  It reads the key with [os.getenv] when it is
    called, so the key is an input here, [api_key]; [response_time_ms] is the
    duration it measures between its two clock readings, already converted
    to whole milliseconds. *)
Definition check_api_health (w : env) (api_key : option string)
    (response_time_ms : Z) : M dict :=
  if negb (key_present api_key) then
    ret [("is_healthy", JBool false); ("status", JStr "no_api_key")]
  else
    try_except
      (let req := GET (API ++ "/collections") []
                      [("X-Api-Key", key_value api_key)] 5 in
       response <- http w req ;;
       raise_for_status w req response ;;
       ret [("is_healthy", JBool true); ("status", JStr "connected");
            ("response_time_ms", JInt response_time_ms)])
      (fun e =>
         ret [("is_healthy", JBool false);
              ("status", JStr ("error: " ++ exn_type_name e));
              ("error", JStr (exn_str e))]).

(** ** The tool surface *)

(** One constructor per network-backed tool, with the tool's arguments. *)
Inductive tool_call : Type :=
| GetCollections (page_size : Z) (offset_mark : string)
| GetPackagesByCollection (collection : string) (congress : option Z)
    (doc_class start_date end_date : string) (page_size : Z) (offset_mark : string)
| GetPackageSummary (package_id : string)
| GetPackageContent (package_id content_type : string)
| GetPublishedPackages (date_issued collection doc_class : string)
    (page_size : Z) (offset_mark : string)
| GetPublishedRange (start_date end_date collection doc_class modified_since : string)
    (page_size : Z) (offset_mark : string)
| GetRelatedPackages (package_id : string)
| GetGranuleRelated (package_id granule_id : string)
| SearchPackages (query collection : string) (congress : option Z)
    (doc_class title start_date end_date : string) (page_size : Z)
    (offset_mark : string)
| AdvancedSearch (query : string) (collections : list string) (congress : list Z)
    (doc_class committees : list string)
    (date_issued_start date_issued_end last_modified_start last_modified_end : string)
    (package_count granule_count : option Z) (sort_by sort_order : string)
    (page_size : Z) (offset_mark : string)
| SearchStatutes (query collection : string) (congress : option Z)
    (title_number section start_date end_date : string) (page_size : Z)
    (offset_mark : string)
| GetUscodeTitle (title_number edition chapter section : string) (page_size : Z)
    (offset_mark : string)
| GetPublicLawsByCongress (congress : Z)
    (law_type law_number start_date end_date : string) (page_size : Z)
    (offset_mark : string)
| GetStatutesAtLarge (volume page : string) (congress : option Z) (page_size : Z)
    (offset_mark : string)
| GetStatuteContent (package_id content_type granule_id : string).

(** A mapping result seen as a JSON value. *)
Definition as_json (m : M dict) : M json :=
  (fst m, match snd m with
          | Return d => Return (JObj d)
          | Raise e => Raise e
          end).

(** Running a call. *)
Definition invoke (w : env) (c : tool_call) (ctx : bool) : M json :=
  match c with
  | GetCollections ps om => as_json (get_collections w ps om ctx)
  | GetPackagesByCollection c n dc sd ed ps om =>
      as_json (get_packages_by_collection w c n dc sd ed ps om ctx)
  | GetPackageSummary p => as_json (get_package_summary w p ctx)
  | GetPackageContent p ct => get_package_content w p ct ctx
  | GetPublishedPackages d c dc ps om =>
      as_json (get_published_packages w d c dc ps om ctx)
  | GetPublishedRange sd ed c dc ms ps om =>
      as_json (get_published_range w sd ed c dc ms ps om ctx)
  | GetRelatedPackages p => as_json (get_related_packages w p ctx)
  | GetGranuleRelated p g => as_json (get_granule_related w p g ctx)
  | SearchPackages q c n dc t sd ed ps om =>
      as_json (search_packages w q c n dc t sd ed ps om ctx)
  | AdvancedSearch q cs ns dcs cms dis die lms lme pc gc sb so ps om =>
      as_json (advanced_search w q cs ns dcs cms dis die lms lme pc gc sb so ps om ctx)
  | SearchStatutes q c n t s sd ed ps om =>
      as_json (search_statutes w q c n t s sd ed ps om ctx)
  | GetUscodeTitle t e c s ps om => as_json (get_uscode_title w t e c s ps om ctx)
  | GetPublicLawsByCongress n lt ln sd ed ps om =>
      as_json (get_public_laws_by_congress w n lt ln sd ed ps om ctx)
  | GetStatutesAtLarge v p n ps om =>
      as_json (get_statutes_at_large w v p n ps om ctx)
  | GetStatuteContent p ct g => as_json (get_statute_content w p ct g ctx)
  end.

(** The checks a tool makes on its arguments (and, for the default start
    date, on the clock) before it builds its request. *)
Definition call_valid (w : env) (c : tool_call) : bool :=
  match c with
  | GetPackagesByCollection _ _ _ sd _ _ _ =>
      truthy sd || year_back_in_range (utc_now w)
  | SearchStatutes _ c _ _ _ _ _ _ _ =>
      negb (truthy c) || mem_str c statute_codes
  | GetPublicLawsByCongress _ lt _ _ _ _ _ =>
      negb (truthy lt)
      || match law_type_clause lt with Some _ => true | None => false end
  | GetStatuteContent _ ct _ => mem_str ct ["summary"; "xml"; "pdf"; "text"]
  | _ => true
  end.

Definition request_headers (r : request) : list (string * string) :=
  match r with GET _ _ h _ => h | POST _ _ h _ => h end.

Definition request_params (r : request) : dict :=
  match r with GET _ p _ _ => p | POST _ b _ _ => b end.

(** A request addressed to the service and carrying the configured key. *)
Definition authorised (w : env) (r : request) : bool :=
  String.prefix (API ++ "/") (request_url r)
  && match assoc "X-Api-Key" (request_headers r) with
     | Some k => String.eqb k (key_value (API_KEY w))
     | None => false
     end.

(** Either no request, or one request addressed to the service with the
    configured key, according to [go]. *)
Definition one_request_if {A} (w : env) (go : bool) (m : M A) : Prop :=
  if go then
    exists r, requests_of (trace_of m) = [r] /\ authorised w r = true
  else requests_of (trace_of m) = [].

(** Environments whose transport fails on every request. *)
Definition env_offline : env :=
  mkEnv (Some "DEMO_KEY") (fun _ => TransportFailure "ConnectTimeout" "timed out")
        (fun _ _ => "status error") (fun _ => "?") (fun _ _ => "unsupported")
        (mkDatetime 2025 6 15 12 34 56) ascii_upper.

(** A run that sent one request, was refused with [resp] and re-raised the
    status error after one report at error level. *)
Definition refused_run {A} (w : env) (resp : response) (m : M A) : Prop :=
  exists r,
    requests_of (trace_of m) = [r]
    /\ outcome_of m = Raise (HTTPStatusError (status_error_str w r resp) resp)
    /\ List.length (errors_of (trace_of m)) = 1%nat.

(** A run that sent one request, lost the connection and re-raised the
    transport error after one report at error level. *)
Definition dropped_run {A} (kind msg : string) (m : M A) : Prop :=
  List.length (requests_of (trace_of m)) = 1%nat
  /\ outcome_of m = Raise (OtherError kind msg)
  /\ List.length (errors_of (trace_of m)) = 1%nat.

(** The probe [check_api_health] sends. *)
Definition health_probe (api_key : option string) : request :=
  GET (API ++ "/collections") [] [("X-Api-Key", key_value api_key)] 5.

(** The key is set and the service answers the probe with a status in
    200..299. *)
Definition service_up (w : env) (api_key : option string) : bool :=
  key_present api_key
  && match send w (health_probe api_key) with
     | Replied resp => ok_status resp
     | TransportFailure _ _ => false
     end.

(** The codes listed in the result of [list_statute_collections]. *)
Definition entry_field (field : string) (entry : json) : option json :=
  match entry with
  | JObj d => dict_get field d
  | _ => None
  end.

Definition listed_entries (d : dict) : list json :=
  match dict_get "statute_collections" d with
  | Some (JList l) => l
  | _ => []
  end.

(** The summary request shared by [get_package_summary] and
    [get_statute_content]. *)
Definition summary_request (w : env) (package_id granule_id : string) : request :=
  GET (if truthy granule_id then
         API ++ "/packages/" ++ package_id ++ "/granules/" ++ granule_id ++ "/summary"
       else API ++ "/packages/" ++ package_id ++ "/summary")
      [] [("X-Api-Key", key_value (API_KEY w))] 30.

(** The summary with the download link of the requested format attached. *)
Definition with_link (data : dict) (content_type : string) (link : json) : dict :=
  dict_set "content_type" (JStr content_type)
    (dict_set "requested_content_url" link data).

(** A summary whose [download] field is a list of link objects, the shape
    the docstring of [get_package_content] reads it in. *)
Definition is_object (v : json) : bool :=
  match v with JObj _ => true | _ => false end.

Definition env_summary (download : json) : env :=
  mkEnv (Some "DEMO_KEY")
        (fun _ => Replied (mkResponse 200 [] ""
                             (inr [("packageId", JStr "PLAW-117publ58");
                                   ("download", download)])))
        (fun _ _ => "status error") (fun _ => "?") (fun _ _ => "unsupported")
        (mkDatetime 2025 6 15 12 34 56) ascii_upper.

(** ** Replies handed back *)

(** The field whose length a tool logs before it returns the reply. *)
Definition counted_field (c : tool_call) : option string :=
  match c with
  | GetCollections _ _ => Some "collections"
  | GetPackagesByCollection _ _ _ _ _ _ _ => Some "packages"
  | GetPublishedPackages _ _ _ _ _ => Some "packages"
  | GetPublishedRange _ _ _ _ _ _ _ => Some "packages"
  | GetRelatedPackages _ => Some "relatedPackages"
  | _ => None
  end.

(** Values [len] accepts. *)
Definition sized (v : json) : bool :=
  match v with
  | JList _ | JObj _ | JStr _ => true
  | _ => false
  end.

(** The counted field of the reply, with the default the tools give it. *)
Definition counted_value (c : tool_call) (data : dict) : option json :=
  match counted_field c with
  | Some k => Some (dict_get_default k (JList []) data)
  | None => None
  end.

(** Calls whose tool does not reshape a successful reply. *)
Definition returns_reply (c : tool_call) : bool :=
  match c with
  | GetPackageContent _ _ => false
  | SearchStatutes _ c _ _ _ _ _ _ _ => truthy c
  | GetStatuteContent _ ct _ => String.eqb ct "summary"
  | _ => true
  end.

(** How a run ends once the reply [data] has arrived and only the count is
    left to log. *)
Definition after_count (w : env) (counted : option json) (data : dict)
  : outcome json :=
  match counted with
  | None => Return (JObj data)
  | Some v =>
      if sized v then Return (JObj data)
      else Raise (OtherError "TypeError" (py_error_str w "len" v))
  end.

Definition env_replying (data : dict) : env :=
  mkEnv (Some "DEMO_KEY") (fun _ => Replied (mkResponse 200 [] "" (inr data)))
        (fun _ _ => "status error") (fun _ => "?")
        (fun op v => "object of type '" ++ type_name v ++ "' has no " ++ op ++ "()")
        (mkDatetime 2025 6 15 12 34 56) ascii_upper.

(** A character of the base64 alphabet or the padding sign. *)
Definition b64_symbol (c : ascii) : bool :=
  match b64val c with
  | Some _ => true
  | None => Ascii.eqb c PAD
  end.

Fixpoint all_chars (f : ascii -> bool) (s : string) : bool :=
  match s with
  | EmptyString => true
  | String c r => f c && all_chars f r
  end.

(** Calls whose tool decodes the reply as JSON. *)
Definition decodes_json (c : tool_call) : bool :=
  match c with
  | GetPackageContent _ _ => false
  | _ => true
  end.

Definition env_garbled : env :=
  mkEnv (Some "DEMO_KEY")
        (fun _ => Replied (mkResponse 200 [x3c; x68; x31; x3e] "<h1>"
                             (inl "Expecting value: line 1 column 1 (char 0)")))
        (fun _ _ => "status error") (fun _ => "?") (fun _ _ => "unsupported")
        (mkDatetime 2025 6 15 12 34 56) ascii_upper.

(** A string filter as it appears among the request parameters: present
    with its value when non-empty, absent otherwise. *)
Definition sent_if_set (s : string) : option json :=
  if truthy s then Some (JStr s) else None.

(** ** The calendar *)

(** The month and day [ord2ymd] derives from the zero-based day of the
    year. *)
Definition month_and_day (leapyear : bool) (n : Z) : Z * Z :=
  let m := Z.shiftr (n + 50) 5 in
  let preceding := DAYS_BEFORE_MONTH m + (if (2 <? m) && leapyear then 1 else 0) in
  if n <? preceding then
    let m' := m - 1 in
    let preceding' :=
      preceding - (DAYS_IN_MONTH m' + (if (m' =? 2) && leapyear then 1 else 0)) in
    (m', n - preceding' + 1)
  else (m, n - preceding + 1).

(** The number of days of a month. *)
Definition days_in_month (y m : Z) : Z :=
  DAYS_IN_MONTH m + (if (m =? 2) && is_leap y then 1 else 0).

(** That month and day are a date of the year and fall on day [n]. *)
Definition month_and_day_ok (leapyear : bool) (n : Z) : bool :=
  let '(m, d) := month_and_day leapyear n in
  (1 <=? m) && (m <=? 12) && (1 <=? d)
  && (d <=? DAYS_IN_MONTH m + (if (m =? 2) && leapyear then 1 else 0))
  && (DAYS_BEFORE_MONTH m + (if (2 <? m) && leapyear then 1 else 0) + d =? n + 1).

(** A clock reading that is a date of the years 2..9999. *)
Definition clock_date (now : datetime) : bool :=
  (2 <=? year now) && (year now <=? 9999)
  && (1 <=? month now) && (month now <=? 12)
  && (1 <=? day now) && (day now <=? days_in_month (year now) (month now)).

(** ** What a caller gets from a failed call *)

(** [str(e)] of the exception a run raises to its caller, if it raises. *)
Definition raised_message {A : Type} (m : M A) : option string :=
  match outcome_of m with
  | Raise e => Some (exn_str e)
  | Return _ => None
  end.

(** ** Laws of the tool monad *)

Section Runs.
Context {A B : Type}.

Lemma outcome_bind (m : M A) (k : A -> M B) :
  outcome_of (bind m k)
  = match outcome_of m with
    | Return a => outcome_of (k a)
    | Raise e => Raise e
    end.
Proof. destruct m as [t [a|e]]; cbn; [destruct (k a)|]; reflexivity. Qed.

Lemma trace_bind (m : M A) (k : A -> M B) :
  trace_of (bind m k)
  = (trace_of m ++ match outcome_of m with
                   | Return a => trace_of (k a)
                   | Raise _ => []
                   end)%list.
Proof.
  destruct m as [t [a|e]]; cbn; [destruct (k a)|]; cbn;
    now rewrite ?app_nil_r.
Qed.

Lemma outcome_try (body : M A) (h : exn -> M A) :
  outcome_of (try_except body h)
  = match outcome_of body with
    | Return a => Return a
    | Raise e => outcome_of (h e)
    end.
Proof. destruct body as [t [a|e]]; cbn; [|destruct (h e)]; reflexivity. Qed.

Lemma trace_try (body : M A) (h : exn -> M A) :
  trace_of (try_except body h)
  = (trace_of body ++ match outcome_of body with
                      | Return _ => []
                      | Raise e => trace_of (h e)
                      end)%list.
Proof.
  destruct body as [t [a|e]]; cbn; [|destruct (h e)]; cbn;
    now rewrite ?app_nil_r.
Qed.

Lemma outcome_ret (a : A) : outcome_of (ret a) = Return a.
Proof. reflexivity. Qed.

Lemma trace_ret (a : A) : trace_of (ret a) = [].
Proof. reflexivity. Qed.

Lemma outcome_raise (e : exn) : outcome_of (@raise A e) = Raise e.
Proof. reflexivity. Qed.

Lemma trace_raise (e : exn) : trace_of (@raise A e) = [].
Proof. reflexivity. Qed.

End Runs.

Lemma outcome_say ctx lv msg : outcome_of (say ctx lv msg) = Return tt.
Proof. reflexivity. Qed.

Lemma trace_say ctx lv msg :
  trace_of (say ctx lv msg) = [Log (if ctx then ToContext else ToLogger) lv msg].
Proof. reflexivity. Qed.

Lemma outcome_call_log ctx lv msg : outcome_of (call_log ctx lv msg) = Return tt.
Proof. reflexivity. Qed.

Lemma trace_call_log ctx lv msg :
  trace_of (call_log ctx lv msg)
  = [Log (if ctx then CtxNotAwaited else ToLogger) lv msg].
Proof. reflexivity. Qed.

Lemma outcome_http w r :
  outcome_of (http w r)
  = match send w r with
    | Replied resp => Return resp
    | TransportFailure kind msg => Raise (OtherError kind msg)
    end.
Proof. unfold http. rewrite outcome_bind. cbn. now destruct (send w r). Qed.

Lemma trace_http w r : trace_of (http w r) = [Http r].
Proof. unfold http. rewrite trace_bind. cbn. now destruct (send w r). Qed.

Lemma outcome_raise_for_status w r resp :
  outcome_of (raise_for_status w r resp)
  = if ok_status resp then Return tt
    else Raise (HTTPStatusError (status_error_str w r resp) resp).
Proof. unfold raise_for_status, ok_status. now destruct (_ && _). Qed.

Lemma trace_raise_for_status w r resp : trace_of (raise_for_status w r resp) = [].
Proof. unfold raise_for_status. now destruct (_ && _). Qed.

Lemma outcome_response_json resp :
  outcome_of (response_json resp)
  = match json_body resp with
    | inr d => Return d
    | inl msg => Raise (OtherError "JSONDecodeError" msg)
    end.
Proof. unfold response_json. now destruct (json_body resp). Qed.

Lemma trace_response_json resp : trace_of (response_json resp) = [].
Proof. unfold response_json. now destruct (json_body resp). Qed.

Create Rewrite HintDb run.
#[global] Hint Rewrite @outcome_bind @trace_bind @outcome_try @trace_try
  @outcome_ret @trace_ret @outcome_raise @trace_raise
  outcome_say trace_say outcome_call_log trace_call_log
  outcome_http trace_http
  outcome_raise_for_status trace_raise_for_status
  outcome_response_json trace_response_json : run.

(** Symbolic execution of a run: rewrite with the laws, then reduce the
    matches they expose. *)
Ltac run := repeat (autorewrite with run; cbn [negb andb orb app]).

Lemma requests_of_app (t t' : list event) :
  requests_of (t ++ t') = (requests_of t ++ requests_of t')%list.
Proof.
  induction t as [|[s lv m|r] t IH]; cbn; [reflexivity|assumption|].
  now rewrite IH.
Qed.

Lemma errors_of_app (t t' : list event) :
  errors_of (t ++ t') = (errors_of t ++ errors_of t')%list.
Proof.
  induction t as [|[s [] m|r] t IH]; cbn; try assumption; [reflexivity|].
  now rewrite IH.
Qed.

(** *** Runs that stay off the network *)

Section Quiet.
Context {A B : Type}.

Lemma quiet_ret (a : A) : quiet (ret a).
Proof. reflexivity. Qed.

Lemma quiet_raise (e : exn) : quiet (@raise A e).
Proof. reflexivity. Qed.

Lemma quiet_bind (m : M A) (k : A -> M B) :
  quiet m -> (forall a, quiet (k a)) -> quiet (bind m k).
Proof.
  unfold quiet. intros Hm Hk. rewrite trace_bind, requests_of_app, Hm.
  destruct (outcome_of m); [apply Hk|reflexivity].
Qed.

Lemma quiet_try (body : M A) (h : exn -> M A) :
  quiet body -> (forall e, quiet (h e)) -> quiet (try_except body h).
Proof.
  unfold quiet. intros Hm Hk. rewrite trace_try, requests_of_app, Hm.
  destruct (outcome_of body); [reflexivity|apply Hk].
Qed.

End Quiet.

Lemma quiet_say ctx lv msg : quiet (say ctx lv msg).
Proof. reflexivity. Qed.

Lemma quiet_call_log ctx lv msg : quiet (call_log ctx lv msg).
Proof. reflexivity. Qed.

Lemma quiet_raise_for_status w r resp : quiet (raise_for_status w r resp).
Proof. unfold quiet. now rewrite trace_raise_for_status. Qed.

Lemma quiet_response_json resp : quiet (response_json resp).
Proof. unfold quiet. now rewrite trace_response_json. Qed.

Lemma quiet_py_len w v : quiet (py_len w v).
Proof. now destruct v. Qed.

Lemma quiet_py_iter w v : quiet (py_iter w v).
Proof. now destruct v. Qed.

Lemma quiet_py_get w k v : quiet (py_get w k v).
Proof. now destruct v. Qed.

Lemma quiet_py_in_keys w v keys : quiet (py_in_keys w v keys).
Proof. now destruct v. Qed.

Lemma quiet_py_contains w k v : quiet (py_contains w k v).
Proof. now destruct v. Qed.

Lemma quiet_py_index w v k : quiet (py_index w v k).
Proof. destruct v; try reflexivity. cbn. now destruct (dict_get k d). Qed.

Lemma quiet_minus_days dt n : quiet (minus_days dt n).
Proof.
  unfold minus_days. destruct (_ && _); [|reflexivity].
  now destruct (ord2ymd _) as [[y m] d].
Qed.

(** Discharges [quiet] goals by following the structure of the run. *)
Ltac quiet_step :=
  match goal with
  | |- forall _, _ => intro
  | |- quiet (bind _ _) => apply quiet_bind
  | |- quiet (try_except _ _) => apply quiet_try
  | |- quiet (ret _) => apply quiet_ret
  | |- quiet (raise _) => apply quiet_raise
  | |- quiet (say _ _ _) => apply quiet_say
  | |- quiet (call_log _ _ _) => apply quiet_call_log
  | |- quiet (raise_for_status _ _ _) => apply quiet_raise_for_status
  | |- quiet (response_json _) => apply quiet_response_json
  | |- quiet (py_len _ _) => apply quiet_py_len
  | |- quiet (py_iter _ _) => apply quiet_py_iter
  | |- quiet (py_get _ _ _) => apply quiet_py_get
  | |- quiet (py_in_keys _ _ _) => apply quiet_py_in_keys
  | |- quiet (py_contains _ _ _) => apply quiet_py_contains
  | |- quiet (py_index _ _ _) => apply quiet_py_index
  | |- quiet (minus_days _ _) => apply quiet_minus_days
  | |- quiet (if ?b then _ else _) => destruct b
  | |- quiet (match ?x with _ => _ end) => destruct x
  | |- quiet _ => progress cbv zeta
  end.

Ltac quiet_tac := repeat quiet_step.

Lemma quiet_on_error {A} ctx label e : quiet (@on_error A ctx label e).
Proof. unfold on_error. quiet_tac. Qed.

Lemma quiet_on_statute_error {A} ctx label e :
  quiet (@on_statute_error A ctx label e).
Proof. unfold on_statute_error. quiet_tac. Qed.

Lemma quiet_keep_statutes w results : quiet (keep_statutes w results).
Proof.
  induction results as [|r rest IH]; cbn [keep_statutes]; quiet_tac.
  exact IH.
Qed.

(** One request goes out when a run is an exchange followed by quiet
    processing, under a quiet handler. *)
Lemma exchange_requests {A} w req (post : response -> M A) (h : exn -> M A) :
  (forall resp, quiet (post resp)) ->
  (forall e, quiet (h e)) ->
  requests_of (trace_of (try_except (bind (http w req) post) h)) = [req].
Proof.
  intros Hp Hh. rewrite trace_try, trace_bind, trace_http, !requests_of_app.
  cbn [requests_of app].
  replace (requests_of _) with (@nil request).
  - replace (requests_of _) with (@nil request); [reflexivity|].
    destruct (outcome_of (bind _ _)); [reflexivity|symmetry; apply Hh].
  - destruct (outcome_of (http w req)); [symmetry; apply Hp|reflexivity].
Qed.

(** A quiet prologue that returns leaves the requests of what follows. *)
Lemma prologue_requests {A B} (m : M A) (k : A -> M B) a :
  quiet m -> outcome_of m = Return a ->
  requests_of (trace_of (bind m k)) = requests_of (trace_of (k a)).
Proof.
  intros Hq Ho. now rewrite trace_bind, requests_of_app, Hq, Ho.
Qed.

(** ** The API key gate *)

Ltac unconfigured H :=
  intros; unfold fails_unconfigured, quiet; split; [eexists|];
  run; rewrite H; run; reflexivity.

(** C1 (as amended).  With the API key unset (or empty), every
    network-backed tool except [get_related_packages] raises [ValueError]
    without issuing a request; [get_related_packages] returns the mapping
    [{"error": "GOVINFO_API_KEY not found in environment variables"}]
    instead, also without issuing a request. *)
Theorem unset_key_gate (w : env) (H : key_present (API_KEY w) = false) :
  (forall ps om ctx, fails_unconfigured (get_collections w ps om ctx)) /\
  (forall c n dc sd ed ps om ctx,
      fails_unconfigured (get_packages_by_collection w c n dc sd ed ps om ctx)) /\
  (forall p ctx, fails_unconfigured (get_package_summary w p ctx)) /\
  (forall p ct ctx, fails_unconfigured (get_package_content w p ct ctx)) /\
  (forall d c dc ps om ctx,
      fails_unconfigured (get_published_packages w d c dc ps om ctx)) /\
  (forall sd ed c dc ms ps om ctx,
      fails_unconfigured (get_published_range w sd ed c dc ms ps om ctx)) /\
  (forall p g ctx, fails_unconfigured (get_granule_related w p g ctx)) /\
  (forall q c n dc t sd ed ps om ctx,
      fails_unconfigured (search_packages w q c n dc t sd ed ps om ctx)) /\
  (forall q cs ns dcs cms dis die lms lme pc gc sb so ps om ctx,
      fails_unconfigured
        (advanced_search w q cs ns dcs cms dis die lms lme pc gc sb so ps om ctx)) /\
  (forall q c n t s sd ed ps om ctx,
      fails_unconfigured (search_statutes w q c n t s sd ed ps om ctx)) /\
  (forall t e c s ps om ctx,
      fails_unconfigured (get_uscode_title w t e c s ps om ctx)) /\
  (forall n lt ln sd ed ps om ctx,
      fails_unconfigured (get_public_laws_by_congress w n lt ln sd ed ps om ctx)) /\
  (forall v p n ps om ctx,
      fails_unconfigured (get_statutes_at_large w v p n ps om ctx)) /\
  (forall p ct g ctx, fails_unconfigured (get_statute_content w p ct g ctx)) /\
  (forall p ctx,
      outcome_of (get_related_packages w p ctx)
      = Return [("error", JStr "GOVINFO_API_KEY not found in environment variables")]
      /\ quiet (get_related_packages w p ctx)).
Proof.
  repeat apply conj.
  - unfold get_collections. unconfigured H.
  - unfold get_packages_by_collection. unconfigured H.
  - unfold get_package_summary. unconfigured H.
  - unfold get_package_content. unconfigured H.
  - unfold get_published_packages. unconfigured H.
  - unfold get_published_range. unconfigured H.
  - unfold get_granule_related. unconfigured H.
  - unfold search_packages. unconfigured H.
  - unfold advanced_search. unconfigured H.
  - unfold search_statutes. unconfigured H.
  - unfold get_uscode_title. unconfigured H.
  - unfold get_public_laws_by_congress. unconfigured H.
  - unfold get_statutes_at_large. unconfigured H.
  - unfold get_statute_content. unconfigured H.
  - intros. unfold get_related_packages, quiet. split; run; rewrite H; run; reflexivity.
Qed.

Lemma unset_key_gate_witness :
  key_present (API_KEY env_unset) = false /\
  fails_unconfigured (search_packages env_unset "water" "" None "" "" "" "" 50 "*" false) /\
  fails_unconfigured (get_statute_content env_unset "PLAW-117publ58" "summary" "" true).
Proof.
  pose proof (unset_key_gate env_unset eq_refl) as G.
  split; [reflexivity|]. split; apply G.
Defined.

(** C1 (as stated) fails at [get_related_packages]: with the key unset it
    returns an error mapping and raises nothing. *)
Lemma unset_key_related_returns :
  API_KEY env_unset = None /\
  outcome_of (get_related_packages env_unset "BILLS-116hr1-ih" false)
  = Return [("error", JStr "GOVINFO_API_KEY not found in environment variables")] /\
  ~ fails_unconfigured (get_related_packages env_unset "BILLS-116hr1-ih" false).
Proof.
  split; [reflexivity|]. split; [reflexivity|].
  intros [[msg E] _]. discriminate E.
Qed.

(** ** Sample runs of the pure parts *)

Example str_int_samples : str_int 117 = "117" /\ str_int 0 = "0" /\ str_int (-5) = "-5".
Proof. repeat split. Qed.

Example a_year_back_plain : ord2ymd (ymd2ord 2025 6 15 - 365) = (2024, 6, 15).
Proof. reflexivity. Qed.

Example a_year_back_over_leap_day : ord2ymd (ymd2ord 2025 1 1 - 365) = (2024, 1, 2).
Proof. reflexivity. Qed.

Example a_year_back_from_leap_day : ord2ymd (ymd2ord 2024 2 29 - 365) = (2023, 3, 1).
Proof. reflexivity. Qed.

Example ordinal_bounds : ymd2ord 1 1 1 = 1 /\ ymd2ord 9999 12 31 = MAXORDINAL.
Proof. split; reflexivity. Qed.

Example strftime_pads :
  strftime_iso (mkDatetime 2024 6 5 7 4 9) = "2024-06-05T07:04:09Z".
Proof. reflexivity. Qed.

Example b64encode_samples :
  b64encode [x48; x69; x21] = "SGkh" /\ b64encode [x48; x69] = "SGk=" /\
  b64encode [x48] = "SA==" /\ b64encode [] = "".
Proof. repeat split. Qed.

Example lower_samples : lower "PDF" = "pdf" /\ lower "Html5-x" = "html5-x".
Proof. split; reflexivity. Qed.

(** ** Strings *)

Lemma append_assoc (a b c : string) : (a ++ b) ++ c = a ++ (b ++ c).
Proof. induction a as [|x a IH]; cbn; [reflexivity|now rewrite IH]. Qed.

Lemma append_nil_r (a : string) : a ++ "" = a.
Proof. induction a as [|x a IH]; cbn; [reflexivity|now rewrite IH]. Qed.

(** Brings nested concatenations to right-nested form. *)
Ltac str_norm :=
  repeat (progress (rewrite ?append_assoc, ?append_nil_r; cbn [append])).

(** ** search_packages *)

Ltac skip_prologue :=
  rewrite (prologue_requests _ _ tt) by reflexivity; cbv beta.

Lemma search_packages_query_layout q c n d t s e :
  search_packages_query q c n d t s e
  = search_query_collection_first q c n d t s e.
Proof.
  unfold search_packages_query, search_query_collection_first, and_prefix,
    congress_prefix.
  destruct (truthy c), n, (truthy d), (truthy t), (truthy s), (truthy e);
    str_norm; reflexivity.
Qed.

(** C2 (as amended).  [search_packages] puts the clauses on in the order
    collection, congress, docClass, title, start date, end date, each in
    front of what is already there, so the string posted to [/search] reads
    end date, start date, title, docClass, congress, collection, query. *)
Theorem search_packages_query_sent
    (w : env) (q c : string) (n : option Z) (d t s e : string) (ps : Z)
    (om : string) (ctx : bool) (Hk : key_present (API_KEY w) = true) :
  search_packages_query q c n d t s e
  = search_query_collection_first q c n d t s e /\
  requests_of (trace_of (search_packages w q c n d t s e ps om ctx))
  = [search_request w
       (search_packages_body (search_query_collection_first q c n d t s e) ps om)].
Proof.
  split; [apply search_packages_query_layout|].
  rewrite <- search_packages_query_layout.
  unfold search_packages, search_request, search_packages_body.
  skip_prologue. rewrite Hk. cbn [negb]. skip_prologue. cbv zeta.
  apply exchange_requests; [quiet_tac|apply quiet_on_error].
Qed.

Lemma search_packages_query_sent_witness :
  key_present (API_KEY env_ok) = true /\
  requests_of (trace_of (search_packages env_ok "query" "C" (Some 117) "D" "T"
                           "S" "E" 50 "*" false))
  = [search_request env_ok
       (search_packages_body
          ("publishdate:<=E AND publishdate:>=S AND title:" ++ DQUOTE ++ "T"
             ++ DQUOTE ++ " AND docClass:D AND congress:117 AND collection:C AND query")
          50 "*")].
Proof.
  split; [reflexivity|].
  exact (proj2 (search_packages_query_sent env_ok "query" "C" (Some 117) "D" "T"
                  "S" "E" 50 "*" false eq_refl)).
Defined.

(** C2 (as stated) fails with every filter present: the string sent is not
    the one with docClass innermost. *)
Lemma search_packages_order_counterexample :
  search_query_docclass_first "query" "C" (Some 117) "D" "T" "S" "E"
  = "publishdate:<=E AND publishdate:>=S AND title:" ++ DQUOTE ++ "T" ++ DQUOTE
      ++ " AND collection:C AND congress:117 AND docClass:D AND query" /\
  search_packages_query "query" "C" (Some 117) "D" "T" "S" "E"
  = "publishdate:<=E AND publishdate:>=S AND title:" ++ DQUOTE ++ "T" ++ DQUOTE
      ++ " AND docClass:D AND congress:117 AND collection:C AND query" /\
  search_packages_query "query" "C" (Some 117) "D" "T" "S" "E"
  <> search_query_docclass_first "query" "C" (Some 117) "D" "T" "S" "E" /\
  requests_of (trace_of (search_packages env_ok "query" "C" (Some 117) "D" "T"
                           "S" "E" 50 "*" false))
  <> [search_request env_ok
        (search_packages_body
           (search_query_docclass_first "query" "C" (Some 117) "D" "T" "S" "E")
           50 "*")].
Proof.
  repeat split; try reflexivity; intro E; vm_compute in E; discriminate E.
Qed.

(** ** Statute queries *)

Lemma bind_ret_l {A B} (a : A) (k : A -> M B) : bind (ret a) k = k a.
Proof. unfold bind, ret. now destruct (k a). Qed.

Lemma statutes_base_query_all (q : string) :
  statutes_base_query q "" = all_statutes_query q.
Proof. reflexivity. Qed.

Lemma search_statutes_query_clauses q c n t s sd ed :
  search_statutes_query q c n t s sd ed
  = statutes_base_query q c ++ statute_clauses n t s sd ed.
Proof.
  unfold search_statutes_query, statute_clauses, and_suffix, congress_suffix.
  generalize (statutes_base_query q c) as base. intros base.
  destruct n, (truthy t), (truthy s), (truthy sd), (truthy ed);
    str_norm; reflexivity.
Qed.

(** C3.  With [collection=""], [search_statutes] posts to [/search] the four
    collection codes OR-ed in parentheses, AND-ed with the parenthesised
    query, followed by the clauses of the other filters; with no other
    filter that is the whole string. *)
Theorem search_statutes_all_collections_query
    (w : env) (q : string) (n : option Z) (t s sd ed : string) (ps : Z)
    (om : string) (ctx : bool) (Hk : key_present (API_KEY w) = true) :
  statutes_base_query q "" = all_statutes_query q /\
  requests_of (trace_of (search_statutes w q "" n t s sd ed ps om ctx))
  = [search_request w
       (statutes_body (all_statutes_query q ++ statute_clauses n t s sd ed)
          ps om "score" "DESC")] /\
  all_statutes_query q ++ statute_clauses None "" "" "" "" = all_statutes_query q.
Proof.
  split; [reflexivity|]. split.
  - rewrite <- statutes_base_query_all, <- search_statutes_query_clauses.
    unfold search_statutes, search_request, statutes_body.
    skip_prologue. rewrite Hk. cbn [negb]. skip_prologue.
    cbn [truthy andb]. skip_prologue. cbv zeta.
    apply exchange_requests; [|apply quiet_on_statute_error].
    quiet_tac. apply quiet_keep_statutes.
  - cbn [statute_clauses congress_suffix and_suffix truthy append].
    apply append_nil_r.
Qed.

Lemma search_statutes_all_collections_query_witness :
  key_present (API_KEY env_ok) = true /\
  requests_of (trace_of (search_statutes env_ok "civil rights" "" None "" "" "" ""
                           50 "*" false))
  = [search_request env_ok
       (statutes_body
          "(collection:USCODE OR collection:STATUTE OR collection:PLAW OR collection:COMPS) AND (civil rights)"
          50 "*" "score" "DESC")].
Proof.
  split; [reflexivity|].
  exact (proj1 (proj2 (search_statutes_all_collections_query env_ok "civil rights"
                         None "" "" "" "" 50 "*" false eq_refl))).
Defined.

(** C8.  [get_public_laws_by_congress(congress=N, law_type="public")] with
    no other filter posts the query
    [collection:PLAW AND congress:N AND (docClass:public OR title:public)]. *)
Theorem public_laws_query_sent
    (w : env) (N : Z) (ps : Z) (om : string) (ctx : bool)
    (Hk : key_present (API_KEY w) = true) :
  requests_of (trace_of (get_public_laws_by_congress w N "public" "" "" "" ps om ctx))
  = [search_request w
       (statutes_body
          ("collection:PLAW AND congress:" ++ str_int N
             ++ " AND (docClass:public OR title:public)")
          ps om "publishdate" "DESC")].
Proof.
  unfold get_public_laws_by_congress, search_request, statutes_body.
  skip_prologue. rewrite Hk. cbn [negb]. skip_prologue. cbv zeta.
  change (truthy "public") with true.
  change (law_type_clause "public")
    with (Some " AND (docClass:public OR title:public)").
  cbv iota. rewrite bind_ret_l.
  cbn [public_laws_tail truthy]. rewrite append_assoc.
  apply exchange_requests; [quiet_tac|apply quiet_on_statute_error].
Qed.

Lemma public_laws_query_sent_witness :
  key_present (API_KEY env_ok) = true /\
  requests_of (trace_of (get_public_laws_by_congress env_ok 117 "public" "" "" ""
                           50 "*" false))
  = [search_request env_ok
       (statutes_body
          "collection:PLAW AND congress:117 AND (docClass:public OR title:public)"
          50 "*" "publishdate" "DESC")].
Proof.
  split; [reflexivity|].
  exact (public_laws_query_sent env_ok 117 50 "*" false eq_refl).
Defined.

(** ** search_statutes: the client-side filter *)

Lemma dict_get_set_same k v d : dict_get k (dict_set k v d) = Some v.
Proof.
  induction d as [|[k' v'] r IH]; cbn.
  - now rewrite String.eqb_refl.
  - destruct (String.eqb k k') eqn:E; cbn; rewrite ?String.eqb_refl, ?E; auto.
Qed.

Lemma dict_get_set_other k k' v d :
  k <> k' -> dict_get k' (dict_set k v d) = dict_get k' d.
Proof.
  intros Hne. assert (Hkk : String.eqb k' k = false).
  { apply String.eqb_neq. congruence. }
  induction d as [|[k0 v0] r IH]; cbn.
  - now rewrite Hkk.
  - destruct (String.eqb k k0) eqn:E; cbn.
    + apply String.eqb_eq in E. subst k0. now rewrite Hkk.
    + now rewrite IH.
Qed.

Lemma keep_statutes_records w rs :
  forallb result_record rs = true ->
  keep_statutes w rs = ret (filter is_statute_entry rs).
Proof.
  induction rs as [|r rest IH]; [reflexivity|].
  cbn [forallb]. intros H. apply andb_prop in H as [Hr Hrest].
  cbn [keep_statutes filter]. rewrite (IH Hrest).
  destruct r as [| | | | |l|d]; try discriminate Hr.
  cbn [py_get is_statute_entry result_record] in *. rewrite bind_ret_l.
  unfold dict_get_default.
  destruct (dict_get "collectionCode" d) as [[| | | |s| |]|]; try discriminate Hr;
    cbn [py_in_keys]; rewrite !bind_ret_l; try reflexivity.
Qed.

Lemma statute_code_truthy c : mem_str c statute_codes = true -> truthy c = true.
Proof. destruct c; [discriminate|reflexivity]. Qed.

(** C4 (as amended).  When the reply carries a [results] list of result
    records and no
    collection was asked for, [search_statutes] returns the reply with
    [results] narrowed, in order, to the entries whose [collectionCode] is one
    of the four statute codes and with [count] set to their number, every
    other key untouched; with an explicit valid collection the reply is
    returned as it came. *)
Theorem search_statutes_post_filter
    (w : env) (q : string) (n : option Z) (t s sd ed : string) (ps : Z)
    (om : string) (ctx : bool) (resp : response) (data : dict)
    (Hk : key_present (API_KEY w) = true)
    (Hok : ok_status resp = true)
    (Hj : json_body resp = inr data) :
  (forall rs,
      send w (search_statutes_request w q "" n t s sd ed ps om) = Replied resp ->
      dict_get "results" data = Some (JList rs) ->
      forallb result_record rs = true ->
      outcome_of (search_statutes w q "" n t s sd ed ps om ctx)
      = Return (statutes_only data rs)
      /\ dict_get "results" (statutes_only data rs)
         = Some (JList (filter is_statute_entry rs))
      /\ dict_get "count" (statutes_only data rs)
         = Some (JInt (Z.of_nat (List.length (filter is_statute_entry rs))))
      /\ (forall k, k <> "results" -> k <> "count" ->
                    dict_get k (statutes_only data rs) = dict_get k data)) /\
  (forall c,
      mem_str c statute_codes = true ->
      send w (search_statutes_request w q c n t s sd ed ps om) = Replied resp ->
      outcome_of (search_statutes w q c n t s sd ed ps om ctx) = Return data).
Proof.
  split.
  - intros rs Hs Hr Hrec. split; [|split; [|split]].
    + unfold search_statutes_request, search_request, statutes_body in Hs.
      unfold search_statutes. run. rewrite Hk. run. cbn [truthy]. run.
      rewrite Hs. run. rewrite Hok. run. rewrite Hj. run.
      unfold dict_mem, dict_get_default. rewrite Hr. run.
      cbn [py_iter]. run. rewrite (keep_statutes_records _ _ Hrec). run.
      reflexivity.
    + unfold statutes_only. cbv zeta.
      rewrite dict_get_set_other by discriminate. apply dict_get_set_same.
    + unfold statutes_only. cbv zeta. apply dict_get_set_same.
    + intros k H1 H2. unfold statutes_only. cbv zeta.
      rewrite !dict_get_set_other by congruence. reflexivity.
  - intros c Hc Hs.
    unfold search_statutes_request, search_request, statutes_body in Hs.
    unfold search_statutes. run. rewrite Hk. run.
    rewrite Hc, (statute_code_truthy c Hc). run.
    rewrite Hs. run. rewrite Hok. run. rewrite Hj. run. reflexivity.
Qed.

Lemma search_statutes_post_filter_witness :
  key_present (API_KEY env_ok) = true /\
  ok_status sample_response = true /\
  json_body sample_response = inr sample_results /\
  outcome_of (search_statutes env_ok "civil rights" "" None "" "" "" "" 50 "*" false)
  = Return [("count", JInt 1);
            ("results",
             JList [JObj [("collectionCode", JStr "PLAW"); ("title", JStr "An Act")]]);
            ("offsetMark", JStr "*")] /\
  outcome_of (search_statutes env_ok "civil rights" "PLAW" None "" "" "" "" 50 "*" false)
  = Return sample_results.
Proof.
  pose proof (search_statutes_post_filter env_ok "civil rights" None "" "" "" ""
                50 "*" false sample_response sample_results
                eq_refl eq_refl eq_refl) as [F E].
  split; [reflexivity|]. split; [reflexivity|]. split; [reflexivity|].
  split.
  - exact (proj1 (F _ eq_refl eq_refl eq_refl)).
  - exact (E "PLAW" eq_refl eq_refl).
Defined.

(** C4 (as stated) fails.  The reply carries a [results] list whose
    second entry is a string, not a record: the comprehension of lines
    152-156 calls [.get] on it, and the call raises [AttributeError] instead
    of returning the narrowed reply. *)
Lemma search_statutes_stray_entry_raises :
  dict_get "results"
    [("results", JList [JObj [("collectionCode", JStr "PLAW")]; JStr "stray"])]
  = Some (JList [JObj [("collectionCode", JStr "PLAW")]; JStr "stray"]) /\
  (exists msg,
      outcome_of
        (search_statutes
           (env_replying
              [("results", JList [JObj [("collectionCode", JStr "PLAW")]; JStr "stray"])])
           "tax" "" None "" "" "" "" 50 "*" false)
      = Raise (OtherError "AttributeError" msg)) /\
  outcome_of
    (search_statutes
       (env_replying
          [("results", JList [JObj [("collectionCode", JStr "PLAW")]; JStr "stray"])])
       "tax" "" None "" "" "" "" 50 "*" false)
  <> Return
       (statutes_only
          [("results", JList [JObj [("collectionCode", JStr "PLAW")]; JStr "stray"])]
          [JObj [("collectionCode", JStr "PLAW")]; JStr "stray"]).
Proof.
  split; [reflexivity|]. split.
  - eexists. vm_compute. reflexivity.
  - vm_compute. discriminate.
Qed.

(** ** get_packages_by_collection *)

Lemma minus_days_year (now : datetime) :
  year_back_in_range now = true ->
  bind (minus_days now 365) (fun d => ret (strftime_iso d))
  = ret (default_start_stamp now).
Proof.
  unfold year_back_in_range, minus_days, default_start_stamp,
    date_365_days_before. cbv zeta. intros ->.
  destruct (ord2ymd _) as [[y m] d]. now rewrite bind_ret_l.
Qed.

(** C5 (as amended).  With no [start_date] the lower bound in the path is
    the clock reading moved back 365 days and formatted
    [%Y-%m-%dT%H:%M:%SZ], so it carries the clock's own time of day; with a
    [start_date] it is that date followed by [T00:00:00Z].  In both cases
    the path holds the start stamp alone when [end_date] is empty and the
    start stamp followed by [end_date] and [T23:59:59Z] otherwise. *)
Theorem packages_by_collection_path
    (w : env) (c : string) (n : option Z) (dc sd ed : string) (ps : Z)
    (om : string) (ctx : bool) (Hk : key_present (API_KEY w) = true) :
  (year_back_in_range (utc_now w) = true ->
   map request_url
     (requests_of (trace_of (get_packages_by_collection w c n dc "" ed ps om ctx)))
   = [collection_path c (default_start_stamp (utc_now w)) ed]) /\
  (truthy sd = true ->
   map request_url
     (requests_of (trace_of (get_packages_by_collection w c n dc sd ed ps om ctx)))
   = [collection_path c (sd ++ "T00:00:00Z") ed]).
Proof.
  split.
  - intros Hr. unfold get_packages_by_collection, collection_path, end_stamp_part.
    skip_prologue. rewrite Hk. cbn [negb]. skip_prologue.
    cbn [truthy negb]. rewrite (minus_days_year _ Hr), bind_ret_l. cbv zeta.
    rewrite exchange_requests by (try apply quiet_on_error; quiet_tac).
    cbn [map request_url]. destruct (truthy ed); str_norm; reflexivity.
  - intros Hsd. unfold get_packages_by_collection, collection_path, end_stamp_part.
    skip_prologue. rewrite Hk. cbn [negb]. skip_prologue.
    rewrite Hsd. cbn [negb]. rewrite bind_ret_l. cbv zeta.
    rewrite exchange_requests by (try apply quiet_on_error; quiet_tac).
    cbn [map request_url]. destruct (truthy ed); str_norm; reflexivity.
Qed.

Lemma packages_by_collection_path_witness :
  key_present (API_KEY env_ok) = true /\
  year_back_in_range (utc_now env_ok) = true /\
  truthy "2024-01-01" = true /\
  map request_url
    (requests_of (trace_of (get_packages_by_collection env_ok "BILLS" None "" ""
                              "2025-01-31" 50 "*" false)))
  = ["https://api.govinfo.gov/collections/BILLS/2024-06-15T12:34:56Z/2025-01-31T23:59:59Z"] /\
  map request_url
    (requests_of (trace_of (get_packages_by_collection env_ok "BILLS" None ""
                              "2024-01-01" "" 50 "*" false)))
  = ["https://api.govinfo.gov/collections/BILLS/2024-01-01T00:00:00Z"].
Proof.
  split; [reflexivity|]. split; [reflexivity|]. split; [reflexivity|].
  split.
  - exact (proj1 (packages_by_collection_path env_ok "BILLS" None "" ""
                    "2025-01-31" 50 "*" false eq_refl) eq_refl).
  - exact (proj2 (packages_by_collection_path env_ok "BILLS" None "" "2024-01-01"
                    "" 50 "*" false eq_refl) eq_refl).
Defined.

(** C5 (as stated) fails whenever the clock is not at midnight: at
    2025-06-15 12:34:56 UTC the lower bound is [2024-06-15T12:34:56Z], not
    [2024-06-15T00:00:00Z]. *)
Lemma default_start_keeps_time_of_day :
  utc_now env_ok = mkDatetime 2025 6 15 12 34 56 /\
  midnight_start_stamp (utc_now env_ok) = "2024-06-15T00:00:00Z" /\
  map request_url
    (requests_of (trace_of (get_packages_by_collection env_ok "BILLS" None "" ""
                              "" 50 "*" false)))
  = ["https://api.govinfo.gov/collections/BILLS/2024-06-15T12:34:56Z"] /\
  map request_url
    (requests_of (trace_of (get_packages_by_collection env_ok "BILLS" None "" ""
                              "" 50 "*" false)))
  <> [collection_path "BILLS" (midnight_start_stamp (utc_now env_ok)) ""].
Proof.
  split; [reflexivity|]. split; [reflexivity|]. split; [reflexivity|].
  intro E. vm_compute in E. discriminate E.
Qed.

(** ** Base64 round trip *)

Lemma b64val_b64char (i : N) : (i < 64)%N -> b64val (b64char i) = Some i.
Proof.
  intros H. rewrite <- (N2Nat.id i).
  assert (Hk : (N.to_nat i < 64)%nat) by lia.
  generalize dependent (N.to_nat i). clear. intros k Hk.
  do 64 (destruct k as [|k]; [reflexivity|]).
  lia.
Qed.

Lemma b64char_not_pad (i : N) : (i < 64)%N -> Ascii.eqb (b64char i) PAD = false.
Proof.
  intros H. rewrite <- (N2Nat.id i).
  assert (Hk : (N.to_nat i < 64)%nat) by lia.
  generalize dependent (N.to_nat i). clear. intros k Hk.
  do 64 (destruct k as [|k]; [reflexivity|]).
  lia.
Qed.

Lemma byte_of_to_N (b : byte) : byte_of_N (Byte.to_N b) = b.
Proof. unfold byte_of_N. now rewrite Byte.of_to_N. Qed.

Lemma to_N_lt (b : byte) : (Byte.to_N b < 256)%N.
Proof. pose proof (Byte.to_N_bounded b). lia. Qed.

Ltac sextets := zify; Z.to_euclidean_division_equations; lia.

(** One byte: two sextets carry it. *)
Lemma group1 (a : N) :
  (a < 256 ->
   let n := a * 65536 in
   let v1 := n / 262144 in
   let v2 := (n / 4096) mod 64 in
   v1 < 64 /\ v2 < 64 /\ (v1 * 262144 + v2 * 4096) / 65536 = a)%N.
Proof. intros H n v1 v2. subst n v1 v2. repeat split; sextets. Qed.

(** Two bytes: three sextets carry them. *)
Lemma group2 (a b : N) :
  (a < 256 -> b < 256 ->
   let n := a * 65536 + b * 256 in
   let v1 := n / 262144 in
   let v2 := (n / 4096) mod 64 in
   let v3 := (n / 64) mod 64 in
   v1 < 64 /\ v2 < 64 /\ v3 < 64 /\
   v1 * 262144 + v2 * 4096 + v3 * 64 = n /\
   n / 65536 = a /\ (n / 256) mod 256 = b)%N.
Proof. intros Ha Hb n v1 v2 v3. subst n v1 v2 v3. repeat split; sextets. Qed.

(** Three bytes: four sextets carry them. *)
Lemma group3 (a b c : N) :
  (a < 256 -> b < 256 -> c < 256 ->
   let n := a * 65536 + b * 256 + c in
   let v1 := n / 262144 in
   let v2 := (n / 4096) mod 64 in
   let v3 := (n / 64) mod 64 in
   let v4 := n mod 64 in
   v1 < 64 /\ v2 < 64 /\ v3 < 64 /\ v4 < 64 /\
   v1 * 262144 + v2 * 4096 + v3 * 64 + v4 = n /\
   n / 65536 = a /\ (n / 256) mod 256 = b /\ n mod 256 = c)%N.
Proof.
  intros Ha Hb Hc n v1 v2 v3 v4. subst n v1 v2 v3 v4. repeat split; sextets.
Qed.

(** Induction on a byte string in steps of three. *)
Lemma list_ind3 {A} (P : list A -> Prop) :
  P [] -> (forall a, P [a]) -> (forall a b, P [a; b]) ->
  (forall a b c l, P l -> P (a :: b :: c :: l)) ->
  forall l, P l.
Proof.
  intros H0 H1 H2 H3. fix IH 1. intros [|a [|b [|c l]]].
  - exact H0.
  - apply H1.
  - apply H2.
  - apply H3, IH.
Qed.

Lemma b64_roundtrip (bs : list byte) : b64decode (b64encode bs) = Some bs.
Proof.
  induction bs as [|a|a b|a b c l IH] using list_ind3.
  - reflexivity.
  - pose proof (group1 (Byte.to_N a) (to_N_lt a)) as (H1 & H2 & H3).
    cbn [b64encode b64decode].
    rewrite (b64val_b64char _ H1), (b64val_b64char _ H2).
    replace (Ascii.eqb PAD PAD) with true by reflexivity.
    rewrite H3, byte_of_to_N. reflexivity.
  - pose proof (group2 _ _ (to_N_lt a) (to_N_lt b)) as (H1 & H2 & H3 & H4 & H5 & H6).
    cbn [b64encode b64decode].
    rewrite (b64val_b64char _ H1), (b64val_b64char _ H2).
    replace (Ascii.eqb PAD PAD) with true by reflexivity.
    rewrite (b64char_not_pad _ H3), (b64val_b64char _ H3).
    rewrite H4, H5, H6, !byte_of_to_N. reflexivity.
  - pose proof (group3 _ _ _ (to_N_lt a) (to_N_lt b) (to_N_lt c))
      as (H1 & H2 & H3 & H4 & H5 & H6 & H7 & H8).
    cbn [b64encode b64decode].
    rewrite (b64val_b64char _ H1), (b64val_b64char _ H2).
    rewrite (b64char_not_pad _ H4), (b64val_b64char _ H3), (b64val_b64char _ H4).
    fold b64encode. rewrite IH.
    rewrite H5, H6, H7, H8, !byte_of_to_N. reflexivity.
Qed.

(** ** get_package_content *)

(** What a configured call returns or raises, by the reply of the
    service. *)
Lemma content_outcome w p ct ctx :
  key_present (API_KEY w) = true ->
  outcome_of (get_package_content w p ct ctx)
  = match send w (content_request w p (content_endpoint ct)) with
    | Replied resp =>
        if ok_status resp then
          Return (if is_textual ct then JStr (text resp)
                  else base64_wrapper ct (content resp))
        else
          Raise (HTTPStatusError
                   (status_error_str w (content_request w p (content_endpoint ct)) resp)
                   resp)
    | TransportFailure kind msg => Raise (OtherError kind msg)
    end.
Proof.
  intros Hk. unfold content_request, content_endpoint, is_textual, base64_wrapper.
  unfold get_package_content. run. rewrite Hk. run.
  destruct (send w _) as [resp|kind msg]; run; [|reflexivity].
  destruct (ok_status resp); run; [|reflexivity].
  destruct (mem_str _ _); run; reflexivity.
Qed.

Lemma content_outcome_unset w p ct ctx :
  key_present (API_KEY w) = false ->
  outcome_of (get_package_content w p ct ctx) = Raise (ValueError KEY_MISSING).
Proof. intros Hk. unfold get_package_content. run. rewrite Hk. run. reflexivity. Qed.

Lemma content_requests w p ct ctx :
  requests_of (trace_of (get_package_content w p ct ctx))
  = if key_present (API_KEY w) then [content_request w p (content_endpoint ct)]
    else [].
Proof.
  unfold get_package_content, content_request, content_endpoint.
  destruct (key_present (API_KEY w)) eqn:Hk.
  - skip_prologue. cbn [negb]. skip_prologue. cbv zeta.
    apply exchange_requests; quiet_tac.
  - run. reflexivity.
Qed.

Lemma lower_ascii_idem (c : ascii) : lower_ascii (lower_ascii c) = lower_ascii c.
Proof. destruct c as [[] [] [] [] [] [] [] []]; reflexivity. Qed.

Lemma lower_idem (s : string) : lower (lower s) = lower s.
Proof.
  induction s as [|c s IH]; cbn; [reflexivity|].
  now rewrite lower_ascii_idem, IH.
Qed.

Lemma prefix_app (p b : string) : String.prefix p (p ++ b) = true.
Proof.
  induction p as [|c p IH]; cbn; [now destruct b|].
  now destruct (ascii_dec c c).
Qed.

Lemma occurs_in_unfold (p s : string) :
  occurs_in p s
  = String.prefix p s
    || match s with EmptyString => false | String _ r => occurs_in p r end.
Proof. destruct s; reflexivity. Qed.

Lemma occurs_in_here (p b : string) : occurs_in p (p ++ b) = true.
Proof. now rewrite occurs_in_unfold, prefix_app. Qed.

Lemma occurs_in_skip (p a s : string) :
  occurs_in p s = true -> occurs_in p (a ++ s) = true.
Proof.
  intros H. induction a as [|c a IH]; cbn [append]; [exact H|].
  rewrite occurs_in_unfold, IH. apply orb_true_r.
Qed.

Lemma unknown_type_routing (ct : string) :
  mem_str (lower ct) ["html"; "xml"; "pdf"; "text"] = false ->
  content_endpoint ct = "htm" /\ is_textual ct = false.
Proof.
  unfold content_endpoint, is_textual, assoc_default, content_endpoints, mem_str.
  cbn [existsb assoc]. generalize (lower ct) as l. intros l H.
  repeat (apply orb_false_iff in H as [? H]).
  repeat match goal with E : String.eqb _ _ = false |- _ => rewrite E; clear E end.
  split; reflexivity.
Qed.

(** C6.  A successful [get_package_content(content_type="pdf")] returns a
    mapping with exactly the keys [content_type] and [base64_content], and
    decoding [base64_content] gives back the bytes of the response body. *)
Theorem pdf_content_roundtrip
    (w : env) (p : string) (ctx : bool) (resp : response)
    (Hk : key_present (API_KEY w) = true)
    (Hs : send w (content_request w p "pdf") = Replied resp)
    (Hok : ok_status resp = true) :
  exists b64,
    outcome_of (get_package_content w p "pdf" ctx)
    = Return (JObj [("content_type", JStr "pdf"); ("base64_content", JStr b64)])
    /\ dict_keys [("content_type", JStr "pdf"); ("base64_content", JStr b64)]
       = ["content_type"; "base64_content"]
    /\ b64 = b64encode (content resp)
    /\ b64decode b64 = Some (content resp).
Proof.
  exists (b64encode (content resp)). split; [|split; [|split]].
  - rewrite (content_outcome w p "pdf" ctx Hk).
    change (content_endpoint "pdf") with "pdf". rewrite Hs, Hok. reflexivity.
  - reflexivity.
  - reflexivity.
  - apply b64_roundtrip.
Qed.

Lemma pdf_content_roundtrip_witness :
  key_present (API_KEY env_ok) = true /\
  send env_ok (content_request env_ok "BILLS-116hr1-ih" "pdf") = Replied sample_response /\
  ok_status sample_response = true /\
  exists b64,
    outcome_of (get_package_content env_ok "BILLS-116hr1-ih" "pdf" false)
    = Return (JObj [("content_type", JStr "pdf"); ("base64_content", JStr b64)])
    /\ dict_keys [("content_type", JStr "pdf"); ("base64_content", JStr b64)]
       = ["content_type"; "base64_content"]
    /\ b64 = b64encode (content sample_response)
    /\ b64decode b64 = Some [x25; x50; x44; x46; x2d].
Proof.
  split; [reflexivity|]. split; [reflexivity|]. split; [reflexivity|].
  exact (pdf_content_roundtrip env_ok "BILLS-116hr1-ih" false sample_response
           eq_refl eq_refl eq_refl).
Defined.

(** The whole trace of a configured call that the service answers with a
    status outside 200..299: the opening message, the request, and one
    message at error level, both messages to the context when there is one
    and to the server's logger otherwise. *)
Lemma content_trace_on_status w p ct ctx resp :
  key_present (API_KEY w) = true ->
  send w (content_request w p (content_endpoint ct)) = Replied resp ->
  ok_status resp = false ->
  trace_of (get_package_content w p ct ctx)
  = [Log (if ctx then ToContext else ToLogger) INFO
       ("Fetching " ++ ct ++ " content for package: " ++ p);
     Http (content_request w p (content_endpoint ct));
     Log (if ctx then ToContext else ToLogger) ERROR
       (let e := status_error_str w (content_request w p (content_endpoint ct)) resp in
        if status_code resp =? 400 then format_unavailable_msg ct p e
        else "HTTP error: " ++ e)].
Proof.
  intros Hk Hs Hok. unfold content_request, content_endpoint in *.
  unfold get_package_content, format_unavailable_msg. run. rewrite Hk. run.
  rewrite Hs. run. rewrite Hok. run. cbn [exn_str].
  destruct ctx; reflexivity.
Qed.

(** C7 (as amended).  When the service answers a content request with a
    status outside 200..299, the exception the caller receives is the
    [HTTPStatusError] of [raise_for_status], unchanged: its message is the
    one httpx gave it, whatever the status.  The guidance is in the one
    message the tool reports at error level before re-raising, through
    [ctx.error] when the call has a context and through the server's logger
    otherwise: on status 400 that message names the content type and the
    package and says to use [get_package_summary()] to check the formats in
    the [download] field, on any other status it is the generic
    [HTTP error: ...] message.  Nothing else is logged or sent besides the
    opening message and the request. *)
Theorem content_error_reported_then_reraised
    (w : env) (p ct : string) (ctx : bool) (resp : response)
    (Hk : key_present (API_KEY w) = true)
    (Hs : send w (content_request w p (content_endpoint ct)) = Replied resp)
    (Hbad : ok_status resp = false) :
  let req := content_request w p (content_endpoint ct) in
  let e := status_error_str w req resp in
  let sink := if ctx then ToContext else ToLogger in
  outcome_of (get_package_content w p ct ctx) = Raise (HTTPStatusError e resp) /\
  raised_message (get_package_content w p ct ctx) = Some e /\
  (status_code resp = 400 ->
   trace_of (get_package_content w p ct ctx)
   = [Log sink INFO ("Fetching " ++ ct ++ " content for package: " ++ p);
      Http req;
      Log sink ERROR (format_unavailable_msg ct p e)]
   /\ occurs_in
        "Use get_package_summary() to check available formats in the 'download' field."
        (format_unavailable_msg ct p e) = true) /\
  (status_code resp <> 400 ->
   trace_of (get_package_content w p ct ctx)
   = [Log sink INFO ("Fetching " ++ ct ++ " content for package: " ++ p);
      Http req;
      Log sink ERROR ("HTTP error: " ++ e)]).
Proof.
  intros req e sink.
  assert (Ho : outcome_of (get_package_content w p ct ctx)
               = Raise (HTTPStatusError e resp)).
  { subst req e. rewrite (content_outcome w p ct ctx Hk), Hs, Hbad. reflexivity. }
  split; [exact Ho|]. split; [|split].
  - unfold raised_message. rewrite Ho. reflexivity.
  - intros H400. rewrite (content_trace_on_status w p ct ctx resp Hk Hs Hbad).
    rewrite H400. split; [reflexivity|].
    unfold format_unavailable_msg.
    do 5 apply occurs_in_skip.
    exact (occurs_in_here
             "Use get_package_summary() to check available formats in the 'download' field."
             (" " ++ "HTTP error: " ++ e)).
  - intros Hne. rewrite (content_trace_on_status w p ct ctx resp Hk Hs Hbad).
    cbv zeta. apply Z.eqb_neq in Hne. rewrite Hne. reflexivity.
Qed.

Lemma content_error_reported_then_reraised_witness :
  key_present (API_KEY (env_refusing 400)) = true /\
  ok_status (refusal 400) = false /\
  status_code (refusal 400) = 400 /\
  status_code (refusal 404) <> 400 /\
  trace_of (get_package_content (env_refusing 400) "CFR-2023-title12-vol1" "text" true)
  = [Log ToContext INFO "Fetching text content for package: CFR-2023-title12-vol1";
     Http (content_request (env_refusing 400) "CFR-2023-title12-vol1" "txt");
     Log ToContext ERROR
       "Content type 'text' is not available for package 'CFR-2023-title12-vol1'. Use get_package_summary() to check available formats in the 'download' field. HTTP error: Client error '400' for url 'https://api.govinfo.gov/packages/CFR-2023-title12-vol1/txt'"] /\
  trace_of (get_package_content (env_refusing 404) "CFR-2023-title12-vol1" "text" false)
  = [Log ToLogger INFO "Fetching text content for package: CFR-2023-title12-vol1";
     Http (content_request (env_refusing 404) "CFR-2023-title12-vol1" "txt");
     Log ToLogger ERROR
       "HTTP error: Client error '404' for url 'https://api.govinfo.gov/packages/CFR-2023-title12-vol1/txt'"] /\
  raised_message
    (get_package_content (env_refusing 404) "CFR-2023-title12-vol1" "text" false)
  = Some "Client error '404' for url 'https://api.govinfo.gov/packages/CFR-2023-title12-vol1/txt'".
Proof.
  split; [reflexivity|]. split; [reflexivity|]. split; [reflexivity|].
  split; [discriminate|]. split; [|split].
  - exact (proj1 (proj1 (proj2 (proj2 (content_error_reported_then_reraised
             (env_refusing 400) "CFR-2023-title12-vol1" "text" true (refusal 400)
             eq_refl eq_refl eq_refl))) eq_refl)).
  - refine (proj2 (proj2 (proj2 (content_error_reported_then_reraised
             (env_refusing 404) "CFR-2023-title12-vol1" "text" false (refusal 404)
             eq_refl eq_refl eq_refl))) _).
    discriminate.
  - exact (proj1 (proj2 (content_error_reported_then_reraised
             (env_refusing 404) "CFR-2023-title12-vol1" "text" false (refusal 404)
             eq_refl eq_refl eq_refl))).
Defined.

(** C7 (as stated) fails.  The service answers 400 to a call made
    without a context: the caller receives the [HTTPStatusError] with httpx's
    own message, which says nothing of formats, of the summary or of its
    [download] field; the message that does went to the server's logger
    only. *)
Lemma content_400_caller_gets_plain_error :
  status_code (refusal 400) = 400 /\
  raised_message
    (get_package_content (env_refusing 400) "CFR-2023-title12-vol1" "text" false)
  = Some "Client error '400' for url 'https://api.govinfo.gov/packages/CFR-2023-title12-vol1/txt'" /\
  occurs_in "download"
    "Client error '400' for url 'https://api.govinfo.gov/packages/CFR-2023-title12-vol1/txt'"
  = false /\
  occurs_in "get_package_summary"
    "Client error '400' for url 'https://api.govinfo.gov/packages/CFR-2023-title12-vol1/txt'"
  = false /\
  occurs_in "format"
    "Client error '400' for url 'https://api.govinfo.gov/packages/CFR-2023-title12-vol1/txt'"
  = false /\
  trace_of (get_package_content (env_refusing 400) "CFR-2023-title12-vol1" "text" false)
  = [Log ToLogger INFO "Fetching text content for package: CFR-2023-title12-vol1";
     Http (content_request (env_refusing 400) "CFR-2023-title12-vol1" "txt");
     Log ToLogger ERROR
       "Content type 'text' is not available for package 'CFR-2023-title12-vol1'. Use get_package_summary() to check available formats in the 'download' field. HTTP error: Client error '400' for url 'https://api.govinfo.gov/packages/CFR-2023-title12-vol1/txt'"].
Proof. repeat split; vm_compute; reflexivity. Qed.

(** C9.  For a content type whose lowercase form is none of [html], [xml],
    [pdf], [text], [get_package_content] requests the [htm] endpoint and, on
    success, returns the base64 wrapper echoing the content type as given,
    not the decoded text. *)
Theorem unknown_content_type_fallback
    (w : env) (p ct : string) (ctx : bool)
    (Hk : key_present (API_KEY w) = true)
    (Hu : mem_str (lower ct) ["html"; "xml"; "pdf"; "text"] = false) :
  requests_of (trace_of (get_package_content w p ct ctx))
  = [content_request w p "htm"] /\
  (forall resp,
      send w (content_request w p "htm") = Replied resp ->
      ok_status resp = true ->
      outcome_of (get_package_content w p ct ctx)
      = Return (JObj [("content_type", JStr ct);
                      ("base64_content", JStr (b64encode (content resp)))])).
Proof.
  destruct (unknown_type_routing ct Hu) as [He Ht]. split.
  - now rewrite content_requests, Hk, He.
  - intros resp Hs Hok.
    now rewrite (content_outcome w p ct ctx Hk), He, Hs, Hok, Ht.
Qed.

Lemma unknown_content_type_fallback_witness :
  key_present (API_KEY env_ok) = true /\
  mem_str (lower "foo") ["html"; "xml"; "pdf"; "text"] = false /\
  requests_of (trace_of (get_package_content env_ok "BILLS-116hr1-ih" "foo" false))
  = [GET "https://api.govinfo.gov/packages/BILLS-116hr1-ih/htm" []
         [("X-Api-Key", "DEMO_KEY")] 60] /\
  outcome_of (get_package_content env_ok "BILLS-116hr1-ih" "foo" false)
  = Return (JObj [("content_type", JStr "foo"); ("base64_content", JStr "JVBERi0=")]).
Proof.
  pose proof (unknown_content_type_fallback env_ok "BILLS-116hr1-ih" "foo" false
                eq_refl eq_refl) as [R O].
  split; [reflexivity|]. split; [reflexivity|]. split.
  - exact R.
  - exact (O sample_response eq_refl eq_refl).
Defined.

(** C10.  Routing in [get_package_content] sees only the lowercase form of
    the content type: the endpoint, the choice between the textual and the
    binary branch and the request issued are those of the lowercased input;
    in the textual case the outcome is the same as for the lowercased
    input, and in the binary case the two wrappers carry the same base64
    body and differ only in the echoed [content_type]. *)
Theorem content_type_case_insensitive
    (w : env) (p ct : string) (ctx : bool) :
  content_endpoint ct = content_endpoint (lower ct) /\
  is_textual ct = is_textual (lower ct) /\
  requests_of (trace_of (get_package_content w p ct ctx))
  = requests_of (trace_of (get_package_content w p (lower ct) ctx)) /\
  (is_textual ct = true ->
   outcome_of (get_package_content w p ct ctx)
   = outcome_of (get_package_content w p (lower ct) ctx)) /\
  (forall resp,
      key_present (API_KEY w) = true ->
      send w (content_request w p (content_endpoint ct)) = Replied resp ->
      ok_status resp = true ->
      is_textual ct = false ->
      outcome_of (get_package_content w p ct ctx)
      = Return (base64_wrapper ct (content resp)) /\
      outcome_of (get_package_content w p (lower ct) ctx)
      = Return (base64_wrapper (lower ct) (content resp))).
Proof.
  assert (He : content_endpoint ct = content_endpoint (lower ct)).
  { unfold content_endpoint. now rewrite lower_idem. }
  assert (Ht : is_textual ct = is_textual (lower ct)).
  { unfold is_textual. now rewrite lower_idem. }
  split; [exact He|]. split; [exact Ht|]. split; [|split].
  - now rewrite !content_requests, He.
  - intros Htext. destruct (key_present (API_KEY w)) eqn:Hk.
    + rewrite !content_outcome by exact Hk. rewrite <- He, <- Ht, Htext.
      reflexivity.
    + now rewrite !content_outcome_unset by exact Hk.
  - intros resp Hk Hs Hok Hbin.
    rewrite !content_outcome by exact Hk.
    rewrite <- He, <- Ht, Hs, Hok, Hbin. split; reflexivity.
Qed.

Lemma content_type_case_insensitive_witness :
  is_textual "HTML" = true /\
  is_textual "Pdf" = false /\
  outcome_of (get_package_content env_ok "BILLS-116hr1-ih" "HTML" false)
  = outcome_of (get_package_content env_ok "BILLS-116hr1-ih" "html" false) /\
  outcome_of (get_package_content env_ok "BILLS-116hr1-ih" "Pdf" false)
  = Return (JObj [("content_type", JStr "Pdf"); ("base64_content", JStr "JVBERi0=")]) /\
  outcome_of (get_package_content env_ok "BILLS-116hr1-ih" "pdf" false)
  = Return (JObj [("content_type", JStr "pdf"); ("base64_content", JStr "JVBERi0=")]).
Proof.
  pose proof (content_type_case_insensitive env_ok "BILLS-116hr1-ih" "HTML" false)
    as (_ & _ & _ & T & _).
  pose proof (content_type_case_insensitive env_ok "BILLS-116hr1-ih" "Pdf" false)
    as (_ & _ & _ & _ & B).
  split; [reflexivity|]. split; [reflexivity|]. split; [exact (T eq_refl)|].
  exact (B sample_response eq_refl eq_refl eq_refl eq_refl).
Defined.

(** * Further properties of the tools *)

(** ** Requests per call *)

Lemma trace_as_json (m : M dict) : trace_of (as_json m) = trace_of m.
Proof. reflexivity. Qed.

Lemma outcome_as_json (m : M dict) :
  outcome_of (as_json m)
  = match outcome_of m with
    | Return d => Return (JObj d)
    | Raise e => Raise e
    end.
Proof. reflexivity. Qed.

Lemma minus_days_out (now : datetime) :
  year_back_in_range now = false ->
  minus_days now 365 = raise (OtherError "OverflowError" "date value out of range").
Proof. unfold year_back_in_range, minus_days. cbv zeta. now intros ->. Qed.

Ltac authorised_tac :=
  unfold authorised; cbn; rewrite String.eqb_refl; reflexivity.

(** The configured path of a tool: past the two prologue steps, one
    exchange under a quiet handler. *)
Ltac sends_one :=
  cbv zeta; eexists; split;
  [ apply exchange_requests;
    try apply quiet_on_error; try apply quiet_on_statute_error;
    quiet_tac; try apply quiet_keep_statutes
  | authorised_tac ].

Ltac key_cases w :=
  unfold one_request_if;
  destruct (key_present (API_KEY w)) eqn:Hk; cbn [andb];
  [ skip_prologue; cbn [negb]; skip_prologue | run; reflexivity ].

Lemma get_collections_requests w ps om ctx :
  one_request_if w (key_present (API_KEY w)) (get_collections w ps om ctx).
Proof. unfold get_collections. key_cases w. sends_one. Qed.

Lemma get_package_summary_requests w p ctx :
  one_request_if w (key_present (API_KEY w)) (get_package_summary w p ctx).
Proof. unfold get_package_summary. key_cases w. sends_one. Qed.

Lemma get_package_content_requests w p ct ctx :
  one_request_if w (key_present (API_KEY w)) (get_package_content w p ct ctx).
Proof. unfold get_package_content. key_cases w. sends_one. Qed.

Lemma get_published_packages_requests w d c dc ps om ctx :
  one_request_if w (key_present (API_KEY w))
    (get_published_packages w d c dc ps om ctx).
Proof. unfold get_published_packages. key_cases w. sends_one. Qed.

Lemma get_published_range_requests w sd ed c dc ms ps om ctx :
  one_request_if w (key_present (API_KEY w))
    (get_published_range w sd ed c dc ms ps om ctx).
Proof. unfold get_published_range. key_cases w. sends_one. Qed.

Lemma get_granule_related_requests w p g ctx :
  one_request_if w (key_present (API_KEY w)) (get_granule_related w p g ctx).
Proof. unfold get_granule_related. key_cases w. sends_one. Qed.

Lemma search_packages_requests w q c n dc t sd ed ps om ctx :
  one_request_if w (key_present (API_KEY w))
    (search_packages w q c n dc t sd ed ps om ctx).
Proof. unfold search_packages. key_cases w. sends_one. Qed.

Lemma advanced_search_requests w q cs ns dcs cms dis die lms lme pc gc sb so ps om ctx :
  one_request_if w (key_present (API_KEY w))
    (advanced_search w q cs ns dcs cms dis die lms lme pc gc sb so ps om ctx).
Proof. unfold advanced_search. key_cases w. sends_one. Qed.

Lemma get_uscode_title_requests w t e c s ps om ctx :
  one_request_if w (key_present (API_KEY w)) (get_uscode_title w t e c s ps om ctx).
Proof. unfold get_uscode_title. key_cases w. sends_one. Qed.

Lemma get_statutes_at_large_requests w v p n ps om ctx :
  one_request_if w (key_present (API_KEY w))
    (get_statutes_at_large w v p n ps om ctx).
Proof. unfold get_statutes_at_large. key_cases w. sends_one. Qed.

Lemma get_related_packages_requests w p ctx :
  one_request_if w (key_present (API_KEY w)) (get_related_packages w p ctx).
Proof.
  unfold get_related_packages, one_request_if.
  destruct (key_present (API_KEY w)) eqn:Hk.
  - skip_prologue. cbn [negb]. sends_one.
  - run. reflexivity.
Qed.

Lemma get_packages_by_collection_requests w c n dc sd ed ps om ctx :
  one_request_if w
    (key_present (API_KEY w) && (truthy sd || year_back_in_range (utc_now w)))
    (get_packages_by_collection w c n dc sd ed ps om ctx).
Proof.
  unfold get_packages_by_collection. key_cases w.
  destruct (truthy sd); cbn [negb orb].
  - rewrite bind_ret_l. destruct (truthy ed); sends_one.
  - destruct (year_back_in_range (utc_now w)) eqn:Hr.
    + rewrite (minus_days_year _ Hr), bind_ret_l. destruct (truthy ed); sends_one.
    + rewrite (minus_days_out _ Hr). run. reflexivity.
Qed.

Lemma search_statutes_requests w q c n t s sd ed ps om ctx :
  one_request_if w
    (key_present (API_KEY w) && (negb (truthy c) || mem_str c statute_codes))
    (search_statutes w q c n t s sd ed ps om ctx).
Proof.
  unfold search_statutes. key_cases w.
  destruct (truthy c), (mem_str c statute_codes); cbn [negb andb orb];
    try (skip_prologue; sends_one).
  run. reflexivity.
Qed.

Lemma get_public_laws_by_congress_requests w n lt ln sd ed ps om ctx :
  one_request_if w
    (key_present (API_KEY w)
     && (negb (truthy lt)
         || match law_type_clause lt with Some _ => true | None => false end))
    (get_public_laws_by_congress w n lt ln sd ed ps om ctx).
Proof.
  unfold get_public_laws_by_congress. key_cases w. cbv zeta.
  destruct (truthy lt), (law_type_clause lt); cbn [negb orb];
    try (rewrite bind_ret_l; sends_one).
  run. reflexivity.
Qed.

Lemma get_statute_content_requests w p ct g ctx :
  one_request_if w
    (key_present (API_KEY w) && mem_str ct ["summary"; "xml"; "pdf"; "text"])
    (get_statute_content w p ct g ctx).
Proof.
  unfold get_statute_content. key_cases w. cbv zeta.
  destruct (mem_str ct _); cbn [negb].
  - skip_prologue. destruct (truthy g); sends_one.
    all: try apply quiet_py_contains; try apply quiet_py_index.
  - run. reflexivity.
Qed.

Lemma invoke_requests w c ctx :
  one_request_if w (key_present (API_KEY w) && call_valid w c) (invoke w c ctx).
Proof.
  destruct c; cbn [invoke call_valid]; unfold one_request_if;
    rewrite ?trace_as_json, ?andb_true_r.
  - apply get_collections_requests.
  - apply get_packages_by_collection_requests.
  - apply get_package_summary_requests.
  - apply get_package_content_requests.
  - apply get_published_packages_requests.
  - apply get_published_range_requests.
  - apply get_related_packages_requests.
  - apply get_granule_related_requests.
  - apply search_packages_requests.
  - apply advanced_search_requests.
  - apply search_statutes_requests.
  - apply get_uscode_title_requests.
  - apply get_public_laws_by_congress_requests.
  - apply get_statutes_at_large_requests.
  - apply get_statute_content_requests.
Qed.

(** X1.  A tool call issues exactly one HTTP request when the key is set
    and the tool's own argument checks pass, and none otherwise; the request
    it issues goes to [https://api.govinfo.gov/] and carries the configured
    key in [X-Api-Key]. *)
Theorem one_request_per_call (w : env) (c : tool_call) (ctx : bool) :
  (key_present (API_KEY w) && call_valid w c = true ->
   exists r, requests_of (trace_of (invoke w c ctx)) = [r]
             /\ authorised w r = true) /\
  (key_present (API_KEY w) && call_valid w c = false ->
   requests_of (trace_of (invoke w c ctx)) = []).
Proof.
  pose proof (invoke_requests w c ctx) as H. unfold one_request_if in H.
  split; intros E; rewrite E in H; exact H.
Qed.

Lemma one_request_per_call_witness :
  key_present (API_KEY env_ok) && call_valid env_ok (GetStatuteContent "PLAW-117publ58" "pdf" "") = true /\
  key_present (API_KEY env_ok) && call_valid env_ok (GetStatuteContent "PLAW-117publ58" "html" "") = false /\
  (exists r,
      requests_of (trace_of (invoke env_ok (GetStatuteContent "PLAW-117publ58" "pdf" "") false))
      = [r] /\ authorised env_ok r = true) /\
  requests_of (trace_of (invoke env_ok (GetStatuteContent "PLAW-117publ58" "html" "") false))
  = [].
Proof.
  split; [reflexivity|]. split; [reflexivity|]. split.
  - exact (proj1 (one_request_per_call env_ok
                    (GetStatuteContent "PLAW-117publ58" "pdf" "") false) eq_refl).
  - exact (proj2 (one_request_per_call env_ok
                    (GetStatuteContent "PLAW-117publ58" "html" "") false) eq_refl).
Defined.

(** ** Failures of the exchange *)

(** Symbolic execution by unfolding the combinators of the monad, leaving
    strings and lists as they are. *)
Ltac exec :=
  cbv [bind ret raise emit say call_log try_except http raise_for_status
       response_json on_error on_statute_error trace_of outcome_of as_json
       fst snd negb];
  cbv beta iota zeta.

Section Refused.

Variable w : env.
Variable resp : response.
Hypothesis Hk : key_present (API_KEY w) = true.
Hypothesis Hs : forall r, send w r = Replied resp.
Hypothesis Hbad : ok_status resp = false.

Ltac refused :=
  unfold refused_run; rewrite ?Hk; exec; rewrite ?Hs; cbv beta iota zeta;
  fold (ok_status resp); rewrite ?Hbad; cbv beta iota zeta;
  eexists; split; [|split]; reflexivity.

Lemma get_collections_refused ps om ctx :
  refused_run w resp (get_collections w ps om ctx).
Proof. unfold get_collections. refused. Qed.

Lemma get_package_summary_refused p ctx :
  refused_run w resp (get_package_summary w p ctx).
Proof. unfold get_package_summary. refused. Qed.

Lemma get_package_content_refused p ct ctx :
  refused_run w resp (get_package_content w p ct ctx).
Proof. unfold get_package_content. refused. Qed.

Lemma get_published_packages_refused d c dc ps om ctx :
  refused_run w resp (get_published_packages w d c dc ps om ctx).
Proof. unfold get_published_packages. refused. Qed.

Lemma get_published_range_refused sd ed c dc ms ps om ctx :
  refused_run w resp (get_published_range w sd ed c dc ms ps om ctx).
Proof. unfold get_published_range. refused. Qed.

Lemma get_related_packages_refused p ctx :
  refused_run w resp (get_related_packages w p ctx).
Proof. unfold get_related_packages. refused. Qed.

Lemma get_granule_related_refused p g ctx :
  refused_run w resp (get_granule_related w p g ctx).
Proof. unfold get_granule_related. refused. Qed.

Lemma search_packages_refused q c n dc t sd ed ps om ctx :
  refused_run w resp (search_packages w q c n dc t sd ed ps om ctx).
Proof. unfold search_packages. refused. Qed.

Lemma advanced_search_refused q cs ns dcs cms dis die lms lme pc gc sb so ps om ctx :
  refused_run w resp
    (advanced_search w q cs ns dcs cms dis die lms lme pc gc sb so ps om ctx).
Proof. unfold advanced_search. refused. Qed.

Lemma get_uscode_title_refused t e c s ps om ctx :
  refused_run w resp (get_uscode_title w t e c s ps om ctx).
Proof. unfold get_uscode_title. refused. Qed.

Lemma get_statutes_at_large_refused v p n ps om ctx :
  refused_run w resp (get_statutes_at_large w v p n ps om ctx).
Proof. unfold get_statutes_at_large. refused. Qed.

Lemma get_packages_by_collection_refused c n dc sd ed ps om ctx :
  truthy sd || year_back_in_range (utc_now w) = true ->
  refused_run w resp (get_packages_by_collection w c n dc sd ed ps om ctx).
Proof.
  intros Hv. unfold get_packages_by_collection.
  destruct (truthy sd); cbn [negb orb] in *.
  - refused.
  - rewrite (minus_days_year _ Hv), bind_ret_l. refused.
Qed.

Lemma search_statutes_refused q c n t s sd ed ps om ctx :
  negb (truthy c) || mem_str c statute_codes = true ->
  refused_run w resp (search_statutes w q c n t s sd ed ps om ctx).
Proof.
  intros Hv. unfold search_statutes.
  destruct (truthy c), (mem_str c statute_codes); try discriminate Hv;
    cbn [negb andb]; refused.
Qed.

Lemma get_public_laws_by_congress_refused n lt ln sd ed ps om ctx :
  negb (truthy lt)
  || match law_type_clause lt with Some _ => true | None => false end = true ->
  refused_run w resp (get_public_laws_by_congress w n lt ln sd ed ps om ctx).
Proof.
  intros Hv. unfold get_public_laws_by_congress. cbv zeta.
  destruct (truthy lt), (law_type_clause lt); try discriminate Hv;
    rewrite bind_ret_l; refused.
Qed.

Lemma get_statute_content_refused p ct g ctx :
  mem_str ct ["summary"; "xml"; "pdf"; "text"] = true ->
  refused_run w resp (get_statute_content w p ct g ctx).
Proof.
  intros Hv. unfold get_statute_content. cbv zeta. rewrite Hv. cbn [negb]. refused.
Qed.

Lemma invoke_refused c ctx :
  call_valid w c = true -> refused_run w resp (invoke w c ctx).
Proof.
  assert (lift : forall m : M dict, refused_run w resp m ->
                                    refused_run w resp (as_json m)).
  { intros m (r & H1 & H2 & H3). exists r.
    rewrite trace_as_json, outcome_as_json, H2. auto. }
  destruct c; cbn [invoke call_valid]; intros Hv; try apply lift.
  - apply get_collections_refused.
  - now apply get_packages_by_collection_refused.
  - apply get_package_summary_refused.
  - apply get_package_content_refused.
  - apply get_published_packages_refused.
  - apply get_published_range_refused.
  - apply get_related_packages_refused.
  - apply get_granule_related_refused.
  - apply search_packages_refused.
  - apply advanced_search_refused.
  - now apply search_statutes_refused.
  - apply get_uscode_title_refused.
  - now apply get_public_laws_by_congress_refused.
  - apply get_statutes_at_large_refused.
  - now apply get_statute_content_refused.
Qed.

End Refused.

(** X2.  When the service answers a configured, well-formed call with a
    status outside 200..299, the tool re-raises the [HTTPStatusError] built
    for that very response, after exactly one request and exactly one report
    at error level: no retry, no fallback value. *)
Theorem http_errors_propagate
    (w : env) (resp : response) (c : tool_call) (ctx : bool)
    (Hk : key_present (API_KEY w) = true)
    (Hs : forall r, send w r = Replied resp)
    (Hbad : ok_status resp = false)
    (Hv : call_valid w c = true) :
  exists r,
    requests_of (trace_of (invoke w c ctx)) = [r]
    /\ outcome_of (invoke w c ctx)
       = Raise (HTTPStatusError (status_error_str w r resp) resp)
    /\ List.length (errors_of (trace_of (invoke w c ctx))) = 1%nat.
Proof. exact (invoke_refused w resp Hk Hs Hbad c ctx Hv). Qed.

Lemma http_errors_propagate_witness :
  key_present (API_KEY (env_refusing 503)) = true /\
  ok_status (refusal 503) = false /\
  call_valid (env_refusing 503) (GetUscodeTitle "42" "" "" "" 50 "*") = true /\
  exists r,
    requests_of (trace_of (invoke (env_refusing 503)
                             (GetUscodeTitle "42" "" "" "" 50 "*") true)) = [r]
    /\ outcome_of (invoke (env_refusing 503) (GetUscodeTitle "42" "" "" "" 50 "*") true)
       = Raise (HTTPStatusError (status_error_str (env_refusing 503) r (refusal 503))
                  (refusal 503))
    /\ List.length (errors_of (trace_of (invoke (env_refusing 503)
                                           (GetUscodeTitle "42" "" "" "" 50 "*") true)))
       = 1%nat.
Proof.
  split; [reflexivity|]. split; [reflexivity|]. split; [reflexivity|].
  exact (http_errors_propagate (env_refusing 503) (refusal 503)
           (GetUscodeTitle "42" "" "" "" 50 "*") true
           eq_refl (fun _ => eq_refl) eq_refl eq_refl).
Defined.

Section Dropped.

Variable w : env.
Variables kind msg : string.
Hypothesis Hk : key_present (API_KEY w) = true.
Hypothesis Hs : forall r, send w r = TransportFailure kind msg.

Ltac dropped :=
  unfold dropped_run; rewrite ?Hk; exec; rewrite ?Hs; cbv beta iota zeta;
  split; [|split]; reflexivity.

Lemma get_collections_dropped ps om ctx :
  dropped_run kind msg (get_collections w ps om ctx).
Proof. unfold get_collections. dropped. Qed.

Lemma get_package_summary_dropped p ctx :
  dropped_run kind msg (get_package_summary w p ctx).
Proof. unfold get_package_summary. dropped. Qed.

Lemma get_package_content_dropped p ct ctx :
  dropped_run kind msg (get_package_content w p ct ctx).
Proof. unfold get_package_content. dropped. Qed.

Lemma get_published_packages_dropped d c dc ps om ctx :
  dropped_run kind msg (get_published_packages w d c dc ps om ctx).
Proof. unfold get_published_packages. dropped. Qed.

Lemma get_published_range_dropped sd ed c dc ms ps om ctx :
  dropped_run kind msg (get_published_range w sd ed c dc ms ps om ctx).
Proof. unfold get_published_range. dropped. Qed.

Lemma get_related_packages_dropped p ctx :
  dropped_run kind msg (get_related_packages w p ctx).
Proof. unfold get_related_packages. dropped. Qed.

Lemma get_granule_related_dropped p g ctx :
  dropped_run kind msg (get_granule_related w p g ctx).
Proof. unfold get_granule_related. dropped. Qed.

Lemma search_packages_dropped q c n dc t sd ed ps om ctx :
  dropped_run kind msg (search_packages w q c n dc t sd ed ps om ctx).
Proof. unfold search_packages. dropped. Qed.

Lemma advanced_search_dropped q cs ns dcs cms dis die lms lme pc gc sb so ps om ctx :
  dropped_run kind msg
    (advanced_search w q cs ns dcs cms dis die lms lme pc gc sb so ps om ctx).
Proof. unfold advanced_search. dropped. Qed.

Lemma get_uscode_title_dropped t e c s ps om ctx :
  dropped_run kind msg (get_uscode_title w t e c s ps om ctx).
Proof. unfold get_uscode_title. dropped. Qed.

Lemma get_statutes_at_large_dropped v p n ps om ctx :
  dropped_run kind msg (get_statutes_at_large w v p n ps om ctx).
Proof. unfold get_statutes_at_large. dropped. Qed.

Lemma get_packages_by_collection_dropped c n dc sd ed ps om ctx :
  truthy sd || year_back_in_range (utc_now w) = true ->
  dropped_run kind msg (get_packages_by_collection w c n dc sd ed ps om ctx).
Proof.
  intros Hv. unfold get_packages_by_collection.
  destruct (truthy sd); cbn [negb orb] in *.
  - dropped.
  - rewrite (minus_days_year _ Hv), bind_ret_l. dropped.
Qed.

Lemma search_statutes_dropped q c n t s sd ed ps om ctx :
  negb (truthy c) || mem_str c statute_codes = true ->
  dropped_run kind msg (search_statutes w q c n t s sd ed ps om ctx).
Proof.
  intros Hv. unfold search_statutes.
  destruct (truthy c), (mem_str c statute_codes); try discriminate Hv;
    cbn [negb andb]; dropped.
Qed.

Lemma get_public_laws_by_congress_dropped n lt ln sd ed ps om ctx :
  negb (truthy lt)
  || match law_type_clause lt with Some _ => true | None => false end = true ->
  dropped_run kind msg (get_public_laws_by_congress w n lt ln sd ed ps om ctx).
Proof.
  intros Hv. unfold get_public_laws_by_congress. cbv zeta.
  destruct (truthy lt), (law_type_clause lt); try discriminate Hv;
    rewrite bind_ret_l; dropped.
Qed.

Lemma get_statute_content_dropped p ct g ctx :
  mem_str ct ["summary"; "xml"; "pdf"; "text"] = true ->
  dropped_run kind msg (get_statute_content w p ct g ctx).
Proof.
  intros Hv. unfold get_statute_content. cbv zeta. rewrite Hv. cbn [negb]. dropped.
Qed.

Lemma invoke_dropped c ctx :
  call_valid w c = true -> dropped_run kind msg (invoke w c ctx).
Proof.
  assert (lift : forall m : M dict, dropped_run kind msg m ->
                                    dropped_run kind msg (as_json m)).
  { intros m (H1 & H2 & H3). unfold dropped_run.
    rewrite trace_as_json, outcome_as_json, H2. auto. }
  destruct c; cbn [invoke call_valid]; intros Hv; try apply lift.
  - apply get_collections_dropped.
  - now apply get_packages_by_collection_dropped.
  - apply get_package_summary_dropped.
  - apply get_package_content_dropped.
  - apply get_published_packages_dropped.
  - apply get_published_range_dropped.
  - apply get_related_packages_dropped.
  - apply get_granule_related_dropped.
  - apply search_packages_dropped.
  - apply advanced_search_dropped.
  - now apply search_statutes_dropped.
  - apply get_uscode_title_dropped.
  - now apply get_public_laws_by_congress_dropped.
  - apply get_statutes_at_large_dropped.
  - now apply get_statute_content_dropped.
Qed.

End Dropped.

(** X3.  When the transport fails on a configured, well-formed call, the
    tool re-raises that failure unchanged after exactly one request and
    exactly one report at error level. *)
Theorem transport_errors_propagate
    (w : env) (kind msg : string) (c : tool_call) (ctx : bool)
    (Hk : key_present (API_KEY w) = true)
    (Hs : forall r, send w r = TransportFailure kind msg)
    (Hv : call_valid w c = true) :
  List.length (requests_of (trace_of (invoke w c ctx))) = 1%nat
  /\ outcome_of (invoke w c ctx) = Raise (OtherError kind msg)
  /\ List.length (errors_of (trace_of (invoke w c ctx))) = 1%nat.
Proof. exact (invoke_dropped w kind msg Hk Hs c ctx Hv). Qed.

Lemma transport_errors_propagate_witness :
  key_present (API_KEY env_offline) = true /\
  call_valid env_offline (GetRelatedPackages "BILLS-116hr1-ih") = true /\
  outcome_of (invoke env_offline (GetRelatedPackages "BILLS-116hr1-ih") false)
  = Raise (OtherError "ConnectTimeout" "timed out").
Proof.
  split; [reflexivity|]. split; [reflexivity|].
  exact (proj1 (proj2 (transport_errors_propagate env_offline "ConnectTimeout"
                         "timed out" (GetRelatedPackages "BILLS-116hr1-ih") false
                         eq_refl (fun _ => eq_refl) eq_refl))).
Defined.

(** ** check_api_health *)

(** X4.  [check_api_health] never raises: it always returns a mapping whose
    [is_healthy] flag is true exactly when the key is set and the service
    answers the probe with a status in 200..299.  Without a key it reports
    [no_api_key] and sends nothing; otherwise it sends the one probe. *)
Theorem check_api_health_reports (w : env) (api_key : option string) (ms : Z) :
  exists d,
    outcome_of (check_api_health w api_key ms) = Return d
    /\ dict_get "is_healthy" d = Some (JBool (service_up w api_key))
    /\ requests_of (trace_of (check_api_health w api_key ms))
       = (if key_present api_key then [health_probe api_key] else [])
    /\ (if key_present api_key then
          dict_get "status" d <> Some (JStr "no_api_key")
        else d = [("is_healthy", JBool false); ("status", JStr "no_api_key")])
    /\ (service_up w api_key = true ->
        d = [("is_healthy", JBool true); ("status", JStr "connected");
             ("response_time_ms", JInt ms)]).
Proof.
  unfold check_api_health, service_up, health_probe.
  destruct (key_present api_key); cbn [negb andb].
  - cbv zeta. run.
    destruct (send w _) as [resp|kind msg]; run.
    + destruct (ok_status resp); run; eexists; repeat split;
        try reflexivity; try discriminate.
    + eexists; repeat split; try reflexivity; try discriminate.
  - eexists; repeat split; try reflexivity; discriminate.
Qed.

(** ** Statute collections: listing, descriptions, validation *)

Lemma description_known (code : string) :
  mem_str code statute_codes = true ->
  _get_collection_description code <> NO_DESCRIPTION.
Proof.
  unfold mem_str, statute_codes, STATUTE_COLLECTIONS, _get_collection_description,
    assoc_default, descriptions.
  cbn [map fst existsb assoc].
  destruct (String.eqb code "USCODE"); [discriminate|].
  destruct (String.eqb code "STATUTE"); [discriminate|].
  destruct (String.eqb code "PLAW"); [discriminate|].
  destruct (String.eqb code "COMPS"); discriminate.
Qed.

Lemma description_unknown (code : string) :
  mem_str code statute_codes = false ->
  _get_collection_description code = NO_DESCRIPTION.
Proof.
  unfold mem_str, statute_codes, STATUTE_COLLECTIONS, _get_collection_description,
    assoc_default, descriptions.
  cbn [map fst existsb assoc]. intros H.
  repeat (apply orb_false_iff in H as [? H]).
  repeat match goal with E : String.eqb _ _ = false |- _ => rewrite E; clear E end.
  reflexivity.
Qed.

Lemma mem_str_In (s : string) (l : list string) : mem_str s l = true <-> In s l.
Proof.
  unfold mem_str. rewrite existsb_exists. split.
  - intros (x & Hx & E). apply String.eqb_eq in E. now subst x.
  - intros H. exists s. split; [exact H|apply String.eqb_refl].
Qed.

(** X5.  [list_statute_collections] makes no request and lists exactly the
    collection codes that [search_statutes] accepts, in the table's order,
    with [total_collections] equal to their number; a code has a
    description of its own exactly when it is one of them, every other code
    getting the fallback text. *)
Theorem listed_collections_are_the_accepted_ones (ctx : bool) :
  exists d,
    outcome_of (list_statute_collections ctx) = Return d
    /\ quiet (list_statute_collections ctx)
    /\ map (entry_field "code") (listed_entries d) = map (fun c => Some (JStr c)) statute_codes
    /\ dict_get "total_collections" d
       = Some (JInt (Z.of_nat (List.length (listed_entries d))))
    /\ (forall c,
           In (Some (JStr c)) (map (entry_field "code") (listed_entries d))
           <-> mem_str c statute_codes = true)
    /\ (forall c,
           _get_collection_description c = NO_DESCRIPTION
           <-> mem_str c statute_codes = false)
    /\ (forall e, In e (listed_entries d) ->
                  exists c, entry_field "code" e = Some (JStr c)
                            /\ entry_field "description" e
                               = Some (JStr (_get_collection_description c))
                            /\ _get_collection_description c <> NO_DESCRIPTION).
Proof.
  eexists. split; [reflexivity|]. split; [reflexivity|].
  split; [reflexivity|]. split; [reflexivity|]. split; [|split].
  - intros c. rewrite mem_str_In.
    change (map (entry_field "code") (listed_entries _))
      with (map (fun c => Some (JStr c)) statute_codes).
    rewrite in_map_iff. split.
    + intros (x & E & Hx). now injection E as ->.
    + intros H. now exists c.
  - intros c. split.
    + intros E. destruct (mem_str c statute_codes) eqn:M; [|reflexivity].
      now apply description_known in M.
    + apply description_unknown.
  - intros e He. cbn in He.
    destruct He as [<-|[<-|[<-|[<-|[]]]]]; eexists;
      (split; [reflexivity|split; [reflexivity|discriminate]]).
Qed.

(** X6.  A configured [search_statutes] call with a non-empty collection
    that is not, letter for letter, one of the four statute codes raises
    [ValueError] naming the four codes, before any request. *)
Theorem search_statutes_rejects_other_collections
    (w : env) (q c : string) (n : option Z) (t s sd ed : string) (ps : Z)
    (om : string) (ctx : bool)
    (Hk : key_present (API_KEY w) = true)
    (Hc : truthy c = true)
    (Hn : mem_str c statute_codes = false) :
  outcome_of (search_statutes w q c n t s sd ed ps om ctx)
  = Raise (ValueError ("Invalid collection '" ++ c
                         ++ "'. Must be one of: USCODE, STATUTE, PLAW, COMPS"))
  /\ quiet (search_statutes w q c n t s sd ed ps om ctx).
Proof.
  unfold quiet, search_statutes. split; run; rewrite Hk; run; rewrite Hc, Hn; run;
    reflexivity.
Qed.

Lemma search_statutes_rejects_other_collections_witness :
  key_present (API_KEY env_ok) = true /\
  truthy "plaw" = true /\
  mem_str "plaw" statute_codes = false /\
  outcome_of (search_statutes env_ok "clean air" "plaw" None "" "" "" "" 50 "*" false)
  = Raise (ValueError
             "Invalid collection 'plaw'. Must be one of: USCODE, STATUTE, PLAW, COMPS").
Proof.
  split; [reflexivity|]. split; [reflexivity|]. split; [reflexivity|].
  exact (proj1 (search_statutes_rejects_other_collections env_ok "clean air" "plaw"
                  None "" "" "" "" 50 "*" false eq_refl eq_refl eq_refl)).
Defined.

(** ** get_public_laws_by_congress: the law type *)

Lemma truthy_lower (s : string) : truthy (lower s) = truthy s.
Proof. now destruct s. Qed.

Lemma law_type_clause_lower (lt : string) :
  law_type_clause (lower lt) = law_type_clause lt.
Proof. unfold law_type_clause. now rewrite lower_idem. Qed.

(** X7.  [get_public_laws_by_congress] reads [law_type] without regard to
    case: with a type that is [public] or [private] in any casing the whole
    run is the one for the lowercased type.  A non-empty type that is neither
    raises [ValueError] quoting the type as given, before any request. *)
Theorem law_type_is_case_insensitive
    (w : env) (n : Z) (lt ln sd ed : string) (ps : Z) (om : string) (ctx : bool) :
  (law_type_clause lt <> None ->
   get_public_laws_by_congress w n lt ln sd ed ps om ctx
   = get_public_laws_by_congress w n (lower lt) ln sd ed ps om ctx) /\
  (key_present (API_KEY w) = true -> truthy lt = true -> law_type_clause lt = None ->
   outcome_of (get_public_laws_by_congress w n lt ln sd ed ps om ctx)
   = Raise (ValueError ("Invalid law_type '" ++ lt
                          ++ "'. Must be 'public' or 'private'"))
   /\ quiet (get_public_laws_by_congress w n lt ln sd ed ps om ctx)).
Proof.
  split.
  - intros Hv. unfold get_public_laws_by_congress.
    rewrite truthy_lower, law_type_clause_lower.
    destruct (law_type_clause lt); [reflexivity|contradiction].
  - intros Hk Ht Hn. unfold quiet, get_public_laws_by_congress.
    split; run; rewrite Hk; run; rewrite Ht, Hn; run; reflexivity.
Qed.

Lemma law_type_is_case_insensitive_witness :
  law_type_clause "Private" <> None /\
  law_type_clause "secret" = None /\
  get_public_laws_by_congress env_ok 117 "Private" "" "" "" 50 "*" false
  = get_public_laws_by_congress env_ok 117 "private" "" "" "" 50 "*" false /\
  outcome_of (get_public_laws_by_congress env_ok 117 "secret" "" "" "" 50 "*" false)
  = Raise (ValueError "Invalid law_type 'secret'. Must be 'public' or 'private'").
Proof.
  pose proof (law_type_is_case_insensitive env_ok 117 "Private" "" "" "" 50 "*" false)
    as [V _].
  pose proof (law_type_is_case_insensitive env_ok 117 "secret" "" "" "" 50 "*" false)
    as [_ I].
  split; [discriminate|]. split; [reflexivity|]. split.
  - apply V. discriminate.
  - exact (proj1 (I eq_refl eq_refl eq_refl)).
Defined.

(** ** get_statute_content *)

(** X8.  [get_statute_content] accepts only the exact strings [summary],
    [xml], [pdf] and [text]: any other content type, [html] and [PDF]
    included, raises [ValueError] listing the four, before any request. *)
Theorem statute_content_rejects_other_types
    (w : env) (p ct g : string) (ctx : bool)
    (Hk : key_present (API_KEY w) = true)
    (Hn : mem_str ct ["summary"; "xml"; "pdf"; "text"] = false) :
  outcome_of (get_statute_content w p ct g ctx)
  = Raise (ValueError ("Invalid content_type '" ++ ct
                         ++ "'. Must be one of: summary, xml, pdf, text"))
  /\ quiet (get_statute_content w p ct g ctx).
Proof.
  unfold quiet, get_statute_content. split; run; rewrite Hk; run; rewrite Hn; run;
    reflexivity.
Qed.

Lemma statute_content_rejects_other_types_witness :
  key_present (API_KEY env_ok) = true /\
  mem_str "PDF" ["summary"; "xml"; "pdf"; "text"] = false /\
  mem_str "html" ["summary"; "xml"; "pdf"; "text"] = false /\
  outcome_of (get_statute_content env_ok "PLAW-117publ58" "PDF" "" false)
  = Raise (ValueError "Invalid content_type 'PDF'. Must be one of: summary, xml, pdf, text") /\
  quiet (get_statute_content env_ok "PLAW-117publ58" "html" "" false).
Proof.
  split; [reflexivity|]. split; [reflexivity|]. split; [reflexivity|]. split.
  - exact (proj1 (statute_content_rejects_other_types env_ok "PLAW-117publ58" "PDF"
                    "" false eq_refl eq_refl)).
  - exact (proj2 (statute_content_rejects_other_types env_ok "PLAW-117publ58" "html"
                    "" false eq_refl eq_refl)).
Defined.

(** The handlers report and re-raise. *)
Lemma outcome_on_error {A} ctx label e :
  outcome_of (@on_error A ctx label e) = Raise e.
Proof. unfold on_error. destruct e; run; reflexivity. Qed.

Lemma outcome_on_statute_error {A} ctx label e :
  outcome_of (@on_statute_error A ctx label e) = Raise e.
Proof. unfold on_statute_error. destruct e; run; reflexivity. Qed.

(** What a configured, valid [get_statute_content] call does with a
    successful reply. *)
Lemma statute_content_outcome w p ct g ctx resp data :
  key_present (API_KEY w) = true ->
  mem_str ct ["summary"; "xml"; "pdf"; "text"] = true ->
  send w (summary_request w p g) = Replied resp ->
  ok_status resp = true ->
  json_body resp = inr data ->
  outcome_of (get_statute_content w p ct g ctx)
  = outcome_of
      (if negb (String.eqb ct "summary") && dict_mem "download" data then
         let download_links := dict_get_default "download" (JObj []) data in
         found <-
           match assoc ct content_key_map with
           | Some k => if truthy k then py_contains w k download_links else ret false
           | None => ret false
           end ;;
         if found then
           link <- py_index w download_links (assoc_default ct content_key_map "") ;;
           ret (with_link data ct link)
         else ret data
       else ret data).
Proof.
  intros Hk Hv Hs Hok Hj. unfold summary_request in Hs.
  unfold get_statute_content, with_link. run. rewrite Hk. run. rewrite Hv. run.
  rewrite Hs. run. rewrite Hok. run. rewrite Hj. run.
  destruct (negb (String.eqb ct "summary") && dict_mem "download" data);
    run; [|reflexivity].
  destruct (outcome_of (match assoc ct content_key_map with _ => _ end))
    as [[|]|e]; run; rewrite ?outcome_on_statute_error; try reflexivity.
  destruct (outcome_of (py_index _ _ _)); run;
    rewrite ?outcome_on_statute_error; reflexivity.
Qed.

(** X9.  On a successful reply [get_statute_content] returns the summary,
    and for [xml], [pdf] or [text] attaches the matching link of the
    summary's [download] mapping as [requested_content_url] together with
    [content_type]; when the mapping lacks that link, when there is no
    [download] field, or when [download] is a list of objects, the summary
    comes back unchanged.  Every other key of the summary keeps its value. *)
Theorem statute_content_attaches_link
    (w : env) (p ct k g : string) (ctx : bool) (resp : response) (data : dict)
    (Hk : key_present (API_KEY w) = true)
    (Hct : In (ct, k) content_key_map)
    (Hs : send w (summary_request w p g) = Replied resp)
    (Hok : ok_status resp = true)
    (Hj : json_body resp = inr data) :
  (dict_get "download" data = None ->
   outcome_of (get_statute_content w p ct g ctx) = Return data) /\
  (forall links,
      dict_get "download" data = Some (JObj links) ->
      outcome_of (get_statute_content w p ct g ctx)
      = Return (match dict_get k links with
                | Some link => with_link data ct link
                | None => data
                end)) /\
  (forall l,
      dict_get "download" data = Some (JList l) ->
      forallb is_object l = true ->
      outcome_of (get_statute_content w p ct g ctx) = Return data) /\
  (forall link key,
      key <> "requested_content_url" -> key <> "content_type" ->
      dict_get key (with_link data ct link) = dict_get key data) /\
  (forall link,
      dict_get "requested_content_url" (with_link data ct link) = Some link
      /\ dict_get "content_type" (with_link data ct link) = Some (JStr ct)).
Proof.
  assert (Hv : mem_str ct ["summary"; "xml"; "pdf"; "text"] = true).
  { cbn in Hct. destruct Hct as [E|[E|[E|[]]]]; injection E as <- <-; reflexivity. }
  pose proof (statute_content_outcome w p ct g ctx resp data Hk Hv Hs Hok Hj) as O.
  assert (Hns : String.eqb ct "summary" = false).
  { cbn in Hct. destruct Hct as [E|[E|[E|[]]]]; injection E as <- <-; reflexivity. }
  assert (Ha : assoc ct content_key_map = Some k /\ truthy k = true).
  { cbn in Hct. destruct Hct as [E|[E|[E|[]]]]; injection E as <- <-;
      split; reflexivity. }
  destruct Ha as [Ha Hkt].
  rewrite Hns in O. cbn [negb andb] in O. unfold dict_mem, dict_get_default in O.
  unfold assoc_default in O. rewrite Ha, Hkt in O.
  split; [|split; [|split; [|split]]].
  - intros Hd. rewrite Hd in O. exact O.
  - intros links Hd. rewrite Hd in O. rewrite O. cbv zeta.
    cbn [py_contains py_index]. unfold dict_mem. rewrite bind_ret_l.
    destruct (dict_get k links); [rewrite bind_ret_l|]; reflexivity.
  - intros l Hd Hl. rewrite Hd in O. rewrite O. cbv zeta.
    cbn [py_contains]. rewrite bind_ret_l.
    replace (existsb (json_is_str k) l) with false; [reflexivity|].
    symmetry. clear -Hl. induction l as [|x l IH]; [reflexivity|].
    cbn [forallb] in Hl. apply andb_prop in Hl as [Hx Hl].
    cbn [existsb]. rewrite (IH Hl). now destruct x.
  - intros link key H1 H2. unfold with_link.
    rewrite !dict_get_set_other by congruence. reflexivity.
  - intros link. unfold with_link. split.
    + rewrite dict_get_set_other by discriminate. apply dict_get_set_same.
    + apply dict_get_set_same.
Qed.

Lemma statute_content_attaches_link_witness :
  key_present (API_KEY (env_summary JNull)) = true /\
  In ("pdf", "pdfLink") content_key_map /\
  outcome_of (get_statute_content
                (env_summary (JObj [("pdfLink", JStr "https://example.org/a.pdf")]))
                "PLAW-117publ58" "pdf" "" false)
  = Return [("packageId", JStr "PLAW-117publ58");
            ("download", JObj [("pdfLink", JStr "https://example.org/a.pdf")]);
            ("requested_content_url", JStr "https://example.org/a.pdf");
            ("content_type", JStr "pdf")] /\
  outcome_of (get_statute_content
                (env_summary (JList [JObj [("type", JStr "pdf")]]))
                "PLAW-117publ58" "pdf" "" false)
  = Return [("packageId", JStr "PLAW-117publ58");
            ("download", JList [JObj [("type", JStr "pdf")]])].
Proof.
  assert (I : In ("pdf", "pdfLink") content_key_map) by (cbn; auto).
  split; [reflexivity|]. split; [exact I|]. split.
  - exact (proj1 (proj2 (statute_content_attaches_link
             (env_summary (JObj [("pdfLink", JStr "https://example.org/a.pdf")]))
             "PLAW-117publ58" "pdf" "pdfLink" "" false _ _
             eq_refl I eq_refl eq_refl eq_refl)) _ eq_refl).
  - exact (proj1 (proj2 (proj2 (statute_content_attaches_link
             (env_summary (JList [JObj [("type", JStr "pdf")]]))
             "PLAW-117publ58" "pdf" "pdfLink" "" false _ _
             eq_refl I eq_refl eq_refl eq_refl))) _ eq_refl eq_refl).
Defined.

(** Case analysis over everything a run branches on. *)
Ltac branches :=
  run;
  repeat (match goal with
          | |- context [match send ?w ?r with _ => _ end] => destruct (send w r)
          | |- context [if ok_status ?r then _ else _] => destruct (ok_status r)
          | |- context [match json_body ?r with _ => _ end] => destruct (json_body r)
          end; run);
  rewrite ?outcome_on_error, ?outcome_on_statute_error.

(** X10.  [get_statute_content] asked for [summary] with no granule is
    [get_package_summary]: it sends the same request and ends in the same
    result or the same exception, with or without a key. *)
Theorem statute_summary_is_package_summary
    (w : env) (p : string) (ctx ctx' : bool) :
  requests_of (trace_of (get_statute_content w p "summary" "" ctx))
  = requests_of (trace_of (get_package_summary w p ctx')) /\
  outcome_of (get_statute_content w p "summary" "" ctx)
  = outcome_of (get_package_summary w p ctx').
Proof.
  unfold get_statute_content, get_package_summary.
  destruct (key_present (API_KEY w)) eqn:Hk.
  - change (mem_str "summary" ["summary"; "xml"; "pdf"; "text"]) with true.
    change (String.eqb "summary" "summary") with true.
    cbn [truthy negb andb]. split.
    + transitivity [summary_request w p ""]; [|symmetry]; unfold summary_request;
        cbn [truthy].
      * skip_prologue. cbn [negb]. do 2 skip_prologue. cbv zeta.
        apply exchange_requests; [quiet_tac|apply quiet_on_statute_error].
      * skip_prologue. cbn [negb]. skip_prologue. cbv zeta.
        apply exchange_requests; [quiet_tac|apply quiet_on_error].
    + branches; reflexivity.
  - split; run; reflexivity.
Qed.

Lemma granule_related_request w p g ctx :
  key_present (API_KEY w) = true ->
  requests_of (trace_of (get_granule_related w p g ctx))
  = [GET (API ++ "/related/" ++ g) [] [("X-Api-Key", key_value (API_KEY w))] 30].
Proof.
  intros Hk. unfold get_granule_related.
  skip_prologue. rewrite Hk. cbn [negb]. skip_prologue. cbv zeta.
  apply exchange_requests; [quiet_tac|apply quiet_on_error].
Qed.

(** X11.  [get_granule_related] never uses [package_id] beyond its first log
    line: the request goes to [/related/<granule_id>] and the outcome is the
    same whatever package id is passed. *)
Theorem granule_related_ignores_package
    (w : env) (p p' g : string) (ctx : bool) :
  requests_of (trace_of (get_granule_related w p g ctx))
  = requests_of (trace_of (get_granule_related w p' g ctx)) /\
  outcome_of (get_granule_related w p g ctx)
  = outcome_of (get_granule_related w p' g ctx) /\
  (key_present (API_KEY w) = true ->
   map request_url (requests_of (trace_of (get_granule_related w p g ctx)))
   = [API ++ "/related/" ++ g]).
Proof.
  split; [|split].
  - destruct (key_present (API_KEY w)) eqn:Hk.
    + now rewrite !granule_related_request.
    + unfold get_granule_related. run. rewrite Hk. run. reflexivity.
  - unfold get_granule_related.
    destruct (key_present (API_KEY w)); branches; reflexivity.
  - intros Hk. now rewrite granule_related_request.
Qed.

Lemma granule_related_ignores_package_witness :
  key_present (API_KEY env_ok) = true /\
  map request_url
    (requests_of (trace_of (get_granule_related env_ok "CFR-2023-title12-vol1"
                              "CFR-2023-title12-vol1-sec1-1" false)))
  = ["https://api.govinfo.gov/related/CFR-2023-title12-vol1-sec1-1"].
Proof.
  split; [reflexivity|].
  exact (proj2 (proj2 (granule_related_ignores_package env_ok "CFR-2023-title12-vol1"
                         "" "CFR-2023-title12-vol1-sec1-1" false)) eq_refl).
Defined.

(** ** advanced_search *)

Lemma advanced_search_request
    (w : env) (q : string)
    (cs : list string) (ns : list Z) (dcs cms : list string)
    (dis die lms lme : string) (pc gc : option Z)
    (sb so : string) (ps : Z) (om : string) (ctx : bool) :
  key_present (API_KEY w) = true ->
  requests_of
    (trace_of (advanced_search w q cs ns dcs cms dis die lms lme pc gc sb so
                 ps om ctx))
  = [search_request w
       [("query", JStr q); ("pageSize", JStr (str_int ps));
        ("offsetMark", JStr om);
        ("sorts",
         JList [JObj [("field",
                       JStr (if String.eqb sb "relevance" then "score" else sb));
                      ("sortOrder", JStr (py_upper w so))]]);
        ("resultLevel", JStr "default")]].
Proof.
  intros Hk. unfold advanced_search, search_request, sort_spec.
  skip_prologue. rewrite Hk. cbn [negb]. skip_prologue. cbv zeta.
  apply exchange_requests; [quiet_tac|apply quiet_on_error].
Qed.

(** X12.  [advanced_search] sends none of its filter arguments: the lists of
    collections, congresses, document classes and committees, the four date
    bounds and the two counts leave the whole run unchanged, and the sort
    order counts only through its [str.upper()].  The one request it sends
    posts the query as given, the page size as a string, [score] for the sort
    field [relevance] and any other sort field verbatim, and the
    [str.upper()] of the sort order; for a sort order of ASCII characters,
    on which [str.upper()] is ASCII uppercasing, that is the sort order with
    its letters [a]..[z] in upper case. *)
Theorem advanced_search_ignores_filters
    (w : env) (q : string)
    (cs cs' : list string) (ns ns' : list Z) (dcs dcs' cms cms' : list string)
    (dis dis' die die' lms lms' lme lme' : string) (pc pc' gc gc' : option Z)
    (sb so so' : string) (ps : Z) (om : string) (ctx : bool)
    (Hso : py_upper w so = py_upper w so') :
  advanced_search w q cs ns dcs cms dis die lms lme pc gc sb so ps om ctx
  = advanced_search w q cs' ns' dcs' cms' dis' die' lms' lme' pc' gc' sb so' ps om ctx
  /\ (key_present (API_KEY w) = true ->
      requests_of
        (trace_of (advanced_search w q cs ns dcs cms dis die lms lme pc gc sb so
                     ps om ctx))
      = [search_request w
           [("query", JStr q); ("pageSize", JStr (str_int ps));
            ("offsetMark", JStr om);
            ("sorts",
             JList [JObj [("field",
                           JStr (if String.eqb sb "relevance" then "score" else sb));
                          ("sortOrder", JStr (py_upper w so))]]);
            ("resultLevel", JStr "default")]])
  /\ (key_present (API_KEY w) = true ->
      (forall s, is_ascii s = true -> py_upper w s = ascii_upper s) ->
      is_ascii so = true ->
      requests_of
        (trace_of (advanced_search w q cs ns dcs cms dis die lms lme pc gc sb so
                     ps om ctx))
      = [search_request w
           [("query", JStr q); ("pageSize", JStr (str_int ps));
            ("offsetMark", JStr om);
            ("sorts",
             JList [JObj [("field",
                           JStr (if String.eqb sb "relevance" then "score" else sb));
                          ("sortOrder", JStr (ascii_upper so))]]);
            ("resultLevel", JStr "default")]]).
Proof.
  split; [|split].
  - unfold advanced_search. rewrite Hso. reflexivity.
  - apply advanced_search_request.
  - intros Hk Hup Ha. rewrite <- (Hup so Ha). now apply advanced_search_request.
Qed.

Lemma advanced_search_ignores_filters_witness :
  py_upper env_ok "desc" = py_upper env_ok "DESC" /\
  key_present (API_KEY env_ok) = true /\
  is_ascii "desc" = true /\
  advanced_search env_ok "water" ["BILLS"] [117] ["hr"] ["energy"]
    "2024-01-01" "2024-12-31" "" "" (Some 3) None "relevance" "desc" 10 "*" false
  = advanced_search env_ok "water" [] [] [] [] "" "" "" "" None None
      "relevance" "DESC" 10 "*" false /\
  requests_of
    (trace_of (advanced_search env_ok "water" ["BILLS"] [117] ["hr"] ["energy"]
                 "2024-01-01" "2024-12-31" "" "" (Some 3) None "relevance" "desc"
                 10 "*" false))
  = [search_request env_ok
       [("query", JStr "water"); ("pageSize", JStr "10"); ("offsetMark", JStr "*");
        ("sorts", JList [JObj [("field", JStr "score"); ("sortOrder", JStr "DESC")]]);
        ("resultLevel", JStr "default")]].
Proof.
  pose proof (advanced_search_ignores_filters env_ok "water" ["BILLS"] [] [117] []
                ["hr"] [] ["energy"] [] "2024-01-01" "" "2024-12-31" "" "" "" "" ""
                (Some 3) None None None "relevance" "desc" "DESC" 10 "*" false
                eq_refl) as [E [_ R]].
  split; [reflexivity|]. split; [reflexivity|]. split; [reflexivity|].
  split; [exact E|].
  exact (R eq_refl (fun s _ => eq_refl) eq_refl).
Defined.

(** ** Successful replies *)

Section Answered.

Variable w : env.
Variable resp : response.
Variable data : dict.
Hypothesis Hk : key_present (API_KEY w) = true.
Hypothesis Hs : forall r, send w r = Replied resp.
Hypothesis Hok : ok_status resp = true.
Hypothesis Hj : json_body resp = inr data.

Ltac answered :=
  rewrite ?Hk; exec; rewrite ?Hs; cbv beta iota zeta;
  fold (ok_status resp); rewrite ?Hok; cbv beta iota zeta;
  rewrite ?Hj; cbv beta iota zeta.

Ltac counted k :=
  unfold after_count, dict_get_default;
  destruct (dict_get k data) as [[]|]; cbv [py_len sized]; exec; reflexivity.

Lemma get_collections_answered ps om ctx :
  outcome_of (as_json (get_collections w ps om ctx))
  = after_count w (Some (dict_get_default "collections" (JList []) data)) data.
Proof.
  rewrite outcome_as_json. unfold get_collections. answered. counted "collections".
Qed.

Lemma get_packages_by_collection_answered c n dc sd ed ps om ctx :
  truthy sd || year_back_in_range (utc_now w) = true ->
  outcome_of (as_json (get_packages_by_collection w c n dc sd ed ps om ctx))
  = after_count w (Some (dict_get_default "packages" (JList []) data)) data.
Proof.
  intros Hv. rewrite outcome_as_json. unfold get_packages_by_collection.
  destruct (truthy sd); cbn [negb orb] in *.
  - answered. counted "packages".
  - rewrite (minus_days_year _ Hv), bind_ret_l. answered. counted "packages".
Qed.

Lemma get_published_packages_answered d c dc ps om ctx :
  outcome_of (as_json (get_published_packages w d c dc ps om ctx))
  = after_count w (Some (dict_get_default "packages" (JList []) data)) data.
Proof.
  rewrite outcome_as_json. unfold get_published_packages. answered.
  counted "packages".
Qed.

Lemma get_published_range_answered sd ed c dc ms ps om ctx :
  outcome_of (as_json (get_published_range w sd ed c dc ms ps om ctx))
  = after_count w (Some (dict_get_default "packages" (JList []) data)) data.
Proof.
  rewrite outcome_as_json. unfold get_published_range. answered.
  counted "packages".
Qed.

Lemma get_related_packages_answered p ctx :
  outcome_of (as_json (get_related_packages w p ctx))
  = after_count w (Some (dict_get_default "relatedPackages" (JList []) data)) data.
Proof.
  rewrite outcome_as_json. unfold get_related_packages. answered.
  counted "relatedPackages".
Qed.

Lemma get_package_summary_answered p ctx :
  outcome_of (as_json (get_package_summary w p ctx)) = Return (JObj data).
Proof. rewrite outcome_as_json. unfold get_package_summary. answered. reflexivity. Qed.

Lemma get_granule_related_answered p g ctx :
  outcome_of (as_json (get_granule_related w p g ctx)) = Return (JObj data).
Proof. rewrite outcome_as_json. unfold get_granule_related. answered. reflexivity. Qed.

Lemma search_packages_answered q c n dc t sd ed ps om ctx :
  outcome_of (as_json (search_packages w q c n dc t sd ed ps om ctx))
  = Return (JObj data).
Proof. rewrite outcome_as_json. unfold search_packages. answered. reflexivity. Qed.

Lemma advanced_search_answered q cs ns dcs cms dis die lms lme pc gc sb so ps om ctx :
  outcome_of
    (as_json (advanced_search w q cs ns dcs cms dis die lms lme pc gc sb so ps om ctx))
  = Return (JObj data).
Proof. rewrite outcome_as_json. unfold advanced_search. answered. reflexivity. Qed.

Lemma get_uscode_title_answered t e c s ps om ctx :
  outcome_of (as_json (get_uscode_title w t e c s ps om ctx)) = Return (JObj data).
Proof. rewrite outcome_as_json. unfold get_uscode_title. answered. reflexivity. Qed.

Lemma get_statutes_at_large_answered v p n ps om ctx :
  outcome_of (as_json (get_statutes_at_large w v p n ps om ctx))
  = Return (JObj data).
Proof. rewrite outcome_as_json. unfold get_statutes_at_large. answered. reflexivity. Qed.

Lemma search_statutes_answered q c n t s sd ed ps om ctx :
  truthy c = true -> mem_str c statute_codes = true ->
  outcome_of (as_json (search_statutes w q c n t s sd ed ps om ctx))
  = Return (JObj data).
Proof.
  intros Ht Hm. rewrite outcome_as_json. unfold search_statutes.
  rewrite Ht, Hm. cbn [negb andb]. answered. reflexivity.
Qed.

Lemma get_public_laws_by_congress_answered n lt ln sd ed ps om ctx :
  negb (truthy lt)
  || match law_type_clause lt with Some _ => true | None => false end = true ->
  outcome_of (as_json (get_public_laws_by_congress w n lt ln sd ed ps om ctx))
  = Return (JObj data).
Proof.
  intros Hv. rewrite outcome_as_json. unfold get_public_laws_by_congress. cbv zeta.
  destruct (truthy lt), (law_type_clause lt); try discriminate Hv;
    rewrite bind_ret_l; answered; reflexivity.
Qed.

Lemma get_statute_summary_answered p g ctx :
  outcome_of (as_json (get_statute_content w p "summary" g ctx))
  = Return (JObj data).
Proof.
  rewrite outcome_as_json. unfold get_statute_content. cbv zeta.
  change (mem_str "summary" ["summary"; "xml"; "pdf"; "text"]) with true.
  change (String.eqb "summary" "summary") with true. cbn [negb andb].
  answered. reflexivity.
Qed.

Lemma invoke_answered c ctx :
  call_valid w c = true -> returns_reply c = true ->
  outcome_of (invoke w c ctx) = after_count w (counted_value c data) data.
Proof.
  destruct c; cbn [invoke call_valid returns_reply counted_value counted_field
                     after_count]; intros Hv Hr; try discriminate Hr.
  - apply get_collections_answered.
  - now apply get_packages_by_collection_answered.
  - apply get_package_summary_answered.
  - apply get_published_packages_answered.
  - apply get_published_range_answered.
  - apply get_related_packages_answered.
  - apply get_granule_related_answered.
  - apply search_packages_answered.
  - apply advanced_search_answered.
  - rewrite Hr in Hv. now apply search_statutes_answered.
  - apply get_uscode_title_answered.
  - now apply get_public_laws_by_congress_answered.
  - apply get_statutes_at_large_answered.
  - apply String.eqb_eq in Hr. subst. apply get_statute_summary_answered.
Qed.

End Answered.

(** X13.  Every tool that does not reshape its reply (all but
    [get_package_content], [search_statutes] without a collection and
    [get_statute_content] for a download format) returns the decoded JSON
    of a successful reply exactly as it came, provided the field whose
    length it logs, when it logs one, is absent or is a list, a mapping or a
    string. *)
Theorem replies_come_back_unchanged
    (w : env) (resp : response) (data : dict) (c : tool_call) (ctx : bool)
    (Hk : key_present (API_KEY w) = true)
    (Hs : forall r, send w r = Replied resp)
    (Hok : ok_status resp = true)
    (Hj : json_body resp = inr data)
    (Hv : call_valid w c = true)
    (Hr : returns_reply c = true)
    (Hc : forall v, counted_value c data = Some v -> sized v = true) :
  outcome_of (invoke w c ctx) = Return (JObj data).
Proof.
  rewrite (invoke_answered w resp data Hk Hs Hok Hj c ctx Hv Hr).
  unfold after_count. destruct (counted_value c data) as [v|]; [|reflexivity].
  now rewrite (Hc v eq_refl).
Qed.

Lemma replies_come_back_unchanged_witness :
  key_present (API_KEY env_ok) = true /\
  ok_status sample_response = true /\
  json_body sample_response = inr sample_results /\
  call_valid env_ok (GetPublishedRange "2024-01-01" "2024-01-31" "BILLS" "" "" 50 "*")
  = true /\
  returns_reply (GetPublishedRange "2024-01-01" "2024-01-31" "BILLS" "" "" 50 "*")
  = true /\
  outcome_of (invoke env_ok
                (GetPublishedRange "2024-01-01" "2024-01-31" "BILLS" "" "" 50 "*")
                false)
  = Return (JObj sample_results).
Proof.
  split; [reflexivity|]. split; [reflexivity|]. split; [reflexivity|].
  split; [reflexivity|]. split; [reflexivity|].
  refine (replies_come_back_unchanged env_ok sample_response sample_results
            (GetPublishedRange "2024-01-01" "2024-01-31" "BILLS" "" "" 50 "*") false
            eq_refl (fun _ => eq_refl) eq_refl eq_refl eq_refl eq_refl _).
  intros v E. injection E as <-. reflexivity.
Defined.

(** X14.  The five tools that log a count ([get_collections],
    [get_packages_by_collection], [get_published_packages],
    [get_published_range], [get_related_packages]) turn a successful reply
    into a [TypeError] when the counted field is present but is [null], a
    number or a boolean: [len] fails inside the [try], and the error is
    re-raised instead of the reply being returned. *)
Theorem unsized_count_fails_the_call
    (w : env) (resp : response) (data : dict) (c : tool_call) (ctx : bool) (v : json)
    (Hk : key_present (API_KEY w) = true)
    (Hs : forall r, send w r = Replied resp)
    (Hok : ok_status resp = true)
    (Hj : json_body resp = inr data)
    (Hv : call_valid w c = true)
    (Hc : counted_value c data = Some v)
    (Hu : sized v = false) :
  outcome_of (invoke w c ctx)
  = Raise (OtherError "TypeError" (py_error_str w "len" v)).
Proof.
  assert (Hr : returns_reply c = true) by (destruct c; try discriminate Hc; reflexivity).
  rewrite (invoke_answered w resp data Hk Hs Hok Hj c ctx Hv Hr), Hc.
  unfold after_count. now rewrite Hu.
Qed.

Lemma unsized_count_fails_the_call_witness :
  key_present (API_KEY (env_replying [("collections", JNull)])) = true /\
  counted_value (GetCollections 50 "*") [("collections", JNull)] = Some JNull /\
  sized JNull = false /\
  outcome_of (invoke (env_replying [("collections", JNull)]) (GetCollections 50 "*") false)
  = Raise (OtherError "TypeError" "object of type 'NoneType' has no len()").
Proof.
  split; [reflexivity|]. split; [reflexivity|]. split; [reflexivity|].
  exact (unsized_count_fails_the_call (env_replying [("collections", JNull)])
           (mkResponse 200 [] "" (inr [("collections", JNull)]))
           [("collections", JNull)] (GetCollections 50 "*") false JNull
           eq_refl (fun _ => eq_refl) eq_refl eq_refl eq_refl eq_refl eq_refl).
Defined.

(** ** search_statutes: edges of the client-side filter *)

Lemma keep_statutes_malformed w rs :
  forallb result_record rs = false ->
  exists kind msg,
    outcome_of (keep_statutes w rs) = Raise (OtherError kind msg)
    /\ (kind = "AttributeError" \/ kind = "TypeError").
Proof.
  induction rs as [|r rest IH]; [discriminate|].
  cbn [forallb keep_statutes]. intros H.
  destruct (result_record r) eqn:Hr.
  - cbn [andb] in H. destruct (IH H) as (kind & msg & E & K).
    exists kind, msg. split; [|exact K].
    destruct r as [| | | | |l|d]; try discriminate Hr.
    cbn [py_get result_record] in *. run. unfold dict_get_default.
    destruct (dict_get "collectionCode" d) as [[| | | |s| |]|]; try discriminate Hr;
      cbn [py_in_keys]; run; rewrite E; reflexivity.
  - clear H IH. destruct r as [| | | | |l|d]; cbn [py_get]; run;
      try (do 2 eexists; split; [reflexivity|left; reflexivity]).
    cbn [result_record] in Hr. unfold dict_get_default.
    destruct (dict_get "collectionCode" d) as [[| | | |s| |]|]; try discriminate Hr;
      cbn [py_in_keys]; run;
      do 2 eexists; (split; [reflexivity|right; reflexivity]).
Qed.

(** X15.  With no collection asked for, [search_statutes] leaves a reply
    without a [results] key untouched (its [count] included), and fails as a
    whole, with [AttributeError] or [TypeError], as soon as one entry of the
    [results] list is not a result record: no partial list is returned. *)
Theorem search_statutes_filter_edges
    (w : env) (q : string) (n : option Z) (t s sd ed : string) (ps : Z)
    (om : string) (ctx : bool) (resp : response) (data : dict)
    (Hk : key_present (API_KEY w) = true)
    (Hs : send w (search_statutes_request w q "" n t s sd ed ps om) = Replied resp)
    (Hok : ok_status resp = true)
    (Hj : json_body resp = inr data) :
  (dict_get "results" data = None ->
   outcome_of (search_statutes w q "" n t s sd ed ps om ctx) = Return data) /\
  (forall rs,
      dict_get "results" data = Some (JList rs) ->
      forallb result_record rs = false ->
      exists kind msg,
        outcome_of (search_statutes w q "" n t s sd ed ps om ctx)
        = Raise (OtherError kind msg)
        /\ (kind = "AttributeError" \/ kind = "TypeError")).
Proof.
  unfold search_statutes_request, search_request, statutes_body in Hs.
  split.
  - intros Hr. unfold search_statutes. run. rewrite Hk. run. cbn [truthy]. run.
    rewrite Hs. run. rewrite Hok. run. rewrite Hj. run.
    unfold dict_mem. rewrite Hr. run. reflexivity.
  - intros rs Hr Hbad.
    destruct (keep_statutes_malformed w rs Hbad) as (kind & msg & E & K).
    exists kind, msg. split; [|exact K].
    unfold search_statutes. run. rewrite Hk. run. cbn [truthy]. run.
    rewrite Hs. run. rewrite Hok. run. rewrite Hj. run.
    unfold dict_mem, dict_get_default. rewrite Hr. run.
    cbn [py_iter]. run. rewrite E. run.
    apply outcome_on_statute_error.
Qed.

Lemma search_statutes_filter_edges_witness :
  key_present (API_KEY (env_replying [("count", JInt 7)])) = true /\
  forallb result_record [JObj [("collectionCode", JStr "PLAW")]; JStr "stray"] = false /\
  outcome_of (search_statutes (env_replying [("count", JInt 7)]) "tax" "" None "" ""
                "" "" 50 "*" false)
  = Return [("count", JInt 7)] /\
  exists kind msg,
    outcome_of (search_statutes
                  (env_replying
                     [("results",
                       JList [JObj [("collectionCode", JStr "PLAW")]; JStr "stray"])])
                  "tax" "" None "" "" "" "" 50 "*" false)
    = Raise (OtherError kind msg)
    /\ (kind = "AttributeError" \/ kind = "TypeError").
Proof.
  split; [reflexivity|]. split; [reflexivity|]. split.
  - exact (proj1 (search_statutes_filter_edges (env_replying [("count", JInt 7)])
                    "tax" None "" "" "" "" 50 "*" false _ _
                    eq_refl eq_refl eq_refl eq_refl) eq_refl).
  - exact (proj2 (search_statutes_filter_edges
                    (env_replying
                       [("results",
                         JList [JObj [("collectionCode", JStr "PLAW")]; JStr "stray"])])
                    "tax" None "" "" "" "" 50 "*" false _ _
                    eq_refl eq_refl eq_refl eq_refl) _ eq_refl eq_refl).
Defined.

Lemma statute_entries_are_records rs :
  forallb result_record (filter is_statute_entry rs) = true.
Proof.
  induction rs as [|r rest IH]; [reflexivity|]. cbn [filter].
  destruct (is_statute_entry r) eqn:E; [|exact IH].
  cbn [forallb]. rewrite IH, andb_true_r.
  destruct r as [| | | | |l|d]; try discriminate E. cbn in *.
  destruct (dict_get "collectionCode" d) as [[| | | |s| |]|];
    try discriminate E; reflexivity.
Qed.

Lemma filter_idem {A} (f : A -> bool) (l : list A) :
  filter f (filter f l) = filter f l.
Proof.
  induction l as [|x l IH]; [reflexivity|]. cbn.
  destruct (f x) eqn:E; cbn; rewrite ?E, IH; reflexivity.
Qed.

Lemma dict_set_same_value k v d : dict_get k d = Some v -> dict_set k v d = d.
Proof.
  induction d as [|[k' v'] r IH]; cbn; [discriminate|].
  destruct (String.eqb k k') eqn:E.
  - intros H. injection H as ->. apply String.eqb_eq in E. now subst.
  - intros H. now rewrite IH.
Qed.

(** X16.  The client-side filter of [search_statutes] is idempotent: a reply
    that already is the result of the filter (whatever it was computed from)
    goes through a call with no collection unchanged. *)
Theorem search_statutes_filter_idempotent
    (w : env) (q : string) (n : option Z) (t s sd ed : string) (ps : Z)
    (om : string) (ctx : bool) (resp : response) (data : dict) (rs : list json)
    (Hk : key_present (API_KEY w) = true)
    (Hs : send w (search_statutes_request w q "" n t s sd ed ps om) = Replied resp)
    (Hok : ok_status resp = true)
    (Hj : json_body resp = inr (statutes_only data rs)) :
  outcome_of (search_statutes w q "" n t s sd ed ps om ctx)
  = Return (statutes_only data rs).
Proof.
  unfold search_statutes_request, search_request, statutes_body in Hs.
  assert (Hr : dict_get "results" (statutes_only data rs)
               = Some (JList (filter is_statute_entry rs))).
  { unfold statutes_only. cbv zeta.
    rewrite dict_get_set_other by discriminate. apply dict_get_set_same. }
  assert (Hc : dict_get "count" (statutes_only data rs)
               = Some (JInt (Z.of_nat (List.length (filter is_statute_entry rs))))).
  { unfold statutes_only. cbv zeta. apply dict_get_set_same. }
  unfold search_statutes. run. rewrite Hk. run. cbn [truthy]. run.
  rewrite Hs. run. rewrite Hok. run. rewrite Hj. run.
  unfold dict_mem, dict_get_default. rewrite Hr. run. cbn [py_iter]. run.
  rewrite (keep_statutes_records _ _ (statute_entries_are_records rs)). run.
  rewrite filter_idem.
  rewrite (dict_set_same_value "results" _ _ Hr).
  rewrite (dict_set_same_value "count" _ _ Hc). reflexivity.
Qed.

Lemma search_statutes_filter_idempotent_witness :
  key_present (API_KEY (env_replying (statutes_only sample_results
                                        [JObj [("collectionCode", JStr "COMPS")];
                                         JInt 4]))) = true /\
  outcome_of (search_statutes
                (env_replying (statutes_only sample_results
                                 [JObj [("collectionCode", JStr "COMPS")]; JInt 4]))
                "tax" "" None "" "" "" "" 50 "*" false)
  = Return [("count", JInt 1);
            ("results", JList [JObj [("collectionCode", JStr "COMPS")]]);
            ("offsetMark", JStr "*")].
Proof.
  split; [reflexivity|].
  exact (search_statutes_filter_idempotent
           (env_replying (statutes_only sample_results
                            [JObj [("collectionCode", JStr "COMPS")]; JInt 4]))
           "tax" None "" "" "" "" 50 "*" false _ sample_results
           [JObj [("collectionCode", JStr "COMPS")]; JInt 4]
           eq_refl eq_refl eq_refl eq_refl).
Defined.

(** ** The base64 text of a binary body *)

Lemma b64char_symbol (i : N) : b64_symbol (b64char i) = true.
Proof.
  destruct (N.lt_ge_cases i 64) as [H|H].
  - unfold b64_symbol. now rewrite (b64val_b64char i H).
  - unfold b64char. replace (String.get (N.to_nat i) B64_ALPHABET) with (@None ascii).
    + reflexivity.
    + symmetry. assert (Hk : (64 <= N.to_nat i)%nat) by lia.
      generalize dependent (N.to_nat i). clear. intros k Hk.
      do 64 (destruct k as [|k]; [lia|]). reflexivity.
Qed.

Lemma b64encode_length (bs : list byte) :
  String.length (b64encode bs) = (4 * ((List.length bs + 2) / 3))%nat.
Proof.
  induction bs as [|a|a b|a b c l IH] using list_ind3; try reflexivity.
  cbn [b64encode String.length List.length]. rewrite IH.
  replace (S (S (S (List.length l))) + 2)%nat with (1 * 3 + (List.length l + 2))%nat
    by lia.
  rewrite Nat.div_add_l by lia. lia.
Qed.

Lemma b64encode_symbols (bs : list byte) : all_chars b64_symbol (b64encode bs) = true.
Proof.
  induction bs as [|a|a b|a b c l IH] using list_ind3;
    cbn [b64encode all_chars]; rewrite ?b64char_symbol, ?IH; reflexivity.
Qed.

(** X17.  The [base64_content] of a binary result is well-formed base64
    and loses nothing: it has four characters for every started group of
    three bytes, uses only the 64 alphabet characters and [=], and two
    results are equal only if the bodies were. *)
Theorem base64_content_is_faithful (ct : string) (body body' : list byte) :
  String.length (b64encode body) = (4 * ((List.length body + 2) / 3))%nat /\
  all_chars b64_symbol (b64encode body) = true /\
  (base64_wrapper ct body = base64_wrapper ct body' -> body = body').
Proof.
  split; [apply b64encode_length|]. split; [apply b64encode_symbols|].
  unfold base64_wrapper. intros E. injection E as E.
  apply (f_equal b64decode) in E. rewrite !b64_roundtrip in E. now injection E.
Qed.

Lemma base64_content_is_faithful_witness :
  base64_wrapper "pdf" [x25; x50] = base64_wrapper "pdf" [x25; x50] /\
  String.length (b64encode [x25; x50]) = 4%nat /\
  [x25; x50] = [x25; x50].
Proof.
  pose proof (base64_content_is_faithful "pdf" [x25; x50] [x25; x50]) as (L & _ & I).
  split; [reflexivity|]. split; [exact L|exact (I eq_refl)].
Defined.

(** ** Replies that are not JSON *)

Section Garbled.

Variable w : env.
Variable resp : response.
Variable msg : string.
Hypothesis Hk : key_present (API_KEY w) = true.
Hypothesis Hs : forall r, send w r = Replied resp.
Hypothesis Hok : ok_status resp = true.
Hypothesis Hj : json_body resp = inl msg.

Ltac garbled :=
  rewrite ?Hk; exec; rewrite ?Hs; cbv beta iota zeta;
  fold (ok_status resp); rewrite ?Hok; cbv beta iota zeta;
  rewrite ?Hj; cbv beta iota zeta; reflexivity.

Lemma invoke_garbled c ctx :
  call_valid w c = true -> decodes_json c = true ->
  outcome_of (invoke w c ctx) = Raise (OtherError "JSONDecodeError" msg).
Proof.
  destruct c; cbn [invoke call_valid decodes_json]; intros Hv Hd;
    try discriminate Hd.
  - unfold get_collections. garbled.
  - unfold get_packages_by_collection.
    destruct (truthy start_date); cbn [negb orb] in *.
    + garbled.
    + rewrite (minus_days_year _ Hv), bind_ret_l. garbled.
  - unfold get_package_summary. garbled.
  - unfold get_published_packages. garbled.
  - unfold get_published_range. garbled.
  - unfold get_related_packages. garbled.
  - unfold get_granule_related. garbled.
  - unfold search_packages. garbled.
  - unfold advanced_search. garbled.
  - unfold search_statutes.
    destruct (truthy collection), (mem_str collection statute_codes);
      try discriminate Hv; cbn [negb andb]; garbled.
  - unfold get_uscode_title. garbled.
  - unfold get_public_laws_by_congress. cbv zeta.
    destruct (truthy law_type), (law_type_clause law_type); try discriminate Hv;
      rewrite bind_ret_l; garbled.
  - unfold get_statutes_at_large. garbled.
  - unfold get_statute_content. cbv zeta. rewrite Hv. cbn [negb]. garbled.
Qed.

End Garbled.

(** X18.  When a successful reply does not decode as JSON, every tool that
    reads JSON re-raises the decoding error; [get_package_content], which
    never decodes JSON, still returns the body (as text or base64). *)
Theorem undecodable_replies_raise
    (w : env) (resp : response) (msg : string) (c : tool_call) (ctx : bool)
    (Hk : key_present (API_KEY w) = true)
    (Hs : forall r, send w r = Replied resp)
    (Hok : ok_status resp = true)
    (Hj : json_body resp = inl msg)
    (Hv : call_valid w c = true) :
  (decodes_json c = true ->
   outcome_of (invoke w c ctx) = Raise (OtherError "JSONDecodeError" msg)) /\
  (forall p ct,
      c = GetPackageContent p ct ->
      outcome_of (invoke w c ctx)
      = Return (if is_textual ct then JStr (text resp)
                else base64_wrapper ct (content resp))).
Proof.
  split.
  - intros Hd. exact (invoke_garbled w resp msg Hk Hs Hok Hj c ctx Hv Hd).
  - intros p ct ->. cbn [invoke].
    now rewrite (content_outcome w p ct ctx Hk), Hs, Hok.
Qed.

Lemma undecodable_replies_raise_witness :
  key_present (API_KEY env_garbled) = true /\
  decodes_json (GetPackageSummary "BILLS-116hr1-ih") = true /\
  outcome_of (invoke env_garbled (GetPackageSummary "BILLS-116hr1-ih") false)
  = Raise (OtherError "JSONDecodeError" "Expecting value: line 1 column 1 (char 0)") /\
  outcome_of (invoke env_garbled (GetPackageContent "BILLS-116hr1-ih" "html") false)
  = Return (JStr "<h1>").
Proof.
  split; [reflexivity|]. split; [reflexivity|]. split.
  - exact (proj1 (undecodable_replies_raise env_garbled _ _
                    (GetPackageSummary "BILLS-116hr1-ih") false
                    eq_refl (fun _ => eq_refl) eq_refl eq_refl eq_refl) eq_refl).
  - exact (proj2 (undecodable_replies_raise env_garbled _ _
                    (GetPackageContent "BILLS-116hr1-ih" "html") false
                    eq_refl (fun _ => eq_refl) eq_refl eq_refl eq_refl) _ _ eq_refl).
Defined.

(** ** Query parameters of the listing tools *)

Lemma in_singleton {A} (x y : A) : In x [y] -> x = y.
Proof. intros [H|[]]. now symmetry. Qed.

Lemma packages_by_collection_params w c n dc sd ed ps om ctx r :
  In r (requests_of (trace_of (get_packages_by_collection w c n dc sd ed ps om ctx))) ->
  dict_get "pageSize" (request_params r) = Some (JInt ps)
  /\ dict_get "offsetMark" (request_params r) = Some (JStr om)
  /\ dict_get "congress" (request_params r) = option_map JInt n
  /\ dict_get "docClass" (request_params r) = sent_if_set dc.
Proof.
  pose proof (get_packages_by_collection_requests w c n dc sd ed ps om ctx) as N.
  unfold one_request_if in N.
  destruct (key_present (API_KEY w) && (truthy sd || year_back_in_range (utc_now w)))
    eqn:G; [|rewrite N; intros []].
  apply andb_prop in G as [Hk Hv]. clear N. unfold get_packages_by_collection.
  skip_prologue. rewrite Hk. cbn [negb]. skip_prologue.
  assert (E : exists stamp,
             (if negb (truthy sd) then
                default_date <- minus_days (utc_now w) 365 ;;
                ret (strftime_iso default_date)
              else ret (sd ++ "T00:00:00Z")) = ret stamp).
  { destruct (truthy sd); cbn [negb orb] in *; [eexists; reflexivity|].
    rewrite (minus_days_year _ Hv). eexists; reflexivity. }
  destruct E as [stamp ->]. rewrite bind_ret_l. cbv zeta.
  rewrite exchange_requests by (try apply quiet_on_error; quiet_tac).
  intros H. apply in_singleton in H. subst r. unfold sent_if_set.
  destruct n, (truthy dc); cbn; repeat split; reflexivity.
Qed.

Lemma published_packages_params w d c dc ps om ctx r :
  In r (requests_of (trace_of (get_published_packages w d c dc ps om ctx))) ->
  dict_get "pageSize" (request_params r) = Some (JInt ps)
  /\ dict_get "offsetMark" (request_params r) = Some (JStr om)
  /\ dict_get "collection" (request_params r) = sent_if_set c
  /\ dict_get "docClass" (request_params r) = sent_if_set dc.
Proof.
  unfold get_published_packages.
  destruct (key_present (API_KEY w)) eqn:Hk.
  - skip_prologue. cbn [negb]. skip_prologue. cbv zeta.
    rewrite exchange_requests by (try apply quiet_on_error; quiet_tac).
    intros H. apply in_singleton in H. subst r. unfold sent_if_set.
    destruct (truthy c), (truthy dc); cbn; repeat split; reflexivity.
  - run. intros [].
Qed.

Lemma published_range_params w sd ed c dc ms ps om ctx r :
  In r (requests_of (trace_of (get_published_range w sd ed c dc ms ps om ctx))) ->
  dict_get "pageSize" (request_params r) = Some (JInt ps)
  /\ dict_get "offsetMark" (request_params r) = Some (JStr om)
  /\ dict_get "collection" (request_params r) = Some (JStr c)
  /\ dict_get "docClass" (request_params r) = sent_if_set dc
  /\ dict_get "modifiedSince" (request_params r) = sent_if_set ms.
Proof.
  unfold get_published_range.
  destruct (key_present (API_KEY w)) eqn:Hk.
  - skip_prologue. cbn [negb]. skip_prologue. cbv zeta.
    rewrite exchange_requests by (try apply quiet_on_error; quiet_tac).
    intros H. apply in_singleton in H. subst r. unfold sent_if_set.
    destruct (truthy dc), (truthy ms); cbn; repeat split; reflexivity.
  - run. intros [].
Qed.

(** X19.  In the requests of the listing tools an unset filter is left out,
    never sent empty: [congress] is a parameter exactly when a number was
    given, [docClass], [modifiedSince] and the [collection] of
    [get_published_packages] exactly when the string is non-empty.  Only
    [get_published_range] sends [collection] whatever it is, empty or not.
    [pageSize] and [offsetMark] go out verbatim. *)
Theorem unset_filters_are_omitted (w : env) (r : request) :
  (forall c n dc sd ed ps om ctx,
      In r (requests_of
              (trace_of (get_packages_by_collection w c n dc sd ed ps om ctx))) ->
      dict_get "pageSize" (request_params r) = Some (JInt ps)
      /\ dict_get "offsetMark" (request_params r) = Some (JStr om)
      /\ dict_get "congress" (request_params r) = option_map JInt n
      /\ dict_get "docClass" (request_params r) = sent_if_set dc) /\
  (forall d c dc ps om ctx,
      In r (requests_of (trace_of (get_published_packages w d c dc ps om ctx))) ->
      dict_get "pageSize" (request_params r) = Some (JInt ps)
      /\ dict_get "offsetMark" (request_params r) = Some (JStr om)
      /\ dict_get "collection" (request_params r) = sent_if_set c
      /\ dict_get "docClass" (request_params r) = sent_if_set dc) /\
  (forall sd ed c dc ms ps om ctx,
      In r (requests_of (trace_of (get_published_range w sd ed c dc ms ps om ctx))) ->
      dict_get "pageSize" (request_params r) = Some (JInt ps)
      /\ dict_get "offsetMark" (request_params r) = Some (JStr om)
      /\ dict_get "collection" (request_params r) = Some (JStr c)
      /\ dict_get "docClass" (request_params r) = sent_if_set dc
      /\ dict_get "modifiedSince" (request_params r) = sent_if_set ms).
Proof.
  split; [|split]; intros.
  - now apply (packages_by_collection_params w c n dc sd ed ps om ctx).
  - now apply (published_packages_params w d c dc ps om ctx).
  - now apply (published_range_params w sd ed c dc ms ps om ctx).
Qed.

Lemma unset_filters_are_omitted_witness :
  In (GET "https://api.govinfo.gov/published/2024-01-01/2024-01-31"
          [("pageSize", JInt 50); ("offsetMark", JStr "*"); ("collection", JStr "")]
          [("X-Api-Key", "DEMO_KEY")] 30)
     (requests_of (trace_of (get_published_range env_ok "2024-01-01" "2024-01-31" ""
                               "" "" 50 "*" false))) /\
  dict_get "collection"
    [("pageSize", JInt 50); ("offsetMark", JStr "*"); ("collection", JStr "")]
  = Some (JStr "") /\
  dict_get "docClass"
    [("pageSize", JInt 50); ("offsetMark", JStr "*"); ("collection", JStr "")]
  = None.
Proof.
  assert (I : In (GET "https://api.govinfo.gov/published/2024-01-01/2024-01-31"
                      [("pageSize", JInt 50); ("offsetMark", JStr "*");
                       ("collection", JStr "")]
                      [("X-Api-Key", "DEMO_KEY")] 30)
                 (requests_of (trace_of (get_published_range env_ok "2024-01-01"
                                           "2024-01-31" "" "" "" 50 "*" false))))
    by (left; reflexivity).
  pose proof (proj2 (proj2 (unset_filters_are_omitted env_ok _))
                "2024-01-01" "2024-01-31" "" "" "" 50 "*" false I)
    as (_ & _ & C & D & _).
  split; [exact I|]. split; [exact C|exact D].
Defined.

(** ** The default start date *)

Ltac euclid := Z.to_euclidean_division_equations; lia.

Lemma days_before_year_split (n400 n100 n4 n1 : Z) :
  0 <= n400 -> 0 <= n100 <= 3 -> 0 <= n4 <= 24 -> 0 <= n1 <= 3 ->
  days_before_year (n400 * 400 + 1 + n100 * 100 + n4 * 4 + n1)
  = n400 * 146097 + n100 * 36524 + n4 * 1461 + n1 * 365.
Proof. intros. unfold days_before_year. cbv zeta. euclid. Qed.

Ltac split_mods :=
  repeat match goal with
  | |- context [?a mod ?b =? 0] =>
      let B := fresh "B" in
      destruct (a mod b =? 0) eqn:B; rewrite ?Z.eqb_eq, ?Z.eqb_neq in B
  end.

Lemma is_leap_split (n400 n100 n4 n1 : Z) :
  0 <= n400 -> 0 <= n100 <= 3 -> 0 <= n4 <= 24 -> 0 <= n1 <= 3 ->
  is_leap (n400 * 400 + 1 + n100 * 100 + n4 * 4 + n1)
  = (n1 =? 3) && (negb (n4 =? 24) || (n100 =? 3)).
Proof.
  intros. unfold is_leap.
  destruct (n1 =? 3) eqn:E1; destruct (n4 =? 24) eqn:E4; destruct (n100 =? 3) eqn:E100;
    cbn [andb orb negb]; rewrite ?Z.eqb_eq, ?Z.eqb_neq in *;
    split_mods; cbn [andb orb negb]; try reflexivity; exfalso; euclid.
Qed.

Lemma month_and_day_checked :
  forallb (fun k => month_and_day_ok true (Z.of_nat k)
                    && month_and_day_ok false (Z.of_nat k)) (seq 0 365) = true.
Proof. vm_compute. reflexivity. Qed.

Lemma month_and_day_spec (leapyear : bool) (n : Z) :
  0 <= n <= 364 -> month_and_day_ok leapyear n = true.
Proof.
  intros H. pose proof month_and_day_checked as C.
  rewrite forallb_forall in C.
  specialize (C (Z.to_nat n)). rewrite Z2Nat.id in C by lia.
  assert (I : In (Z.to_nat n) (seq 0 365)) by (apply in_seq; lia).
  apply C in I. apply andb_prop in I as [T F]. now destruct leapyear.
Qed.

(** [ord2ymd] gives a date of the calendar, and [ymd2ord] takes it back to
    the ordinal. *)
Lemma ord2ymd_inverts (n : Z) :
  1 <= n <= MAXORDINAL ->
  let '(y, m, d) := ord2ymd n in
  ymd2ord y m d = n /\ 1 <= y <= 9999 /\ 1 <= m <= 12
  /\ 1 <= d <= days_in_month y m.
Proof.
  unfold MAXORDINAL, days_in_month. intros Hn.
  unfold ord2ymd, DI400Y, DI100Y, DI4Y. cbv zeta.
  set (n0 := n - 1).
  set (n400 := n0 / 146097). set (r1 := n0 mod 146097).
  set (n100 := r1 / 36524). set (r2 := r1 mod 36524).
  set (n4 := r2 / 1461). set (r3 := r2 mod 1461).
  set (n1 := r3 / 365). set (r4 := r3 mod 365).
  assert (E0 : n0 = 146097 * n400 + r1 /\ 0 <= r1 < 146097 /\ 0 <= n400 <= 24)
    by (subst n400 r1 n0; euclid).
  assert (E1 : r1 = 36524 * n100 + r2 /\ 0 <= r2 < 36524 /\ 0 <= n100 <= 4)
    by (subst n100 r2; euclid).
  assert (E2 : r2 = 1461 * n4 + r3 /\ 0 <= r3 < 1461 /\ 0 <= n4 <= 24)
    by (subst n4 r3; euclid).
  assert (E3 : r3 = 365 * n1 + r4 /\ 0 <= r4 < 365 /\ 0 <= n1 <= 4)
    by (subst n1 r4; euclid).
  clearbody n400 r1 n100 r2 n4 r3 n1 r4.
  destruct ((n1 =? 4) || (n100 =? 4)) eqn:S.
  - (* the last day of a leap year *)
    assert (L : is_leap (n400 * 400 + 1 + n100 * 100 + n4 * 4 + n1 - 1) = true).
    { unfold is_leap. apply orb_prop in S. rewrite !Z.eqb_eq in S.
      split_mods; cbn [andb orb negb]; try reflexivity; exfalso; euclid. }
    unfold ymd2ord, days_before_month. rewrite L.
    change (DAYS_BEFORE_MONTH 12) with 334. change (DAYS_IN_MONTH 12) with 31.
    cbn [Z.ltb Z.eqb Z.compare Pos.compare Pos.compare_cont andb].
    apply orb_prop in S. rewrite !Z.eqb_eq in S.
    unfold days_before_year. cbv zeta. subst n0.
    repeat split; try lia; try euclid. cbn. lia.
  - apply orb_false_iff in S as [S1 S2]. rewrite Z.eqb_neq in S1, S2.
    assert (B100 : 0 <= n100 <= 3) by lia. assert (B1 : 0 <= n1 <= 3) by lia.
    pose proof (month_and_day_spec ((n1 =? 3) && (negb (n4 =? 24) || (n100 =? 3))) r4
                  ltac:(lia)) as M.
    unfold month_and_day_ok, month_and_day in M. cbv zeta in M.
    set (leapyear := (n1 =? 3) && (negb (n4 =? 24) || (n100 =? 3))) in *.
    set (m := Z.shiftr (r4 + 50) 5) in *.
    set (y := n400 * 400 + 1 + n100 * 100 + n4 * 4 + n1).
    assert (Ly : is_leap y = leapyear) by (apply is_leap_split; lia).
    assert (Dy : days_before_year y
                 = n400 * 146097 + n100 * 36524 + n4 * 1461 + n1 * 365)
      by (apply days_before_year_split; lia).
    destruct (r4 <? DAYS_BEFORE_MONTH m + (if (2 <? m) && leapyear then 1 else 0));
      unfold ymd2ord, days_before_month; rewrite Ly, Dy;
      repeat (apply andb_prop in M as [M ?]);
      rewrite ?Z.leb_le, ?Z.eqb_eq in *; repeat split; try lia.
Qed.

Lemma clock_date_in_range (now : datetime) :
  clock_date now = true -> year_back_in_range now = true.
Proof.
  unfold clock_date, year_back_in_range, days_in_month. intros H.
  repeat (apply andb_prop in H as [H ?]). rewrite ?Z.leb_le in *.
  cbv zeta. unfold ymd2ord, days_before_month, MAXORDINAL.
  assert (M : 0 <= DAYS_BEFORE_MONTH (month now) <= 334
              /\ DAYS_IN_MONTH (month now) <= 31).
  { assert (C : month now = 1 \/ month now = 2 \/ month now = 3 \/ month now = 4
                \/ month now = 5 \/ month now = 6 \/ month now = 7 \/ month now = 8
                \/ month now = 9 \/ month now = 10 \/ month now = 11
                \/ month now = 12) by lia.
    repeat (destruct C as [C|C]; [rewrite C; vm_compute; intuition discriminate|]).
    rewrite C. vm_compute. intuition discriminate. }
  assert (Y : 365 <= days_before_year (year now) <= 3651694).
  { unfold days_before_year. cbv zeta. euclid. }
  apply andb_true_intro. rewrite !Z.leb_le.
  destruct ((2 <? month now) && is_leap (year now));
    destruct ((month now =? 2) && is_leap (year now)); lia.
Qed.

(** X20.  Whenever the clock shows a calendar date of the years 2..9999, the
    default start of [get_packages_by_collection] never overflows, so the
    configured call sends its one request, and the date put in the path is
    itself a calendar date lying exactly 365 days before the clock's date
    (one day short of a year when a 29 February falls in between). *)
Theorem default_start_is_365_days_back
    (w : env) (c : string) (n : option Z) (dc ed : string) (ps : Z) (om : string)
    (ctx : bool)
    (Hk : key_present (API_KEY w) = true)
    (Hc : clock_date (utc_now w) = true) :
  (exists r,
      requests_of (trace_of (get_packages_by_collection w c n dc "" ed ps om ctx))
      = [r]) /\
  (let '(y, m, d) := date_365_days_before (utc_now w) in
   ymd2ord y m d
   = ymd2ord (year (utc_now w)) (month (utc_now w)) (day (utc_now w)) - 365
   /\ 1 <= y <= 9999 /\ 1 <= m <= 12 /\ 1 <= d <= days_in_month y m).
Proof.
  pose proof (clock_date_in_range _ Hc) as Hr. split.
  - pose proof (get_packages_by_collection_requests w c n dc "" ed ps om ctx) as R.
    unfold one_request_if in R. rewrite Hk, Hr in R. cbn in R.
    destruct R as (r & R & _). now exists r.
  - unfold date_365_days_before. apply ord2ymd_inverts.
    unfold year_back_in_range in Hr. cbv zeta in Hr.
    apply andb_prop in Hr as [H1 H2]. rewrite Z.leb_le in H1, H2. lia.
Qed.

Lemma default_start_is_365_days_back_witness :
  key_present (API_KEY env_ok) = true /\
  clock_date (utc_now env_ok) = true /\
  date_365_days_before (utc_now env_ok) = (2024, 6, 15) /\
  ymd2ord 2024 6 15 = ymd2ord 2025 6 15 - 365.
Proof.
  pose proof (proj2 (default_start_is_365_days_back env_ok "BILLS" None "" "" 50 "*"
                       false eq_refl eq_refl)) as D.
  split; [reflexivity|]. split; [reflexivity|]. split; [reflexivity|].
  exact (proj1 D).
Defined.
